(** * ez-ledger: billing cycle, interest, fee and dual-ledger reconciliation

    A shallow embedding of the Go sources of ez-ledger
    (models/credit_card.go, models/billing_cycle.go, models/payment.go,
    models/points_ledger.go, the statement-ledger model, the services
    interest_service.go, fee_service.go, payment_service.go,
    points_ledger_service.go, statement_ledger_service.go,
    ledger_reconciliation_service.go, and the CHECK constraints of
    migrations 001 and 002), followed by the properties established about
    them.

    Conventions.
    - [decimal.Decimal] (github.com/shopspring/decimal) is a coefficient and
      a base-10 exponent; the operations below follow that library:
      [Add], [Sub], [Mul] are exact, [Div] rounds the quotient to
      [DivisionPrecision] = 16 decimal places and panics on a zero divisor,
      [Round] rounds half away from zero.  The exponent is an int32 in the
      library and an unbounded [Z] here (the library panics on overflow).
    - Go's [int] is a 64-bit integer: arithmetic on it is written with
      [wrap64].
    - [time.Time] is an instant in nanoseconds, [uuid.UUID] a number,
      [uuid.Nil] is 0.
    - The database behind [*sql.DB] is a record of tables (lists of rows in
      insertion order).  [uuid.New()] and [time.Now()] read two streams of
      the environment.  An INSERT checks the column types and the CHECK
      constraints of the migrations; referential constraints towards tables
      that are not modelled (tenants, statements, credit_cards) are taken to
      hold.  A connection that is down makes every database call fail. *)

From Stdlib Require Import ZArith QArith Qabs Qminmax Qpower Qround List String Ascii Bool Lia DecimalString.
From Stdlib Require Psatz.
Import ListNotations.

Local Open Scope Z_scope.

(* ===================================================================== *)
(** * Outcomes of Go calls *)
(* ===================================================================== *)

(** A Go call returns normally, returns a non-nil [error], or panics. *)
Inductive outcome (A : Type) : Type :=
| Ok (a : A)
| Error (msg : string)
| Panic (msg : string).

Arguments Ok {A} a.
Arguments Error {A} msg.
Arguments Panic {A} msg.

Definition obind {A B : Type} (o : outcome A) (k : A -> outcome B) : outcome B :=
  match o with
  | Ok a => k a
  | Error e => Error e
  | Panic m => Panic m
  end.

Declare Scope outcome_scope.
Delimit Scope outcome_scope with outcome.
Notation "'let!' x ':=' c 'in' k" :=
  (obind c (fun x => k))
  (at level 10, x name, c at level 100, k at level 200)
  : outcome_scope.

(** Go [int] (64 bits, two's complement). *)
Definition wrap64 (z : Z) : Z := (z + 2 ^ 63) mod 2 ^ 64 - 2 ^ 63.

(* ===================================================================== *)
(** * decimal.Decimal *)
(* ===================================================================== *)

Module Decimal.

(** [value * 10 ^ exp]. *)
Record t : Type := mk { value : Z; exp : Z }.

Definition New (v e : Z) : t := mk v e.
Definition NewFromInt (v : Z) : t := mk v 0.

(** [var Zero = New(0, 1)]. *)
Definition Zero : t := New 0 1.

Definition DivisionPrecision : Z := 16.

(** [rescale]: same number at exponent [e]; digits below [e] are
    dropped (big.Int.Quo truncates towards zero). *)
Definition rescale (d : t) (e : Z) : t :=
  if exp d =? e then d
  else
    let diff := Z.abs (e - exp d) in
    let expScale := 10 ^ diff in
    if exp d <? e then mk (Z.quot (value d) expScale) e
    else mk (value d * expScale) e.

Definition RescalePair (d1 d2 : t) : t * t :=
  if exp d1 <? exp d2 then (d1, rescale d2 (exp d1))
  else if exp d2 <? exp d1 then (rescale d1 (exp d2), d2)
  else (d1, d2).

Definition Add (d d2 : t) : t :=
  let '(rd, rd2) := RescalePair d d2 in
  mk (value rd + value rd2) (exp rd).

Definition Sub (d d2 : t) : t :=
  let '(rd, rd2) := RescalePair d d2 in
  mk (value rd - value rd2) (exp rd).

Definition Neg (d : t) : t := mk (- value d) (exp d).

Definition Abs (d : t) : t := mk (Z.abs (value d)) (exp d).

Definition Mul (d d2 : t) : t := mk (value d * value d2) (exp d + exp d2).

(** [Cmp]: -1, 0 or 1. *)
Definition Cmp (d d2 : t) : comparison :=
  let '(rd, rd2) := RescalePair d d2 in
  Z.compare (value rd) (value rd2).

Definition Equal (d d2 : t) : bool :=
  match Cmp d d2 with Eq => true | _ => false end.
Definition LessThan (d d2 : t) : bool :=
  match Cmp d d2 with Lt => true | _ => false end.
Definition LessThanOrEqual (d d2 : t) : bool :=
  match Cmp d d2 with Gt => false | _ => true end.
Definition GreaterThan (d d2 : t) : bool :=
  match Cmp d d2 with Gt => true | _ => false end.
Definition GreaterThanOrEqual (d d2 : t) : bool :=
  match Cmp d d2 with Lt => false | _ => true end.

Definition Sign (d : t) : Z := Z.sgn (value d).
Definition IsPositive (d : t) : bool := Sign d =? 1.

(** The coefficient arithmetic of [Round], on a coefficient that carries
    one digit more than asked for. *)
Definition round_last_digit (t : Z) : Z :=
  (* add sign(d) * 0.5 *)
  let v := if Z.sgn t <? 0 then t - 5 else t + 5 in
  (* floor for positive numbers, ceil for negative numbers;
     big.Int.DivMod is Euclidean, the divisor is positive *)
  let q := v / 10 in
  let m := v mod 10 in
  if (Z.sgn q <? 0) && negb (m =? 0) then q + 1 else q.

(** [Round]: to [places] decimal places, half away from zero. *)
Definition Round (d : t) (places : Z) : t :=
  if exp d =? - places then d
  else
    (* truncate to places + 1 *)
    let ret := rescale d (- places - 1) in
    mk (round_last_digit (value ret)) (exp ret + 1).

(** [QuoRem] at [precision]: the quotient truncated towards zero at
    exponent [-precision] and the numerator and denominator it was
    computed from; the caller has excluded a zero divisor. *)
Definition QuoRem_operands (d d2 : t) (precision : Z) : Z * Z :=
  let scale := - precision in
  let e := exp d - exp d2 - scale in
  if e <? 0 then (value d, value d2 * 10 ^ (- e))
  else (value d * 10 ^ e, value d2).

(** [DivRound]: quotient rounded half away from zero at [precision]
    places.  The library compares twice the remainder with the divisor:
    after scaling both to the same exponent this is [2 * |r|] against
    [|bb|]. *)
Definition DivRound_nz (d d2 : t) (precision : Z) : t :=
  let '(aa, bb) := QuoRem_operands d d2 precision in
  let q := Z.quot aa bb in
  let r := Z.rem aa bb in
  if 2 * Z.abs r <? Z.abs bb then mk q (- precision)
  else if Z.sgn (value d) * Z.sgn (value d2) <? 0 then mk (q - 1) (- precision)
  else mk (q + 1) (- precision).

Definition DivRound (d d2 : t) (precision : Z) : outcome t :=
  if value d2 =? 0 then Panic "decimal division by 0"
  else Ok (DivRound_nz d d2 precision).

Definition Div (d d2 : t) : outcome t := DivRound d d2 DivisionPrecision.

(** [IntPart]: the integer part, truncated towards zero. *)
Definition IntPart (d : t) : Z := value (rescale d 0).

(** The rational number a decimal stands for. *)
Definition toQ (d : t) : Q := (inject_Z (value d) * Qpower (10 # 1) (exp d))%Q.

End Decimal.

Abbreviation decimal := Decimal.t.

(* ===================================================================== *)
(** * Basic types *)
(* ===================================================================== *)

Definition UUID : Type := Z.
Definition uuid_Nil : UUID := 0.

(** [time.Time]: nanoseconds since the epoch. *)
Definition Time : Type := Z.
Definition time_Hour : Z := 3600 * 1000000000.

Definition Time_After (t u : Time) : bool := u <? t.
Definition Time_Before (t u : Time) : bool := t <? u.
Definition Time_Equal (t u : Time) : bool := t =? u.

(** [int(t.Sub(u).Hours() / 24)]: whole days between two instants, the
    conversion to [int] truncating towards zero. *)
Definition days_between (t u : Time) : Z := Z.quot (t - u) (24 * time_Hour).

(** [%d] of fmt. *)
Definition fmt_d (z : Z) : string := NilZero.string_of_int (Z.to_int z).

(* ===================================================================== *)
(** * models/credit_card.go *)
(* ===================================================================== *)

Module CreditCardStatus.
Definition Active : string := "active".
Definition Frozen : string := "frozen".
Definition Closed : string := "closed".
Definition Delinquent : string := "delinquent".
End CreditCardStatus.

Record CreditCard : Type := mkCreditCard {
  cc_ID : UUID;
  cc_TenantID : UUID;
  cc_CreditLimit : decimal;
  cc_AvailableCredit : decimal;
  cc_PurchaseAPR : decimal;
  cc_CashAdvanceAPR : decimal;
  cc_PenaltyAPR : decimal;
  cc_IntroductoryAPR : decimal;
  cc_IntroductoryEndDate : option Time;
  cc_AnnualFee : decimal;
  cc_LatePaymentFee : decimal;
  cc_FailedPaymentFee : decimal;
  cc_InternationalFeeRate : decimal;
  cc_CashAdvanceFee : decimal;
  cc_CashAdvanceFeeRate : decimal;
  cc_OverLimitFee : decimal;
  cc_BillingCycleType : string;
  cc_BillingCycleDay : Z;
  cc_PaymentDueDays : Z;
  cc_GracePeriodDays : Z;
  cc_MinimumPaymentPercent : decimal;
  cc_MinimumPaymentAmount : decimal;
  cc_CashbackEnabled : bool;
  cc_CashbackRate : decimal;
  cc_CashbackRedemptionMin : decimal;
  cc_Status : string;
  cc_ConsecutiveLateCount : Z
}.

Module CreditCardM.
Import Decimal.
Local Open Scope outcome_scope.

Definition ErrInvalidCreditLimit : string := "credit limit must be positive".
Definition ErrInvalidAPR : string := "APR must be between 0 and 100".
Definition ErrInvalidBillingCycleDay : string := "billing cycle day must be between 1 and 28".
Definition ErrInvalidMinimumPayment : string := "minimum payment percent must be between 0 and 100".

(** [Validate]: [None] is the nil error. *)
Definition Validate (c : CreditCard) : option string :=
  if LessThanOrEqual (cc_CreditLimit c) Zero then Some ErrInvalidCreditLimit
  else
    let hundred := NewFromInt 100 in
    if LessThan (cc_PurchaseAPR c) Zero || GreaterThan (cc_PurchaseAPR c) hundred
    then Some ErrInvalidAPR
    else if (cc_BillingCycleDay c <? 1) || (28 <? cc_BillingCycleDay c)
    then Some ErrInvalidBillingCycleDay
    else if LessThan (cc_MinimumPaymentPercent c) Zero
            || GreaterThan (cc_MinimumPaymentPercent c) hundred
    then Some ErrInvalidMinimumPayment
    else None.

Definition GetEffectiveAPR (c : CreditCard) (now : Time) : decimal :=
  if String.eqb (cc_Status c) CreditCardStatus.Delinquent then cc_PenaltyAPR c
  else
    match cc_IntroductoryEndDate c with
    | Some e => if Time_Before now e then cc_IntroductoryAPR c else cc_PurchaseAPR c
    | None => cc_PurchaseAPR c
    end.

(** DPR = APR / 365, as a fraction. *)
Definition GetDailyPeriodicRate (c : CreditCard) (apr : decimal) : outcome decimal :=
  let daysInYear := NewFromInt 365 in
  let! perDay := Div apr daysInYear in
  Div perDay (NewFromInt 100).


Definition ErrCardFrozen : string := "card is frozen".
Definition ErrCardClosed : string := "card is closed".
Definition ErrInsufficientCredit : string := "insufficient available credit".

(** [CanTransact]: [None] is the nil error. *)
Definition CanTransact (c : CreditCard) : option string :=
  if String.eqb (cc_Status c) CreditCardStatus.Frozen then Some ErrCardFrozen
  else if String.eqb (cc_Status c) CreditCardStatus.Closed then Some ErrCardClosed
  else None.

Definition HasAvailableCredit (c : CreditCard) (amount : decimal) : option string :=
  if GreaterThan amount (cc_AvailableCredit c) then Some ErrInsufficientCredit
  else None.


(** The greater of: flat fee or percentage of amount. *)
Definition CalculateCashAdvanceFee (c : CreditCard) (amount : decimal)
  : outcome decimal :=
  let! percentFee := Div (Mul amount (cc_CashAdvanceFeeRate c)) (NewFromInt 100) in
  if LessThan percentFee (cc_CashAdvanceFee c)
  then Ok (cc_CashAdvanceFee c)
  else Ok percentFee.

End CreditCardM.

(* ===================================================================== *)
(** * models/billing_cycle.go *)
(* ===================================================================== *)

Module BillingCycleStatus.
Definition Open : string := "open".
Definition Closed : string := "closed".
Definition Paid : string := "paid".
Definition PaidFull : string := "paid_full".
Definition PastDue : string := "past_due".
Definition Delinquent : string := "delinquent".
End BillingCycleStatus.

Record BillingCycle : Type := mkBillingCycle {
  bc_ID : UUID;
  bc_CreditCardID : UUID;
  bc_TenantID : UUID;
  bc_CycleNumber : Z;
  bc_CycleStartDate : Time;
  bc_CycleEndDate : Time;
  bc_DueDate : Time;
  bc_GracePeriodEnd : Time;
  bc_PreviousBalance : decimal;
  bc_PaymentsReceived : decimal;
  bc_PurchasesAmount : decimal;
  bc_CashAdvancesAmount : decimal;
  bc_RefundsAmount : decimal;
  bc_FeesAmount : decimal;
  bc_InterestAmount : decimal;
  bc_AdjustmentsAmount : decimal;
  bc_CashbackEarned : decimal;
  bc_CashbackRedeemed : decimal;
  bc_NewBalance : decimal;
  bc_MinimumPayment : decimal;
  bc_AverageDailyBalance : decimal;
  bc_DaysInCycle : Z;
  bc_APRApplied : decimal;
  bc_PaymentsMade : decimal;
  bc_MinimumPaymentMet : bool;
  bc_Status : string
}.

Record DailyBalanceRecord : Type := mkDailyBalanceRecord {
  dbr_Date : Time;
  dbr_Balance : decimal
}.

Module BillingCycleM.
Import Decimal.
Local Open Scope outcome_scope.

(** Previous Balance - Payments + Purchases + Cash Advances - Refunds
    + Fees + Interest + Adjustments - Cashback Redeemed. *)
Definition CalculateNewBalance (bc : BillingCycle) : decimal :=
  let balance :=
    Sub (Add (Add (Add (Sub (Add (Add (Sub (bc_PreviousBalance bc)
                                           (bc_PaymentsReceived bc))
                                      (bc_PurchasesAmount bc))
                                 (bc_CashAdvancesAmount bc))
                            (bc_RefundsAmount bc))
                       (bc_FeesAmount bc))
                  (bc_InterestAmount bc))
             (bc_AdjustmentsAmount bc))
        (bc_CashbackRedeemed bc) in
  balance.

Definition GetRemainingBalance (bc : BillingCycle) : decimal :=
  Sub (bc_NewBalance bc) (bc_PaymentsMade bc).


Definition IsPaidInFull (bc : BillingCycle) : bool :=
  GreaterThanOrEqual (bc_PaymentsMade bc) (bc_NewBalance bc).

Definition GetRemainingMinimum (bc : BillingCycle) : decimal :=
  let remaining := Sub (bc_MinimumPayment bc) (bc_PaymentsMade bc) in
  if LessThan remaining Zero then Zero else remaining.

(** The zero value of [decimal.Decimal] is 0 at exponent 0. *)
Definition zero_value : decimal := mk 0 0.

(** ADB = sum of daily balances / number of days. *)
Definition CalculateAverageDailyBalance (records : list DailyBalanceRecord)
  : outcome decimal :=
  if (Z.of_nat (List.length records) =? 0) then Ok Zero
  else
    let totalBalance :=
      fold_left (fun total record => Add total (dbr_Balance record)) records zero_value in
    let days := NewFromInt (Z.of_nat (List.length records)) in
    let! mean := Div totalBalance days in
    Ok (Round mean 2).

End BillingCycleM.

(* ===================================================================== *)
(** * Ledger entries (statement and points ledgers) *)
(* ===================================================================== *)

Module EntryType.
Definition Transaction : string := "transaction".
Definition Payment : string := "payment".
Definition Refund : string := "refund".
Definition Reward : string := "reward".
Definition ReturnedReward : string := "returned_reward".
Definition FeeLate : string := "fee_late".
Definition FeeFailed : string := "fee_failed".
Definition FeeInternational : string := "fee_international".
Definition FeeInterest : string := "fee_interest".
Definition FeeOverLimit : string := "fee_over_limit".
Definition FeeAnnual : string := "fee_annual".
Definition FeeCashAdvance : string := "fee_cash_advance".
Definition CashAdvance : string := "cash_advance".
Definition CashbackEarned : string := "cashback_earned".
Definition CashbackRedeemed : string := "cashback_redeemed".
Definition Adjustment : string := "adjustment".
Definition Credit : string := "credit".
End EntryType.

Module EntryStatus.
Definition Pending : string := "pending".
Definition Cleared : string := "cleared".
Definition Reversed : string := "reversed".
End EntryStatus.

Record StatementLedgerEntry : Type := mkStatementLedgerEntry {
  sle_ID : UUID;
  sle_TenantID : UUID;
  sle_StatementID : option UUID;
  sle_EntryType : string;
  sle_EntryDate : Time;
  sle_PostingDate : Time;
  sle_Amount : decimal;
  sle_Description : string;
  sle_ReferenceID : option string;
  sle_Status : string;
  sle_CreatedAt : Time
}.

(** models/statement_ledger.go: the sign of an entry in balance
    calculations. *)
Module StatementLedgerEntryM.
Import EntryType.

(** [IsDebit]: whether the entry increases the statement balance. *)
Definition IsDebit (e : StatementLedgerEntry) : bool :=
  let entry_type_in := existsb (String.eqb (sle_EntryType e)) in
  if entry_type_in [Transaction; CashAdvance; FeeLate; FeeFailed; FeeInternational;
                    FeeInterest; FeeOverLimit; FeeAnnual; FeeCashAdvance; ReturnedReward]
  then true
  else if entry_type_in [Payment; Refund; Reward; Credit; CashbackRedeemed]
  then false
  else if entry_type_in [Adjustment; CashbackEarned]
  then
    (* Adjustments and cashback earned can be either debit or credit based
       on amount sign *)
    Decimal.IsPositive (sle_Amount e)
  else false.

(** [GetSignedAmount]: positive increases the statement balance (debit),
    negative decreases it (credit). *)
Definition GetSignedAmount (e : StatementLedgerEntry) : decimal :=
  if IsDebit e then Decimal.Abs (sle_Amount e)
  else Decimal.Neg (Decimal.Abs (sle_Amount e)).

End StatementLedgerEntryM.

Module PointsEntryType.
Definition EarnedTransaction : string := "earned_transaction".
Definition EarnedRefund : string := "earned_refund".
Definition RedeemedSpent : string := "redeemed_spent".
Definition RedeemedCancelled : string := "redeemed_cancelled".
Definition RedeemedRefunded : string := "redeemed_refunded".
Definition Adjustment : string := "adjustment".
End PointsEntryType.

Record PointsLedgerEntry : Type := mkPointsLedgerEntry {
  ple_ID : UUID;
  ple_TenantID : UUID;
  ple_StatementEntryID : option UUID;
  ple_EntryType : string;
  ple_EntryDate : Time;
  ple_Points : Z;
  ple_Description : string;
  ple_ExternalPlatform : option string;
  ple_ExternalReferenceID : option string;
  ple_TransactionAmount : option decimal;
  ple_PointsRate : option decimal
}.

Record StatementBalance : Type := mkStatementBalance {
  sb_TenantID : UUID;
  sb_CurrentBalance : decimal;
  sb_TotalEntries : Z
}.

(** models/points_ledger.go: earning rule. *)
Record PointsEarningRule : Type := mkPointsEarningRule {
  per_PointsPerDollar : decimal;
  per_MinAmount : decimal;
  per_MaxPoints : option Z
}.

Module PointsEarningRuleM.
Import Decimal.

(** [big.Int.Int64]: the low 64 bits of the magnitude as an int64, negated
    for a negative number (the value itself when it fits). *)
Definition Int64 (z : Z) : Z :=
  let v := wrap64 (Z.abs z mod 2 ^ 64) in
  if z <? 0 then wrap64 (- v) else v.

Definition CalculatePointsEarned (r : PointsEarningRule) (amount : decimal) : Z :=
  if LessThan amount (per_MinAmount r) then 0
  else
    let points := Int64 (IntPart (Mul amount (per_PointsPerDollar r))) in
    match per_MaxPoints r with
    | Some maxPoints => if maxPoints <? points then maxPoints else points
    | None => points
    end.

End PointsEarningRuleM.

(** models/cashback.go: categories and the earning rule. *)
Record CashbackCategory : Type := mkCashbackCategory {
  cat_CategoryCode : string;
  cat_CategoryName : string;
  cat_BonusRate : decimal;
  cat_MaxBonus : option decimal;
  cat_IsActive : bool;
  cat_StartDate : option Time;
  cat_EndDate : option Time
}.

Record CashbackEarningRule : Type := mkCashbackEarningRule {
  cer_BaseRate : decimal;
  cer_MinTransaction : decimal;
  cer_MaxCashbackPerTx : option decimal;
  (** map[string]CashbackCategory, by category code *)
  cer_CategoryRules : list (string * CashbackCategory)
}.

Module CashbackM.
Import Decimal.
Local Open Scope outcome_scope.

(** [IsActiveOn]: whether the category bonus is active on a date. *)
Definition IsActiveOn (c : CashbackCategory) (date : Time) : bool :=
  if negb (cat_IsActive c) then false
  else if match cat_StartDate c with
          | Some s => Time_Before date s
          | None => false
          end
  then false
  else if match cat_EndDate c with
          | Some e => Time_After date e
          | None => false
          end
  then false
  else true.

Fixpoint lookup (code : string) (rules : list (string * CashbackCategory))
  : option CashbackCategory :=
  match rules with
  | [] => None
  | (k, v) :: rest => if String.eqb code k then Some v else lookup code rest
  end.

(** [CalculateCashback]: the cashback and the rate applied. *)
Definition CalculateCashback (r : CashbackEarningRule) (amount : decimal)
           (categoryCode : string) (txDate : Time) : outcome (decimal * decimal) :=
  (* Check minimum transaction amount *)
  if LessThan amount (cer_MinTransaction r) then Ok (Zero, Zero)
  else
    (* Determine effective rate (base or category bonus) *)
    let rate :=
      match lookup categoryCode (cer_CategoryRules r) with
      | Some cat =>
          if IsActiveOn cat txDate && GreaterThan (cat_BonusRate cat) (cer_BaseRate r)
          then cat_BonusRate cat
          else cer_BaseRate r
      | None => cer_BaseRate r
      end in
    (* Calculate cashback *)
    let! percent := Div (Mul amount rate) (NewFromInt 100) in
    let cashback := Round percent 2 in
    (* Apply per-transaction cap if configured *)
    match cer_MaxCashbackPerTx r with
    | Some cap => if GreaterThan cashback cap then Ok (cap, rate) else Ok (cashback, rate)
    | None => Ok (cashback, rate)
    end.

End CashbackM.

Record PointsBalance : Type := mkPointsBalance {
  pb_TenantID : UUID;
  pb_EarnedPoints : Z;
  pb_RedeemedPoints : Z;
  pb_AvailablePoints : Z;
  pb_TotalEntries : Z
}.

(* ===================================================================== *)
(** * The database and the environment *)
(* ===================================================================== *)

Record World : Type := mkWorld {
  conn_ok : bool;
  statement_ledger_entries : list StatementLedgerEntry;
  points_ledger_entries : list PointsLedgerEntry;
  billing_cycles : list BillingCycle;
  uuid_stream : nat -> UUID;
  uuid_drawn : nat;
  clock : nat -> Time;
  clock_reads : nat
}.

(** A Go function that reads or writes the world. *)
Definition M (A : Type) : Type := World -> outcome A * World.

Definition ret {A : Type} (a : A) : M A := fun w => (Ok a, w).

Definition fail {A : Type} (msg : string) : M A := fun w => (Error msg, w).

(** A failed call keeps what it has already written: nothing is undone. *)
Definition bind {A B : Type} (c : M A) (k : A -> M B) : M B :=
  fun w =>
    match c w with
    | (Ok a, w') => k a w'
    | (Error e, w') => (Error e, w')
    | (Panic m, w') => (Panic m, w')
    end.

Definition lift {A : Type} (o : outcome A) : M A := fun w => (o, w).

(** [if err := c; err != nil { return fmt.Errorf(prefix + ": %w", err) }]. *)
Definition wrap_err {A : Type} (prefix : string) (c : M A) : M A :=
  fun w =>
    match c w with
    | (Error e, w') => (Error (prefix ++ ": " ++ e)%string, w')
    | r => r
    end.

Declare Scope go_scope.
Delimit Scope go_scope with go.
Notation "x <- c ;; k" := (bind c (fun x => k))
  (at level 61, c at next level, right associativity) : go_scope.
Notation "c ;;; k" := (bind c (fun _ => k))
  (at level 61, right associativity) : go_scope.

Definition after_uuid (w : World) : World :=
  mkWorld (conn_ok w) (statement_ledger_entries w) (points_ledger_entries w)
          (billing_cycles w) (uuid_stream w) (S (uuid_drawn w))
          (clock w) (clock_reads w).

Definition after_clock_read (w : World) : World :=
  mkWorld (conn_ok w) (statement_ledger_entries w) (points_ledger_entries w)
          (billing_cycles w) (uuid_stream w) (uuid_drawn w)
          (clock w) (S (clock_reads w)).

Definition uuid_New : M UUID :=
  fun w => (Ok (uuid_stream w (uuid_drawn w)), after_uuid w).

Definition time_Now : M Time :=
  fun w => (Ok (clock w (clock_reads w)), after_clock_read w).

Definition ErrConnDone : string := "sql: connection is already closed".
Definition ErrNoRows : string := "sql: no rows in result set".

Module Schema.
Import Decimal.

(** A DECIMAL(precision, scale) column rounds what it is given to [scale]
    places and refuses a value of [precision - scale] or more integer
    digits. *)
Definition numeric (precision scale : Z) (d : decimal) : option decimal :=
  let r := Round d scale in
  if Z.abs (value r) <? 10 ^ precision then Some r else None.

Definition numeric_opt (precision scale : Z) (d : option decimal)
  : option (option decimal) :=
  match d with
  | None => Some None
  | Some x => match numeric precision scale x with
              | Some r => Some (Some r)
              | None => None
              end
  end.

(** INTEGER column. *)
Definition integer (z : Z) : bool := (- 2 ^ 31 <=? z) && (z <? 2 ^ 31).

(** [s LIKE 'p_%']: [p], one character, then anything. *)
Definition like_prefix_any (p s : string) : bool :=
  String.prefix p s && (Nat.ltb (String.length p) (String.length s)).

Definition statement_entry_type : list string :=
  [ "transaction"; "payment"; "refund"; "reward"; "returned_reward";
    "fee_late"; "fee_failed"; "fee_international"; "adjustment"; "credit";
    "fee_interest"; "fee_over_limit"; "fee_annual"; "fee_cash_advance";
    "cash_advance"; "cashback_earned"; "cashback_redeemed" ]%string.

Definition points_entry_type : list string :=
  [ "earned_transaction"; "earned_refund"; "redeemed_spent";
    "redeemed_cancelled"; "redeemed_refunded"; "adjustment" ]%string.

Definition in_enum (labels : list string) (s : string) : bool :=
  existsb (String.eqb s) labels.

(** CONSTRAINT no_negative_fees CHECK
    (entry_type NOT LIKE 'fee_%' OR amount >= 0). *)
Definition no_negative_fees (entry_type : string) (amount : decimal) : bool :=
  negb (like_prefix_any "fee" entry_type) || GreaterThanOrEqual amount (NewFromInt 0).

(** CONSTRAINT earned_points_positive CHECK
    (entry_type NOT LIKE 'earned_%' OR points > 0). *)
Definition earned_points_positive (entry_type : string) (points : Z) : bool :=
  negb (like_prefix_any "earned" entry_type) || (0 <? points).

(** CONSTRAINT redeemed_points_impact CHECK
    (entry_type NOT LIKE 'redeemed_%' OR points != 0). *)
Definition redeemed_points_impact (entry_type : string) (points : Z) : bool :=
  negb (like_prefix_any "redeemed" entry_type) || negb (points =? 0).

(** INSERT INTO statement_ledger_entries: the row as stored, or the
    reason the statement is refused. *)
Definition insert_statement_row (e : StatementLedgerEntry)
  : outcome StatementLedgerEntry :=
  if negb (in_enum statement_entry_type (sle_EntryType e))
  then Error "invalid input value for enum statement_entry_type"
  else
    match numeric 15 2 (sle_Amount e) with
    | None => Error "numeric field overflow"
    | Some amount =>
        if no_negative_fees (sle_EntryType e) amount
        then Ok (mkStatementLedgerEntry
                   (sle_ID e) (sle_TenantID e) (sle_StatementID e)
                   (sle_EntryType e) (sle_EntryDate e) (sle_PostingDate e)
                   amount (sle_Description e) (sle_ReferenceID e)
                   (sle_Status e) (sle_CreatedAt e))
        else Error "violates check constraint no_negative_fees"
    end.

(** INSERT INTO points_ledger_entries. *)
Definition insert_points_row (e : PointsLedgerEntry)
  : outcome PointsLedgerEntry :=
  if negb (in_enum points_entry_type (ple_EntryType e))
  then Error "invalid input value for enum points_entry_type"
  else if negb (integer (ple_Points e))
  then Error "integer out of range"
  else
    match numeric_opt 15 2 (ple_TransactionAmount e),
          numeric_opt 5 4 (ple_PointsRate e) with
    | Some amount, Some rate =>
        if negb (earned_points_positive (ple_EntryType e) (ple_Points e))
        then Error "violates check constraint earned_points_positive"
        else if negb (redeemed_points_impact (ple_EntryType e) (ple_Points e))
        then Error "violates check constraint redeemed_points_impact"
        else Ok (mkPointsLedgerEntry
                   (ple_ID e) (ple_TenantID e) (ple_StatementEntryID e)
                   (ple_EntryType e) (ple_EntryDate e) (ple_Points e)
                   (ple_Description e) (ple_ExternalPlatform e)
                   (ple_ExternalReferenceID e) amount rate)
    | _, _ => Error "numeric field overflow"
    end.

End Schema.

Definition set_statement_ledger_entries (w : World) (l : list StatementLedgerEntry) : World :=
  mkWorld (conn_ok w) l (points_ledger_entries w) (billing_cycles w)
          (uuid_stream w) (uuid_drawn w) (clock w) (clock_reads w).

Definition set_points_ledger_entries (w : World) (l : list PointsLedgerEntry) : World :=
  mkWorld (conn_ok w) (statement_ledger_entries w) l (billing_cycles w)
          (uuid_stream w) (uuid_drawn w) (clock w) (clock_reads w).

(** [s.db.ExecContext(ctx, "INSERT INTO statement_ledger_entries ...")]:
    executed on the pool, outside of any transaction, committed at once. *)
Definition db_insert_statement_entry (e : StatementLedgerEntry) : M unit :=
  fun w =>
    if negb (conn_ok w) then (Error ErrConnDone, w)
    else match Schema.insert_statement_row e with
         | Ok row => (Ok tt, set_statement_ledger_entries w (statement_ledger_entries w ++ [row]))
         | Error msg => (Error msg, w)
         | Panic msg => (Panic msg, w)
         end.

(** [s.db.ExecContext(ctx, "INSERT INTO points_ledger_entries ...")]. *)
Definition db_insert_points_entry (e : PointsLedgerEntry) : M unit :=
  fun w =>
    if negb (conn_ok w) then (Error ErrConnDone, w)
    else match Schema.insert_points_row e with
         | Ok row => (Ok tt, set_points_ledger_entries w (points_ledger_entries w ++ [row]))
         | Error msg => (Error msg, w)
         | Panic msg => (Panic msg, w)
         end.









(* ===================================================================== *)
(** * services/statement_ledger_service.go, points_ledger_service.go *)
(* ===================================================================== *)

Module StatementLedgerService.
Local Open Scope go_scope.

Definition with_ID (e : StatementLedgerEntry) (id : UUID) : StatementLedgerEntry :=
  mkStatementLedgerEntry id (sle_TenantID e) (sle_StatementID e) (sle_EntryType e)
    (sle_EntryDate e) (sle_PostingDate e) (sle_Amount e) (sle_Description e)
    (sle_ReferenceID e) (sle_Status e) (sle_CreatedAt e).

(** [CreateEntry]: the entry is passed by pointer and its ID may be
    assigned; the entry as the caller sees it afterwards is returned. *)
Definition CreateEntry (entry : StatementLedgerEntry) : M StatementLedgerEntry :=
  entry' <- (if sle_ID entry =? uuid_Nil
             then id <- uuid_New ;; ret (with_ID entry id)
             else ret entry) ;;
  db_insert_statement_entry entry' ;;;
  ret entry'.

(** The term of the sums of the view statement_balances and of
    [CalculateStatementBalance] for one entry:
    CASE WHEN entry_type IN ('transaction', 'fee_late', 'fee_failed',
    'fee_international', 'returned_reward') THEN amount
    WHEN entry_type IN ('payment', 'refund', 'reward', 'credit') THEN -amount
    WHEN entry_type = 'adjustment' THEN amount ELSE 0 END. *)
Definition balance_term (e : StatementLedgerEntry) : decimal :=
  let entry_type_in := existsb (String.eqb (sle_EntryType e)) in
  if entry_type_in [EntryType.Transaction; EntryType.FeeLate; EntryType.FeeFailed;
                    EntryType.FeeInternational; EntryType.ReturnedReward]
  then sle_Amount e
  else if entry_type_in [EntryType.Payment; EntryType.Refund; EntryType.Reward;
                         EntryType.Credit]
  then Decimal.Neg (sle_Amount e)
  else if String.eqb (sle_EntryType e) EntryType.Adjustment then sle_Amount e
  else Decimal.mk 0 0.

(** SUM over rows. *)
Definition sum_terms (rows : list StatementLedgerEntry) : decimal :=
  fold_left (fun total e => Decimal.Add total (balance_term e)) rows (Decimal.mk 0 0).

(** The rows of a tenant the view statement_balances groups:
    WHERE status = 'cleared' GROUP BY tenant_id. *)
Definition cleared_rows (w : World) (tenantID : UUID) : list StatementLedgerEntry :=
  filter (fun e => (sle_TenantID e =? tenantID)
                   && String.eqb (sle_Status e) EntryStatus.Cleared)
         (statement_ledger_entries w).

(** [GetBalance]: the row of statement_balances, or a zero balance when
    the tenant has no cleared entry. *)
Definition GetBalance (tenantID : UUID) : M StatementBalance :=
  fun w =>
    if negb (conn_ok w) then (Error ErrConnDone, w)
    else match cleared_rows w tenantID with
         | [] =>
             (* No entries yet, return zero balance *)
             (Ok (mkStatementBalance tenantID Decimal.Zero 0), w)
         | rows =>
             (Ok (mkStatementBalance tenantID (sum_terms rows)
                    (Z.of_nat (List.length rows))), w)
         end.

(** [CalculateStatementBalance]: the opening balance plus the terms of
    the tenant's cleared entries posted in the period (COALESCE(SUM, 0)). *)
Definition CalculateStatementBalance (tenantID : UUID) (startDate endDate : Time)
           (openingBalance : decimal) : M decimal :=
  fun w =>
    if negb (conn_ok w) then (Error ErrConnDone, w)
    else
      let periodTotal :=
        sum_terms (filter (fun e => (startDate <=? sle_PostingDate e)
                                    && (sle_PostingDate e <=? endDate))
                          (cleared_rows w tenantID)) in
      (Ok (Decimal.Add openingBalance periodTotal), w).

Section WithIdentifierText.

(** [uuid.UUID.String()]; the text is not interpreted. *)
Variable uuid_String : UUID -> string.


End WithIdentifierText.

End StatementLedgerService.

Module PointsLedgerService.
Local Open Scope go_scope.

Definition with_ID (e : PointsLedgerEntry) (id : UUID) : PointsLedgerEntry :=
  mkPointsLedgerEntry id (ple_TenantID e) (ple_StatementEntryID e) (ple_EntryType e)
    (ple_EntryDate e) (ple_Points e) (ple_Description e) (ple_ExternalPlatform e)
    (ple_ExternalReferenceID e) (ple_TransactionAmount e) (ple_PointsRate e).

Definition CreateEntry (entry : PointsLedgerEntry) : M PointsLedgerEntry :=
  entry' <- (if ple_ID entry =? uuid_Nil
             then id <- uuid_New ;; ret (with_ID entry id)
             else ret entry) ;;
  db_insert_points_entry entry' ;;;
  ret entry'.

Definition tenant_rows (w : World) (tenantID : UUID) : list PointsLedgerEntry :=
  filter (fun e => ple_TenantID e =? tenantID) (points_ledger_entries w).

Definition sum_points (rows : list PointsLedgerEntry) : Z :=
  fold_right (fun e acc => ple_Points e + acc) 0 rows.

Definition like_earned (e : PointsLedgerEntry) : bool :=
  Schema.like_prefix_any "earned" (ple_EntryType e).

(** The row of the view points_balances for a tenant (GROUP BY
    tenant_id: no row for a tenant without entries). *)
Definition points_balances_row (w : World) (tenantID : UUID) : option PointsBalance :=
  match tenant_rows w tenantID with
  | [] => None
  | rows =>
      Some (mkPointsBalance tenantID
              (sum_points (filter like_earned rows))
              (fold_right
                 (fun e acc =>
                    (if String.eqb (ple_EntryType e) PointsEntryType.RedeemedSpent
                     then Z.abs (ple_Points e)
                     else if String.eqb (ple_EntryType e) PointsEntryType.RedeemedCancelled
                          || String.eqb (ple_EntryType e) PointsEntryType.RedeemedRefunded
                     then - Z.abs (ple_Points e)
                     else 0) + acc) 0 rows)
              (sum_points rows)
              (Z.of_nat (List.length rows)))
  end.

Definition GetBalance (tenantID : UUID) : M PointsBalance :=
  fun w =>
    if negb (conn_ok w) then (Error ErrConnDone, w)
    else match points_balances_row w tenantID with
         | None =>
             (* No entries yet, return zero balance *)
             (Ok (mkPointsBalance tenantID 0 0 0 0), w)
         | Some balance => (Ok balance, w)
         end.

Definition ValidateRedemption (tenantID : UUID) (pointsToRedeem : Z) : M unit :=
  balance <- GetBalance tenantID ;;
  if pb_AvailablePoints balance <? pointsToRedeem
  then fail ("insufficient points: available=" ++ fmt_d (pb_AvailablePoints balance)
             ++ ", requested=" ++ fmt_d pointsToRedeem)%string
  else ret tt.


End PointsLedgerService.

(* ===================================================================== *)
(** * services/interest_service.go *)
(* ===================================================================== *)

Module InterestCalculationMethod.
Definition AverageDailyBalanceMethod : string := "average_daily_balance".
Definition DailyBalanceMethod : string := "daily_balance".
Definition AdjustedBalanceMethod : string := "adjusted_balance".
End InterestCalculationMethod.

Record InterestCalculationResult : Type := mkInterestCalculationResult {
  icr_CreditCardID : UUID;
  icr_BillingCycleID : UUID;
  icr_CalculationMethod : string;
  icr_AverageDailyBalance : decimal;
  icr_APRUsed : decimal;
  icr_DailyPeriodicRate : decimal;
  icr_DaysInCycle : Z;
  icr_InterestCharge : decimal;
  icr_MinimumInterestCharge : decimal;
  icr_WaivedDueToGracePeriod : bool;
  icr_CalculatedAt : Time
}.

Record InterestConfig : Type := mkInterestConfig {
  ic_Method : string;
  ic_MinimumInterestCharge : decimal;
  ic_RoundingPrecision : Z;
  ic_CompoundDaily : bool
}.

Record ProjectedInterest : Type := mkProjectedInterest {
  pi_CurrentBalance : decimal;
  pi_ProjectedDays : Z;
  pi_APR : decimal;
  pi_ProjectedInterest : decimal;
  pi_TotalIfUnpaid : decimal
}.

Module InterestService.
Import Decimal.
Import InterestCalculationMethod.

Definition DefaultInterestConfig : InterestConfig :=
  mkInterestConfig AverageDailyBalanceMethod (mk 5 (-1)) 2 false.

(** ADB x DPR x days in cycle. *)
Definition calculateADBInterest (adb dpr : decimal) (daysInCycle : Z) : decimal :=
  if LessThanOrEqual adb Zero then Zero
  else
    let days := NewFromInt daysInCycle in
    Round (Mul (Mul adb dpr) days) 2.

(** Sum of (daily balance x DPR). *)
Definition calculateDailyBalanceInterest (balances : list DailyBalanceRecord)
           (dpr : decimal) : decimal :=
  let totalInterest :=
    fold_left
      (fun total record =>
         if GreaterThan (dbr_Balance record) Zero
         then Add total (Mul (dbr_Balance record) dpr)
         else total)
      balances BillingCycleM.zero_value in
  Round totalInterest 2.

(** (previous balance - payments) x monthly rate. *)
Definition calculateAdjustedBalanceInterest (previousBalance payments apr : decimal)
  : outcome decimal :=
  let adjustedBalance := Sub previousBalance payments in
  if LessThanOrEqual adjustedBalance Zero then Ok Zero
  else
    (let! perMonth := Div apr (NewFromInt 12) in
     let! monthlyRate := Div perMonth (NewFromInt 100) in
     Ok (Round (Mul adjustedBalance monthlyRate) 2))%outcome.

(** The row the query of [qualifiesForGracePeriod] selects:
    SELECT new_balance, payments_made FROM billing_cycles
    WHERE credit_card_id = $1 AND cycle_number = $2
      AND status IN ('paid_full') LIMIT 1. *)
Definition previous_paid_full_cycle (w : World) (cardID : UUID) (cycleNumber : Z)
  : option BillingCycle :=
  find (fun bc => (bc_CreditCardID bc =? cardID)
                  && (bc_CycleNumber bc =? cycleNumber)
                  && String.eqb (bc_Status bc) BillingCycleStatus.PaidFull)
       (billing_cycles w).

Definition qualifiesForGracePeriod (card : CreditCard) (currentCycle : BillingCycle)
  : M bool :=
  fun w =>
    if negb (conn_ok w) then
      (* err != nil and err != sql.ErrNoRows *)
      (Ok false, w)
    else
      match previous_paid_full_cycle w (cc_ID card)
              (wrap64 (bc_CycleNumber currentCycle - 1)) with
      | None =>
          (* No previous cycle, grace period applies for new accounts *)
          (Ok true, w)
      | Some prev =>
          (* Grace period applies if previous balance was paid in full *)
          (Ok (GreaterThanOrEqual (bc_PaymentsMade prev) (bc_NewBalance prev)), w)
      end.

Section WithDailyBalances.

(** The answer of the recursive running-balance query of
    [getDailyBalances] over the cleared statement entries; the query
    text is not interpreted. *)
Variable running_balance_query :
  list StatementLedgerEntry -> UUID -> Time -> Time -> list DailyBalanceRecord.

Definition getDailyBalances (creditCardID : UUID) (startDate endDate : Time)
  : M (list DailyBalanceRecord) :=
  fun w =>
    if negb (conn_ok w) then (Error ErrConnDone, w)
    else (Ok (running_balance_query (statement_ledger_entries w)
                creditCardID startDate endDate), w).

Local Open Scope go_scope.

Definition CalculateInterest (card : CreditCard) (cycle : BillingCycle)
           (config : InterestConfig) : M InterestCalculationResult :=
  calculatedAt <- time_Now ;;
  (* Get effective APR for this cycle *)
  let apr := CreditCardM.GetEffectiveAPR card (bc_CycleStartDate cycle) in
  (* DPR = APR / 365 *)
  dpr <- lift (CreditCardM.GetDailyPeriodicRate card apr) ;;
  let daysInCycle :=
    wrap64 (days_between (bc_CycleEndDate cycle) (bc_CycleStartDate cycle) + 1) in
  dailyBalances <-
    wrap_err "failed to get daily balances"
      (getDailyBalances (cc_ID card) (bc_CycleStartDate cycle) (bc_CycleEndDate cycle)) ;;
  adb <- lift (BillingCycleM.CalculateAverageDailyBalance dailyBalances) ;;
  let result waived charge minimum :=
    mkInterestCalculationResult (cc_ID card) (bc_ID cycle) (ic_Method config)
      adb apr dpr daysInCycle charge minimum waived calculatedAt in
  (* Check if grace period applies (paid previous balance in full) *)
  grace <- qualifiesForGracePeriod card cycle ;;
  if grace then ret (result true Zero BillingCycleM.zero_value)
  else
    interestCharge <-
      lift (if String.eqb (ic_Method config) AverageDailyBalanceMethod
            then Ok (calculateADBInterest adb dpr daysInCycle)
            else if String.eqb (ic_Method config) DailyBalanceMethod
            then Ok (calculateDailyBalanceInterest dailyBalances dpr)
            else if String.eqb (ic_Method config) AdjustedBalanceMethod
            then calculateAdjustedBalanceInterest
                   (bc_PreviousBalance cycle) (bc_PaymentsReceived cycle) apr
            else Ok (calculateADBInterest adb dpr daysInCycle)) ;;
    (* Apply minimum interest charge if applicable *)
    let interestCharge' :=
      if GreaterThan interestCharge Zero
         && LessThan interestCharge (ic_MinimumInterestCharge config)
      then ic_MinimumInterestCharge config
      else interestCharge in
    (* Round to specified precision *)
    ret (result false (Round interestCharge' (ic_RoundingPrecision config))
                (ic_MinimumInterestCharge config)).

End WithDailyBalances.

(** [CalculateProjectedInterest]: the interest if the balance remains
    unchanged for [days] days. *)
Definition CalculateProjectedInterest (currentBalance apr : decimal) (days : Z)
  : outcome ProjectedInterest :=
  if LessThanOrEqual currentBalance Zero
  then Ok (mkProjectedInterest currentBalance days apr Zero currentBalance)
  else
    (* DPR = APR / 365 / 100 *)
    (let! perDay := Div apr (NewFromInt 365) in
     let! dpr := Div perDay (NewFromInt 100) in
     (* Simple interest projection: Balance x DPR x Days *)
     let projectedInterest :=
       Round (Mul (Mul currentBalance dpr) (NewFromInt days)) 2 in
     Ok (mkProjectedInterest currentBalance days apr projectedInterest
           (Add currentBalance projectedInterest)))%outcome.

Section WithAmountText.

(** [fmt.Sprintf("%.2f", d.InexactFloat64())]; the text is not
    interpreted. *)
Variable fmt_2f : decimal -> string.

Local Open Scope go_scope.


End WithAmountText.

End InterestService.

(* ===================================================================== *)
(** * services/fee_service.go *)
(* ===================================================================== *)

Module FeeType.
Definition Annual : string := "annual".
Definition CashAdvance : string := "cash_advance".

End FeeType.








Module FeeService.
Local Open Scope go_scope.








Section WithFormats.

(** [fmt.Sprintf("%.2f", d.InexactFloat64())] and [uuid.UUID.String()]:
    the texts are not interpreted. *)
Variable fmt_2f : decimal -> string.
Variable uuid_String : UUID -> string.






End WithFormats.

End FeeService.

(* ===================================================================== *)
(** * services/ledger_reconciliation_service.go *)
(* ===================================================================== *)


Module LedgerReconciliationService.
Local Open Scope go_scope.



End LedgerReconciliationService.

(* ===================================================================== *)
(** * models/payment.go *)
(* ===================================================================== *)

Module PaymentStatus.
Definition Pending : string := "pending".
Definition Processing : string := "processing".
Definition Cleared : string := "cleared".
Definition Failed : string := "failed".
Definition Returned : string := "returned".
Definition Cancelled : string := "cancelled".
Definition Reversed : string := "reversed".
End PaymentStatus.

Record Payment : Type := mkPayment {
  p_ID : UUID;
  p_TenantID : UUID;
  p_CreditCardID : UUID;
  p_PaymentNumber : string;
  p_ConfirmationNum : option string;
  p_Amount : decimal;
  p_AppliedAmount : decimal;
  p_Status : string;
  p_PreviousStatus : option string;
  p_StatusReason : option string;
  p_ProcessingAt : option Time;
  p_ClearedAt : option Time;
  p_FailedAt : option Time;
  p_ReturnedAt : option Time;
  p_CancelledAt : option Time;
  p_ReversedAt : option Time;
  p_EffectiveDate : Time;
  p_ProcessorRef : option string;
  p_ProcessorResponse : option string;
  p_ReturnReasonCode : option string;
  p_ReturnReasonDesc : option string;
  p_AttemptCount : Z;
  p_LastAttemptAt : option Time;
  p_NextRetryAt : option Time;
  p_MaxRetries : Z;
  p_UpdatedAt : Time;
  p_UpdatedBy : option string
}.

Record PaymentStatusTransition : Type := mkPaymentStatusTransition {
  pst_ID : UUID;
  pst_PaymentID : UUID;
  pst_FromStatus : string;
  pst_ToStatus : string;
  pst_Reason : option string;
  pst_TransitionAt : Time;
  pst_TriggeredBy : option string
}.

Module PaymentM.
Import PaymentStatus.

Definition validTransitions : list (string * list string) :=
  [ (Pending, [Processing; Cancelled]);
    (Processing, [Cleared; Failed; Cancelled]);
    (Cleared, [Returned; Reversed]);
    (Failed, [Pending]);          (* Retry *)
    (Returned, []);               (* Terminal state *)
    (Cancelled, []);              (* Terminal state *)
    (Reversed, []) ].             (* Terminal state *)

Fixpoint lookup (k : string) (m : list (string * list string)) : option (list string) :=
  match m with
  | [] => None
  | (k', v) :: rest => if String.eqb k k' then Some v else lookup k rest
  end.

Definition CanTransitionTo (p : Payment) (newStatus : string) : bool :=
  match lookup (p_Status p) validTransitions with
  | None => false
  | Some allowed => existsb (fun s => String.eqb s newStatus) allowed
  end.

Definition IsTerminal (p : Payment) : bool :=
  String.eqb (p_Status p) Returned
  || String.eqb (p_Status p) Cancelled
  || String.eqb (p_Status p) Reversed.

Definition CanRetry (p : Payment) : bool :=
  String.eqb (p_Status p) Failed && (p_AttemptCount p <? p_MaxRetries p).

Definition ACHReturnCodeDescriptions : list (string * string) :=
  [ ("R01", "Insufficient Funds");
    ("R02", "Account Closed");
    ("R03", "No Account/Unable to Locate Account");
    ("R04", "Invalid Account Number");
    ("R05", "Unauthorized Debit to Consumer Account");
    ("R06", "Returned per ODFI's Request");
    ("R07", "Authorization Revoked by Customer");
    ("R08", "Payment Stopped");
    ("R09", "Uncollected Funds");
    ("R10", "Customer Advises Not Authorized");
    ("R16", "Account Frozen");
    ("R20", "Non-Transaction Account");
    ("R29", "Corporate Customer Advises Not Authorized") ]%string.

Fixpoint description_of (code : string) (m : list (string * string)) : string :=
  match m with
  | [] => EmptyString
  | (k, v) :: rest => if String.eqb code k then v else description_of code rest
  end.

End PaymentM.

(* ===================================================================== *)
(** * services/payment_service.go *)
(* ===================================================================== *)

Module PaymentType.
Definition Regular : string := "regular".
Definition Minimum : string := "minimum".
Definition Statement : string := "statement".
Definition Full : string := "full".
Definition AutoPay : string := "auto_pay".
Definition Scheduled : string := "scheduled".
Definition OneTime : string := "one_time".
End PaymentType.

Record PaymentSummary : Type := mkPaymentSummary {
  psum_TenantID : UUID;
  psum_CreditCardID : UUID;
  psum_Period : string;
  psum_TotalPayments : Z;
  psum_TotalAmount : decimal;
  psum_ClearedPayments : Z;
  psum_ClearedAmount : decimal;
  psum_PendingPayments : Z;
  psum_PendingAmount : decimal;
  psum_FailedPayments : Z;
  psum_FailedAmount : decimal;
  psum_ReturnedPayments : Z;
  psum_ReturnedAmount : decimal;
  psum_AveragePayment : decimal;
  psum_LargestPayment : decimal;
  psum_LastPaymentDate : option Time;
  psum_LastPaymentAmount : decimal
}.

Record PaymentResult : Type := mkPaymentResult {
  pr_Payment : Payment;
  pr_Transitions : list PaymentStatusTransition;
  pr_LedgerEntry : option StatementLedgerEntry;
  pr_ErrorCode : string;
  pr_ErrorMessage : string
}.

(** The receiver: whether [ledgerService] is non-nil. *)
Record PaymentService : Type := mkPaymentService {
  ps_has_ledgerService : bool
}.

Module PaymentServiceM.
Import PaymentStatus.
Local Open Scope go_scope.

(** The payment is passed by pointer; [set_status] and the setters below
    build the value the pointer holds after the assignments. *)
Definition set_status (p : Payment) (newStatus : string) (now : Time) : Payment :=
  mkPayment (p_ID p) (p_TenantID p) (p_CreditCardID p) (p_PaymentNumber p)
    (p_ConfirmationNum p) (p_Amount p) (p_AppliedAmount p)
    newStatus (Some (p_Status p)) (p_StatusReason p)
    (p_ProcessingAt p) (p_ClearedAt p) (p_FailedAt p) (p_ReturnedAt p)
    (p_CancelledAt p) (p_ReversedAt p) (p_EffectiveDate p)
    (p_ProcessorRef p) (p_ProcessorResponse p) (p_ReturnReasonCode p)
    (p_ReturnReasonDesc p) (p_AttemptCount p) (p_LastAttemptAt p)
    (p_NextRetryAt p) (p_MaxRetries p) now (p_UpdatedBy p).

Definition on_processing (p : Payment) (now : Time) (processorRef : string) : Payment :=
  mkPayment (p_ID p) (p_TenantID p) (p_CreditCardID p) (p_PaymentNumber p)
    (p_ConfirmationNum p) (p_Amount p) (p_AppliedAmount p)
    (p_Status p) (p_PreviousStatus p) (p_StatusReason p)
    (Some now) (p_ClearedAt p) (p_FailedAt p) (p_ReturnedAt p)
    (p_CancelledAt p) (p_ReversedAt p) (p_EffectiveDate p)
    (Some processorRef) (p_ProcessorResponse p) (p_ReturnReasonCode p)
    (p_ReturnReasonDesc p) (wrap64 (p_AttemptCount p + 1)) (Some now)
    (p_NextRetryAt p) (p_MaxRetries p) (p_UpdatedAt p) (p_UpdatedBy p).

Definition on_cleared (p : Payment) (now : Time) (confirmationNum : string) : Payment :=
  mkPayment (p_ID p) (p_TenantID p) (p_CreditCardID p) (p_PaymentNumber p)
    (Some confirmationNum) (p_Amount p) (p_AppliedAmount p)
    (p_Status p) (p_PreviousStatus p) (p_StatusReason p)
    (p_ProcessingAt p) (Some now) (p_FailedAt p) (p_ReturnedAt p)
    (p_CancelledAt p) (p_ReversedAt p) (p_EffectiveDate p)
    (p_ProcessorRef p) (p_ProcessorResponse p) (p_ReturnReasonCode p)
    (p_ReturnReasonDesc p) (p_AttemptCount p) (p_LastAttemptAt p)
    (p_NextRetryAt p) (p_MaxRetries p) (p_UpdatedAt p) (p_UpdatedBy p).

Definition on_failed (p : Payment) (now : Time) (reason processorResponse : string)
  : Payment :=
  mkPayment (p_ID p) (p_TenantID p) (p_CreditCardID p) (p_PaymentNumber p)
    (p_ConfirmationNum p) (p_Amount p) (p_AppliedAmount p)
    (p_Status p) (p_PreviousStatus p) (Some reason)
    (p_ProcessingAt p) (p_ClearedAt p) (Some now) (p_ReturnedAt p)
    (p_CancelledAt p) (p_ReversedAt p) (p_EffectiveDate p)
    (p_ProcessorRef p) (Some processorResponse) (p_ReturnReasonCode p)
    (p_ReturnReasonDesc p) (p_AttemptCount p) (p_LastAttemptAt p)
    (p_NextRetryAt p) (p_MaxRetries p) (p_UpdatedAt p) (p_UpdatedBy p).

Definition set_NextRetryAt (p : Payment) (t : option Time) : Payment :=
  mkPayment (p_ID p) (p_TenantID p) (p_CreditCardID p) (p_PaymentNumber p)
    (p_ConfirmationNum p) (p_Amount p) (p_AppliedAmount p)
    (p_Status p) (p_PreviousStatus p) (p_StatusReason p)
    (p_ProcessingAt p) (p_ClearedAt p) (p_FailedAt p) (p_ReturnedAt p)
    (p_CancelledAt p) (p_ReversedAt p) (p_EffectiveDate p)
    (p_ProcessorRef p) (p_ProcessorResponse p) (p_ReturnReasonCode p)
    (p_ReturnReasonDesc p) (p_AttemptCount p) (p_LastAttemptAt p)
    t (p_MaxRetries p) (p_UpdatedAt p) (p_UpdatedBy p).

Definition on_returned (p : Payment) (now : Time) (code desc : string) : Payment :=
  mkPayment (p_ID p) (p_TenantID p) (p_CreditCardID p) (p_PaymentNumber p)
    (p_ConfirmationNum p) (p_Amount p) (p_AppliedAmount p)
    (p_Status p) (p_PreviousStatus p) (p_StatusReason p)
    (p_ProcessingAt p) (p_ClearedAt p) (p_FailedAt p) (Some now)
    (p_CancelledAt p) (p_ReversedAt p) (p_EffectiveDate p)
    (p_ProcessorRef p) (p_ProcessorResponse p) (Some code)
    (Some desc) (p_AttemptCount p) (p_LastAttemptAt p)
    (p_NextRetryAt p) (p_MaxRetries p) (p_UpdatedAt p) (p_UpdatedBy p).

Definition on_cancelled (p : Payment) (now : Time) (reason cancelledBy : string)
  : Payment :=
  mkPayment (p_ID p) (p_TenantID p) (p_CreditCardID p) (p_PaymentNumber p)
    (p_ConfirmationNum p) (p_Amount p) (p_AppliedAmount p)
    (p_Status p) (p_PreviousStatus p) (Some reason)
    (p_ProcessingAt p) (p_ClearedAt p) (p_FailedAt p) (p_ReturnedAt p)
    (Some now) (p_ReversedAt p) (p_EffectiveDate p)
    (p_ProcessorRef p) (p_ProcessorResponse p) (p_ReturnReasonCode p)
    (p_ReturnReasonDesc p) (p_AttemptCount p) (p_LastAttemptAt p)
    (p_NextRetryAt p) (p_MaxRetries p) (p_UpdatedAt p) (Some cancelledBy).

Definition on_reversed (p : Payment) (now : Time) (reason reversedBy : string)
  : Payment :=
  mkPayment (p_ID p) (p_TenantID p) (p_CreditCardID p) (p_PaymentNumber p)
    (p_ConfirmationNum p) (p_Amount p) (p_AppliedAmount p)
    (p_Status p) (p_PreviousStatus p) (Some reason)
    (p_ProcessingAt p) (p_ClearedAt p) (p_FailedAt p) (p_ReturnedAt p)
    (p_CancelledAt p) (Some now) (p_EffectiveDate p)
    (p_ProcessorRef p) (p_ProcessorResponse p) (p_ReturnReasonCode p)
    (p_ReturnReasonDesc p) (p_AttemptCount p) (p_LastAttemptAt p)
    (p_NextRetryAt p) (p_MaxRetries p) (p_UpdatedAt p) (Some reversedBy).

Definition transition (id : UUID) (p : Payment) (from to : string)
           (reason : option string) (now : Time) (by_ : string)
  : PaymentStatusTransition :=
  mkPaymentStatusTransition id (p_ID p) from to reason now (Some by_).

Definition ledger_entry (s : PaymentService) (mk : M StatementLedgerEntry)
  : M (option StatementLedgerEntry) :=
  if ps_has_ledgerService s then (e <- mk ;; ret (Some e)) else ret None.

Definition ProcessPayment (s : PaymentService) (payment : Payment)
           (processorRef : string) : M PaymentResult :=
  if negb (PaymentM.CanTransitionTo payment Processing)
  then fail ("cannot process payment in status " ++ p_Status payment)%string
  else
    now <- time_Now ;;
    let previousStatus := p_Status payment in
    let payment' := on_processing (set_status payment Processing now) now processorRef in
    id <- uuid_New ;;
    ret (mkPaymentResult payment'
           [transition id payment previousStatus Processing None now "system"]
           None EmptyString EmptyString).

Definition ClearPayment (s : PaymentService) (payment : Payment) (card : CreditCard)
           (confirmationNum : string) : M PaymentResult :=
  if negb (PaymentM.CanTransitionTo payment Cleared)
  then fail ("cannot clear payment in status " ++ p_Status payment)%string
  else
    now <- time_Now ;;
    let previousStatus := p_Status payment in
    let payment' := on_cleared (set_status payment Cleared now) now confirmationNum in
    id <- uuid_New ;;
    entry <- ledger_entry s
               (eid <- uuid_New ;;
                ret (mkStatementLedgerEntry eid (p_TenantID payment') None
                       EntryType.Payment now (p_EffectiveDate payment')
                       (p_AppliedAmount payment')
                       ("Payment - " ++ p_PaymentNumber payment')%string
                       (Some (p_PaymentNumber payment')) EmptyString now)) ;;
    ret (mkPaymentResult payment'
           [transition id payment previousStatus Cleared None now "processor"]
           entry EmptyString EmptyString).

Definition FailPayment (s : PaymentService) (payment : Payment)
           (reason processorResponse : string) : M PaymentResult :=
  if negb (PaymentM.CanTransitionTo payment Failed)
  then fail ("cannot fail payment in status " ++ p_Status payment)%string
  else
    now <- time_Now ;;
    let previousStatus := p_Status payment in
    let payment1 := on_failed (set_status payment Failed now) now reason processorResponse in
    (* Set retry time if retries available *)
    let payment' :=
      if PaymentM.CanRetry payment1
      then set_NextRetryAt payment1 (Some (now + time_Hour * 24))
      else payment1 in
    id <- uuid_New ;;
    ret (mkPaymentResult payment'
           [transition id payment previousStatus Failed (Some reason) now "processor"]
           None "PAYMENT_FAILED" reason).

Definition ReturnPayment (s : PaymentService) (payment : Payment) (card : CreditCard)
           (returnCode : string) : M PaymentResult :=
  if negb (PaymentM.CanTransitionTo payment Returned)
  then fail ("cannot return payment in status " ++ p_Status payment)%string
  else
    now <- time_Now ;;
    let previousStatus := p_Status payment in
    let codeStr := returnCode in
    let desc := PaymentM.description_of returnCode PaymentM.ACHReturnCodeDescriptions in
    let payment' := on_returned (set_status payment Returned now) now codeStr desc in
    id <- uuid_New ;;
    (* Create reversal ledger entry *)
    entry <- ledger_entry s
               (eid <- uuid_New ;;
                ret (mkStatementLedgerEntry eid (p_TenantID payment') None
                       EntryType.Adjustment now now
                       (Decimal.Neg (p_AppliedAmount payment'))
                       ("Payment Returned - " ++ codeStr ++ ": " ++ desc)%string
                       (Some (p_PaymentNumber payment')) EmptyString now)) ;;
    ret (mkPaymentResult payment'
           [transition id payment previousStatus Returned (Some desc) now "processor"]
           entry codeStr desc).

Definition CancelPayment (s : PaymentService) (payment : Payment)
           (reason cancelledBy : string) : M PaymentResult :=
  if negb (PaymentM.CanTransitionTo payment Cancelled)
  then fail ("cannot cancel payment in status " ++ p_Status payment)%string
  else
    now <- time_Now ;;
    let previousStatus := p_Status payment in
    let payment' := on_cancelled (set_status payment Cancelled now) now reason cancelledBy in
    id <- uuid_New ;;
    ret (mkPaymentResult payment'
           [transition id payment previousStatus Cancelled (Some reason) now cancelledBy]
           None EmptyString EmptyString).

Definition ReversePayment (s : PaymentService) (payment : Payment)
           (reason reversedBy : string) : M PaymentResult :=
  if negb (PaymentM.CanTransitionTo payment Reversed)
  then fail ("cannot reverse payment in status " ++ p_Status payment)%string
  else
    now <- time_Now ;;
    let previousStatus := p_Status payment in
    let payment' := on_reversed (set_status payment Reversed now) now reason reversedBy in
    id <- uuid_New ;;
    (* Create reversal ledger entry *)
    entry <- ledger_entry s
               (eid <- uuid_New ;;
                ret (mkStatementLedgerEntry eid (p_TenantID payment') None
                       EntryType.Adjustment now now
                       (Decimal.Neg (p_AppliedAmount payment'))
                       ("Payment Reversal - " ++ p_PaymentNumber payment' ++ ": "
                        ++ reason)%string
                       (Some (p_PaymentNumber payment')) EmptyString now)) ;;
    ret (mkPaymentResult payment'
           [transition id payment previousStatus Reversed (Some reason) now reversedBy]
           entry EmptyString EmptyString).

Definition RetryPayment (s : PaymentService) (payment : Payment) : M PaymentResult :=
  if negb (PaymentM.CanRetry payment)
  then fail ("payment cannot be retried: status=" ++ p_Status payment
             ++ ", attempts=" ++ fmt_d (p_AttemptCount payment)
             ++ ", max=" ++ fmt_d (p_MaxRetries payment))%string
  else if negb (PaymentM.CanTransitionTo payment Pending)
  then fail ("cannot retry payment in status " ++ p_Status payment)%string
  else
    now <- time_Now ;;
    let previousStatus := p_Status payment in
    let payment' := set_NextRetryAt (set_status payment Pending now) None in
    id <- uuid_New ;;
    ret (mkPaymentResult payment'
           [transition id payment previousStatus Pending (Some "Retry attempt"%string)
              now "system"]
           None EmptyString EmptyString).

(** The status-changing operations of the service. *)
Inductive operation : Type :=
| OpProcess (processorRef : string)
| OpClear (card : CreditCard) (confirmationNum : string)
| OpFail (reason processorResponse : string)
| OpReturn (card : CreditCard) (returnCode : string)
| OpCancel (reason cancelledBy : string)
| OpReverse (reason reversedBy : string)
| OpRetry.

Definition run (s : PaymentService) (op : operation) (payment : Payment)
  : M PaymentResult :=
  match op with
  | OpProcess ref => ProcessPayment s payment ref
  | OpClear card num => ClearPayment s payment card num
  | OpFail reason resp => FailPayment s payment reason resp
  | OpReturn card code => ReturnPayment s payment card code
  | OpCancel reason by_ => CancelPayment s payment reason by_
  | OpReverse reason by_ => ReversePayment s payment reason by_
  | OpRetry => RetryPayment s payment
  end.

(** The status each operation moves the payment to. *)
Definition target (op : operation) : string :=
  match op with
  | OpProcess _ => Processing
  | OpClear _ _ => Cleared
  | OpFail _ _ => Failed
  | OpReturn _ _ => Returned
  | OpCancel _ _ => Cancelled
  | OpReverse _ _ => Reversed
  | OpRetry => Pending
  end.

(** Successive operations on one payment, which the service mutates
    through its pointer: an operation that is refused returns before any
    assignment and leaves the payment as it was. *)
Fixpoint run_all (s : PaymentService) (ops : list operation) (payment : Payment)
         (w : World) : Payment * World :=
  match ops with
  | [] => (payment, w)
  | op :: rest =>
      match run s op payment w with
      | (Ok r, w') => run_all s rest (pr_Payment r) w'
      | (_, w') => run_all s rest payment w'
      end
  end.

(** [GetPendingPaymentsForRetry]: the payments ready for retry, in the
    order given. *)
Definition GetPendingPaymentsForRetry (s : PaymentService) (payments : list Payment)
           (now : Time) : list Payment :=
  filter (fun p =>
            PaymentM.CanRetry p
            && match p_NextRetryAt p with
               | Some t => negb (Time_After t now)
               | None => false
               end)
         payments.

(** [ValidatePaymentAmount]: [None] is the nil error.  The comparison
    with the card's balance guards an empty block. *)
Definition ValidatePaymentAmount (s : PaymentService) (amount : decimal)
           (card : CreditCard) : option string :=
  if Decimal.LessThanOrEqual amount Decimal.Zero
  then Some "payment amount must be positive"%string
  else None.

(** [DeterminePaymentType]; [None] is a nil cycle. *)
Definition DeterminePaymentType (s : PaymentService) (amount : decimal)
           (cycle : option BillingCycle) : string :=
  match cycle with
  | None => PaymentType.Regular
  | Some cycle =>
      let remainingBalance := BillingCycleM.GetRemainingBalance cycle in
      let remainingMinimum := BillingCycleM.GetRemainingMinimum cycle in
      (* Check if paying full balance *)
      if Decimal.GreaterThanOrEqual amount remainingBalance then PaymentType.Full
      (* Check if paying statement balance *)
      else if Decimal.Equal amount (bc_NewBalance cycle) then PaymentType.Statement
      (* Check if paying minimum *)
      else if Decimal.Equal amount (bc_MinimumPayment cycle)
              || Decimal.Equal amount remainingMinimum
      then PaymentType.Minimum
      else PaymentType.Regular
  end.

(** The body of the loop of [CalculatePaymentSummary]. *)
Definition summary_step (summary : PaymentSummary) (p : Payment) : PaymentSummary :=
  let status_is st := String.eqb (p_Status p) st in
  let cleared := status_is Cleared in
  let pending := negb cleared && (status_is Pending || status_is Processing) in
  let failed := negb cleared && negb pending && status_is Failed in
  let returned := negb cleared && negb pending && negb failed && status_is Returned in
  let count (b : bool) (n : Z) := if b then wrap64 (n + 1) else n in
  let amount (b : bool) (d : decimal) := if b then Decimal.Add d (p_Amount p) else d in
  (* Track last payment *)
  let last :=
    match p_ClearedAt p with
    | Some t =>
        match psum_LastPaymentDate summary with
        | None => (Some t, p_Amount p)
        | Some l => if Time_After t l then (Some t, p_Amount p)
                    else (psum_LastPaymentDate summary, psum_LastPaymentAmount summary)
        end
    | None => (psum_LastPaymentDate summary, psum_LastPaymentAmount summary)
    end in
  mkPaymentSummary (psum_TenantID summary) (psum_CreditCardID summary)
    (psum_Period summary)
    (wrap64 (psum_TotalPayments summary + 1))
    (Decimal.Add (psum_TotalAmount summary) (p_Amount p))
    (count cleared (psum_ClearedPayments summary))
    (amount cleared (psum_ClearedAmount summary))
    (count pending (psum_PendingPayments summary))
    (amount pending (psum_PendingAmount summary))
    (count failed (psum_FailedPayments summary))
    (amount failed (psum_FailedAmount summary))
    (count returned (psum_ReturnedPayments summary))
    (amount returned (psum_ReturnedAmount summary))
    (psum_AveragePayment summary)
    (* Track largest payment *)
    (if Decimal.GreaterThan (p_Amount p) (psum_LargestPayment summary)
     then p_Amount p else psum_LargestPayment summary)
    (fst last) (snd last).

Definition with_AveragePayment (summary : PaymentSummary) (average : decimal)
  : PaymentSummary :=
  mkPaymentSummary (psum_TenantID summary) (psum_CreditCardID summary)
    (psum_Period summary) (psum_TotalPayments summary) (psum_TotalAmount summary)
    (psum_ClearedPayments summary) (psum_ClearedAmount summary)
    (psum_PendingPayments summary) (psum_PendingAmount summary)
    (psum_FailedPayments summary) (psum_FailedAmount summary)
    (psum_ReturnedPayments summary) (psum_ReturnedAmount summary)
    average (psum_LargestPayment summary)
    (psum_LastPaymentDate summary) (psum_LastPaymentAmount summary).

(** [CalculatePaymentSummary]; the payments are the values the slice of
    pointers refers to (none of them nil). *)
Definition CalculatePaymentSummary (s : PaymentService) (tenantID creditCardID : UUID)
           (payments : list Payment) (period : string) : outcome PaymentSummary :=
  let zero := BillingCycleM.zero_value in
  let summary :=
    mkPaymentSummary tenantID creditCardID period 0 zero 0 zero 0 zero 0 zero 0 zero
      zero zero None zero in
  if Z.of_nat (List.length payments) =? 0 then Ok summary
  else
    let summary := fold_left summary_step payments summary in
    (* Calculate average *)
    if 0 <? psum_TotalPayments summary
    then (let! mean := Decimal.Div (psum_TotalAmount summary)
                         (Decimal.NewFromInt (psum_TotalPayments summary)) in
          Ok (with_AveragePayment summary (Decimal.Round mean 2)))%outcome
    else Ok summary.

End PaymentServiceM.

(* ===================================================================== *)
(** * The specification's formulas

    Definitions that follow the words of the specification, for comparison
    with the code above. *)
(* ===================================================================== *)

Module Spec.
Local Open Scope Q_scope.

(** Section 4.5: the allowed payment transitions. *)
Definition payment_transitions : list (string * string) :=
  [ ("pending", "processing"); ("pending", "cancelled");
    ("processing", "cleared"); ("processing", "failed"); ("processing", "cancelled");
    ("cleared", "returned"); ("cleared", "reversed");
    ("failed", "pending") ]%string.


(** Standard half-up rounding to 2 decimal places. *)
Definition round_half_up_2dp (q : Q) : Q :=
  inject_Z (Qfloor (q * 100 + (1 # 2))) / 100.

Definition mean (balances : list Q) : Q :=
  fold_right Qplus 0 balances / inject_Z (Z.of_nat (List.length balances)).

(** Section 4.3, Average Daily Balance: ADB x DPR x days with
    DPR = APR / 365 (percent), rounded at the final step only. *)
Definition adb_interest_rounded_once (balances : list Q) (apr : Q) (days : Z) : Q :=
  round_half_up_2dp (mean balances * (apr / 365 / 100) * inject_Z days).

End Spec.

(* ===================================================================== *)
(** * Concrete cards, cycles, requests and worlds *)
(* ===================================================================== *)

Module Examples.
Import Decimal.

Definition zero : decimal := mk 0 0.

(** A cycle numbered [n] of card [card] with the given balances, all
    other amounts zero. *)
Definition cycle (id card n : Z) (previous payments : decimal)
           (newBalance paymentsMade : decimal) (status : string) : BillingCycle :=
  mkBillingCycle id card 1 n 0 (29 * 24 * time_Hour) (54 * 24 * time_Hour)
    (50 * 24 * time_Hour)
    previous payments zero zero zero zero zero zero zero zero
    newBalance zero zero 30 zero paymentsMade false status.

(** Previous balance 100.00, payments received 150.00. *)
Definition cycle_with_credit_balance : BillingCycle :=
  cycle 1 1 1 (mk 10000 (-2)) (mk 15000 (-2)) zero zero BillingCycleStatus.Open.

(** [CreditCardDefaults()] with the given purchase APR and minimum
    payment rule. *)
Definition card (apr percent amount : decimal) : CreditCard :=
  mkCreditCard 7 1 (mk 5000 0) (mk 5000 0)
    apr (mk 2499 (-2)) (mk 2999 (-2)) Zero None
    zero (NewFromInt 35) (NewFromInt 35) (mk 3 0) (NewFromInt 10) (mk 5 0)
    (NewFromInt 35) "monthly" 1 25 21 percent amount
    true (mk 15 (-1)) (NewFromInt 25) CreditCardStatus.Active 0.

Definition world (statements : list StatementLedgerEntry)
           (points : list PointsLedgerEntry) (cycles : list BillingCycle) : World :=
  mkWorld true statements points cycles
    (fun n => Z.of_nat n + 1000) 0 (fun n => Z.of_nat n + 60 * 24 * time_Hour) 0.

(** Card 7 at 18.25% APR, minimum payment 2% or 25.00. *)
Definition card_7 : CreditCard := card (mk 1825 (-2)) (mk 2 0) (NewFromInt 25).

(** Cycle 1 of card 7, closed at 100.00 and paid in full. *)
Definition cycle_1_paid_full : BillingCycle :=
  cycle 11 7 1 zero zero (mk 10000 (-2)) (mk 10000 (-2)) BillingCycleStatus.PaidFull.

(** Cycle 1 of card 7 marked paid_full with 50.00 paid of 100.00. *)
Definition cycle_1_underpaid : BillingCycle :=
  cycle 11 7 1 zero zero (mk 10000 (-2)) (mk 5000 (-2)) BillingCycleStatus.PaidFull.

(** Cycle 2 of card 7: thirty days. *)
Definition cycle_2 : BillingCycle :=
  cycle 12 7 2 (mk 10000 (-2)) zero zero zero BillingCycleStatus.Open.

Definition day (balance_cents : Z) : DailyBalanceRecord :=
  mkDailyBalanceRecord 0 (mk balance_cents (-2)).

(** Twenty-nine days at 66.83 and one at 66.95: mean 66.834. *)
Definition thirty_days : list DailyBalanceRecord :=
  repeat (day 6683) 29 ++ [day 6695].

Definition thirty_days_query
  : list StatementLedgerEntry -> UUID -> Time -> Time -> list DailyBalanceRecord :=
  fun _ _ _ _ => thirty_days.

Definition no_days_query
  : list StatementLedgerEntry -> UUID -> Time -> Time -> list DailyBalanceRecord :=
  fun _ _ _ _ => [].

(** Card 7 at 36.5% APR: a daily rate of 0.001. *)
Definition card_7_365 : CreditCard := card (mk 365 (-1)) (mk 2 0) (NewFromInt 25).

(** The rounding case of TestCalculateADBInterest:
    1234.56 x 0.000345 x 31 = 13.2048528. *)
Definition test_adb : decimal := mk 123456 (-2).
Definition test_dpr : decimal := mk 345 (-6).

(** Minimum payment 3% or 25.00. *)
Definition card_3_percent : CreditCard := card (mk 1825 (-2)) (mk 3 0) (NewFromInt 25).

(** Minimum payment 150% or 25.00 (a percentage [Validate] refuses). *)
Definition card_150_percent : CreditCard := card (mk 1825 (-2)) (mk 150 0) (NewFromInt 25).



(** The daily balances of [thirty_days] as rationals. *)
Definition thirty_days_Q : list Q := List.map (fun r => toQ (dbr_Balance r)) thirty_days.

(** Card 7 at 36.5%, cycle 2, the previous cycle marked paid_full but
    underpaid: the grace period does not apply. *)
Definition world_without_grace : World := world [] [] [cycle_1_underpaid].

(** A payment of 100.00 in the given status. *)
Definition payment (status : string) (attempts maxRetries : Z) : Payment :=
  mkPayment 21 1 7 "PAY-1" None (mk 10000 (-2)) (mk 10000 (-2))
    status None None None None None None None None 0
    None None None None attempts None None maxRetries 0 None.

Definition payment_service : PaymentService := mkPaymentService true.


(** The late fee of cycle 2 (id 12) of tenant 1, as assessed. *)
Definition late_fee_row : StatementLedgerEntry :=
  mkStatementLedgerEntry 900 1 (Some 12) EntryType.FeeLate
    (60 * 24 * time_Hour) (60 * 24 * time_Hour) (mk 3500 (-2))
    "Late payment fee - payment 6 days overdue" None EntryStatus.Pending 0.

(** One hundred points earned by tenant 1. *)
Definition earned_100 : PointsLedgerEntry :=
  mkPointsLedgerEntry 500 1 None PointsEntryType.EarnedTransaction
    (10 * 24 * time_Hour) 100 "purchase" None None None None.




(** A late fee of tenant 1 with the given amount, not yet identified. *)
Definition fee (amount : decimal) : StatementLedgerEntry :=
  mkStatementLedgerEntry uuid_Nil 1 None EntryType.FeeLate
    (60 * 24 * time_Hour) (60 * 24 * time_Hour) amount
    "Late fee" None EntryStatus.Pending 0.









(** A purchase of 100.00 by tenant 1, recorded as cleared. *)
Definition cleared_purchase : StatementLedgerEntry :=
  mkStatementLedgerEntry 901 1 None EntryType.Transaction
    (60 * 24 * time_Hour) (60 * 24 * time_Hour) (mk 10000 (-2))
    "Purchase" None EntryStatus.Cleared 0.


(** An interest charge of 12.34 of tenant 1, cleared. *)
Definition interest_fee_row : StatementLedgerEntry :=
  mkStatementLedgerEntry 902 1 (Some 12) EntryType.FeeInterest
    (60 * 24 * time_Hour) (60 * 24 * time_Hour) (mk 1234 (-2))
    "Interest charge" None EntryStatus.Cleared 0.

(** One point per dollar from 1.00 on, at most 500 points. *)
Definition points_rule : PointsEarningRule :=
  mkPointsEarningRule (mk 1 0) (mk 100 (-2)) (Some 500).

(** Dining earns 3% during the first hundred days. *)
Definition dining : CashbackCategory :=
  mkCashbackCategory "dining" "Dining" (mk 3 0) None true
    (Some 0) (Some (100 * 24 * time_Hour)).

(** 1.5% from 1.00 on, at most 2.00 per transaction. *)
Definition cashback_rule : CashbackEarningRule :=
  mkCashbackEarningRule (mk 15 (-1)) (mk 100 (-2)) (Some (mk 200 (-2)))
    [("dining"%string, dining)].

End Examples.

(* ===================================================================== *)
(** * Properties *)
(* ===================================================================== *)

(** ** Decimal arithmetic *)

Section DecimalFacts.
Import Decimal.
Local Open Scope Q_scope.

Let ten : Q := 10 # 1.

Lemma ten_nonzero : ~ ten == 0.
Proof. unfold ten. intro H. discriminate H. Qed.

Lemma ten_pos : forall e : Z, 0 < ten ^ e.
Proof. intro e. apply Qpower_0_lt. reflexivity. Qed.

Lemma inject_pow10 : forall k : Z, (0 <= k)%Z -> inject_Z (10 ^ k) == ten ^ k.
Proof. intros k Hk. apply (Zpower_Qpower 10 k Hk). Qed.

Lemma pow10_pos : forall k : Z, (0 <= k)%Z -> (0 < 10 ^ k)%Z.
Proof. intros k Hk. apply Z.pow_pos_nonneg; lia. Qed.

Lemma toQ_mk : forall v e, toQ (mk v e) = inject_Z v * ten ^ e.
Proof. reflexivity. Qed.

(** Moving the exponent down by [k] digits multiplies the coefficient. *)
Lemma toQ_scale : forall v e k, (0 <= k)%Z ->
  toQ (mk (v * 10 ^ k) (e - k)) == toQ (mk v e).
Proof.
  intros v e k Hk. rewrite !toQ_mk.
  rewrite inject_Z_mult, (inject_pow10 k Hk).
  assert (E : ten ^ e == ten ^ k * ten ^ (e - k)).
  { replace e with (k + (e - k))%Z at 1 by lia.
    apply Qpower_plus, ten_nonzero. }
  rewrite E. ring.
Qed.

Lemma toQ_rescale_down : forall d e, (e <= exp d)%Z -> toQ (rescale d e) == toQ d.
Proof.
  intros [v x] e He; unfold rescale; cbn [value exp] in *.
  destruct (Z.eqb_spec x e) as [->|Hne]; [reflexivity|].
  destruct (Z.ltb_spec x e) as [Hlt|_]; [lia|].
  replace (Z.abs (e - x)) with (x - e)%Z by lia.
  replace e with (x - (x - e))%Z at 2 by lia.
  apply toQ_scale. lia.
Qed.

Lemma exp_rescale : forall d e, exp (rescale d e) = e.
Proof.
  intros [v x] e; unfold rescale; cbn [value exp].
  destruct (Z.eqb_spec x e) as [->|Hne]; [reflexivity|].
  destruct (x <? e)%Z; reflexivity.
Qed.

(** [RescalePair] brings both operands to the smaller exponent without
    changing either number. *)
Lemma RescalePair_spec : forall a b,
  let '(ra, rb) := RescalePair a b in
  exp ra = exp rb /\ exp ra = Z.min (exp a) (exp b)
  /\ toQ ra == toQ a /\ toQ rb == toQ b.
Proof.
  intros a b. unfold RescalePair.
  destruct (Z.ltb_spec (exp a) (exp b)) as [H|H].
  - rewrite exp_rescale. repeat split; try lia; try reflexivity.
    apply toQ_rescale_down; lia.
  - destruct (Z.ltb_spec (exp b) (exp a)) as [H'|H'].
    + rewrite exp_rescale. repeat split; try lia; try reflexivity.
      apply toQ_rescale_down; lia.
    + repeat split; try lia; reflexivity.
Qed.

Lemma toQ_Add : forall a b, toQ (Add a b) == toQ a + toQ b.
Proof.
  intros a b. unfold Add.
  pose proof (RescalePair_spec a b) as H.
  destruct (RescalePair a b) as [ra rb].
  destruct H as (He & _ & Ha & Hb).
  rewrite <- Ha, <- Hb. unfold toQ; cbn [value exp].
  rewrite inject_Z_plus, He. ring.
Qed.

Lemma toQ_Sub : forall a b, toQ (Sub a b) == toQ a - toQ b.
Proof.
  intros a b. unfold Sub.
  pose proof (RescalePair_spec a b) as H.
  destruct (RescalePair a b) as [ra rb].
  destruct H as (He & _ & Ha & Hb).
  rewrite <- Ha, <- Hb. unfold toQ; cbn [value exp].
  unfold Z.sub. rewrite inject_Z_plus, inject_Z_opp, He. ring.
Qed.

Lemma toQ_Neg : forall a, toQ (Neg a) == - toQ a.
Proof.
  intros a. unfold toQ, Neg; cbn [value exp]. rewrite inject_Z_opp. ring.
Qed.

Lemma toQ_Mul : forall a b, toQ (Mul a b) == toQ a * toQ b.
Proof.
  intros [va ea] [vb eb]. unfold Mul; cbn [value exp]. rewrite !toQ_mk.
  rewrite inject_Z_mult, (Qpower_plus ten ea eb ten_nonzero). ring.
Qed.

Lemma toQ_Zero : toQ Zero == 0.
Proof. reflexivity. Qed.

Lemma toQ_NewFromInt : forall n, toQ (NewFromInt n) == inject_Z n.
Proof. intro n. unfold toQ, NewFromInt; cbn. ring. Qed.

Lemma Qcompare_scale : forall (x y : Z) (c : Q), 0 < c ->
  (inject_Z x * c ?= inject_Z y * c) = (x ?= y)%Z.
Proof.
  intros x y c Hc.
  destruct (Z.compare_spec x y) as [->|Hlt|Hgt].
  - apply Qeq_alt. reflexivity.
  - apply Qlt_alt. apply Qmult_lt_r; [exact Hc|]. rewrite <- Zlt_Qlt. exact Hlt.
  - apply Qgt_alt. apply Qmult_lt_r; [exact Hc|]. rewrite <- Zlt_Qlt. exact Hgt.
Qed.

(** [Cmp] compares the numbers. *)
Lemma Cmp_spec : forall a b, Cmp a b = (toQ a ?= toQ b).
Proof.
  intros a b. unfold Cmp.
  pose proof (RescalePair_spec a b) as H.
  destruct (RescalePair a b) as [ra rb].
  destruct H as (He & _ & Ha & Hb).
  rewrite <- Ha, <- Hb. unfold toQ. rewrite He.
  symmetry. apply Qcompare_scale. apply ten_pos.
Qed.

Lemma LessThan_spec : forall a b, LessThan a b = true <-> toQ a < toQ b.
Proof.
  intros a b. unfold LessThan. rewrite Cmp_spec, Qlt_alt.
  destruct (toQ a ?= toQ b); split; congruence.
Qed.

Lemma LessThanOrEqual_spec : forall a b, LessThanOrEqual a b = true <-> toQ a <= toQ b.
Proof.
  intros a b. unfold LessThanOrEqual. rewrite Cmp_spec, Qle_alt.
  destruct (toQ a ?= toQ b); split; congruence.
Qed.

Lemma GreaterThan_spec : forall a b, GreaterThan a b = true <-> toQ b < toQ a.
Proof.
  intros a b. unfold GreaterThan. rewrite Cmp_spec.
  rewrite (Qgt_alt (toQ a) (toQ b)).
  destruct (toQ a ?= toQ b); split; congruence.
Qed.

Lemma GreaterThanOrEqual_spec : forall a b,
  GreaterThanOrEqual a b = true <-> toQ b <= toQ a.
Proof.
  intros a b. unfold GreaterThanOrEqual. rewrite Cmp_spec.
  rewrite (Qge_alt (toQ a) (toQ b)).
  destruct (toQ a ?= toQ b); split; congruence.
Qed.

Lemma LessThan_false : forall a b, LessThan a b = false <-> toQ b <= toQ a.
Proof.
  intros a b. rewrite <- GreaterThanOrEqual_spec.
  unfold LessThan, GreaterThanOrEqual. destruct (Cmp a b); split; congruence.
Qed.

Lemma LessThanOrEqual_false : forall a b, LessThanOrEqual a b = false <-> toQ b < toQ a.
Proof.
  intros a b. rewrite <- GreaterThan_spec.
  unfold LessThanOrEqual, GreaterThan. destruct (Cmp a b); split; congruence.
Qed.

(** *** Rounding *)

Lemma round_last_digit_bounds : forall t : Z,
  ((0 <= t -> -4 <= 10 * round_last_digit t - t <= 5)
   /\ (t < 0 -> -5 <= 10 * round_last_digit t - t <= 4))%Z.
Proof.
  intro t. unfold round_last_digit.
  destruct (Z.ltb_spec (Z.sgn t) 0) as [Hs|Hs].
  - assert (Ht : (t < 0)%Z) by (apply Z.sgn_neg_iff; lia).
    pose proof (Z.div_mod (t - 5) 10 ltac:(lia)) as Hdm.
    pose proof (Z.mod_pos_bound (t - 5) 10 ltac:(lia)) as Hm.
    assert (Hq : ((t - 5) / 10 < 0)%Z) by (apply Z.div_lt_upper_bound; lia).
    destruct (Z.ltb_spec (Z.sgn ((t - 5) / 10)) 0) as [_|Hc].
    2:{ apply Z.sgn_neg_iff in Hq. lia. }
    destruct (Z.eqb_spec ((t - 5) mod 10) 0) as [Hz|Hz]; cbn [negb andb]; lia.
  - assert (Ht : (0 <= t)%Z).
    { destruct (Z.sgn_spec t) as [[? ?]|[[? ?]|[? ?]]]; lia. }
    pose proof (Z.div_mod (t + 5) 10 ltac:(lia)) as Hdm.
    pose proof (Z.mod_pos_bound (t + 5) 10 ltac:(lia)) as Hm.
    assert (Hq : (0 <= (t + 5) / 10)%Z) by (apply Z.div_pos; lia).
    destruct (Z.ltb_spec (Z.sgn ((t + 5) / 10)) 0) as [Hc|_].
    { apply Z.sgn_neg_iff in Hc. lia. }
    cbn [andb]. lia.
Qed.

(** Dropping [k] digits and rounding the last kept one is within half a
    unit of the kept scale. *)
Lemma round_truncated_bound : forall v K : Z, (0 < K)%Z ->
  (Z.abs (10 * K * round_last_digit (Z.quot v K) - v) <= 5 * K)%Z.
Proof.
  intros v K HK.
  pose proof (Z.quot_rem' v K) as Hqr.
  destruct (round_last_digit_bounds (Z.quot v K)) as [Hpos Hneg].
  destruct (Z.le_gt_cases 0 v) as [Hv|Hv].
  - pose proof (Z.rem_bound_pos v K Hv HK) as Hr.
    assert (Hq : (0 <= Z.quot v K)%Z) by (apply Z.quot_pos; lia).
    specialize (Hpos Hq). nia.
  - pose proof (Z.rem_bound_abs v K ltac:(lia)) as Hra.
    pose proof (Z.rem_sign_mul v K ltac:(lia)) as Hrs.
    assert (Hr : (- K < Z.rem v K <= 0)%Z) by nia.
    destruct (Z.le_gt_cases 0 (Z.quot v K)) as [Hq|Hq].
    + specialize (Hpos Hq).
      assert (Hq0 : (Z.quot v K <= 0)%Z) by (apply Z.quot_le_upper_bound; nia).
      assert (Z.quot v K = 0)%Z by lia. nia.
    + specialize (Hneg Hq). nia.
Qed.

Lemma Qabs_scaled : forall (a b : Z) (c : Q), (Z.abs a <= b)%Z -> 0 < c ->
  Qabs (inject_Z a * c) <= inject_Z b * c.
Proof.
  intros a b c Hab Hc.
  rewrite Qabs_Qmult, (Qabs_pos c) by (apply Qlt_le_weak; exact Hc).
  apply Qmult_le_compat_r; [|apply Qlt_le_weak; exact Hc].
  change (Qabs (inject_Z a)) with (inject_Z (Z.abs a)).
  rewrite <- Zle_Qle. exact Hab.
Qed.

Lemma ten_succ : forall e : Z, ten ^ (e + 1) == ten * ten ^ e.
Proof.
  intro e. rewrite (Qpower_plus ten e 1 ten_nonzero).
  change (ten ^ 1) with ten. ring.
Qed.

Lemma exp_Round : forall d places, exp (Round d places) = (- places)%Z.
Proof.
  intros d places. unfold Round.
  destruct (Z.eqb_spec (exp d) (- places)) as [E|E]; [exact E|].
  cbn [exp]. rewrite exp_rescale. lia.
Qed.

(** [Round] returns a number with [places] decimals at most half a unit
    of the last place away from its argument. *)
Lemma Round_error : forall d places,
  Qabs (toQ (Round d places) - toQ d) <= (1 # 2) * ten ^ (- places).
Proof.
  intros [v x] places. unfold Round; cbn [value exp].
  destruct (Z.eqb_spec x (- places)) as [E|E].
  { setoid_replace (toQ (mk v x) - toQ (mk v x)) with 0 by ring.
    cbn [Qabs]. apply Qmult_le_0_compat; [discriminate|].
    apply Qlt_le_weak, ten_pos. }
  set (s := (- places - 1)%Z).
  assert (Hhalf : (1 # 2) * ten ^ (- places) == inject_Z 5 * ten ^ s).
  { replace (- places)%Z with (s + 1)%Z by (unfold s; lia).
    rewrite ten_succ. unfold ten. field. }
  rewrite exp_rescale. fold s.
  unfold rescale; cbn [value exp].
  destruct (Z.eqb_spec x s) as [Exs|Exs].
  - (* already at places + 1 digits *)
    subst x. cbn [value].
    rewrite !toQ_mk, ten_succ, Hhalf.
    setoid_replace (inject_Z (round_last_digit v) * (ten * ten ^ s) - inject_Z v * ten ^ s)
      with (inject_Z (10 * 1 * round_last_digit (Z.quot v 1) - v) * ten ^ s).
    2:{ rewrite Z.quot_1_r. unfold Z.sub.
        rewrite inject_Z_plus, inject_Z_opp, !inject_Z_mult. unfold ten.
        change (inject_Z 10) with (10 # 1). change (inject_Z 1) with 1. ring. }
    apply Qabs_scaled; [|apply ten_pos].
    apply (round_truncated_bound v 1). lia.
  - destruct (Z.ltb_spec x s) as [Hlt|Hge].
    + (* digits are dropped *)
      cbn [value].
      replace (Z.abs (s - x)) with (s - x)%Z by lia.
      set (K := (10 ^ (s - x))%Z).
      assert (HK : (0 < K)%Z) by (apply pow10_pos; lia).
      assert (Hs : ten ^ s == inject_Z K * ten ^ x).
      { unfold K. rewrite (inject_pow10 (s - x)) by lia.
        rewrite <- (Qpower_plus ten (s - x) x ten_nonzero).
        replace (s - x + x)%Z with s by lia. reflexivity. }
      rewrite !toQ_mk, ten_succ, Hhalf, Hs.
      setoid_replace (inject_Z (round_last_digit (Z.quot v K)) * (ten * (inject_Z K * ten ^ x))
                      - inject_Z v * ten ^ x)
        with (inject_Z (10 * K * round_last_digit (Z.quot v K) - v) * ten ^ x).
      2:{ unfold Z.sub.
          rewrite inject_Z_plus, inject_Z_opp, !inject_Z_mult. unfold ten.
          change (inject_Z 10) with (10 # 1). ring. }
      rewrite Qmult_assoc, <- inject_Z_mult.
      apply Qabs_scaled; [|apply ten_pos].
      apply round_truncated_bound. exact HK.
    + (* digits are added *)
      cbn [value].
      replace (Z.abs (s - x)) with (x - s)%Z by lia.
      set (K := (10 ^ (x - s))%Z).
      assert (Hx : ten ^ x == inject_Z K * ten ^ s).
      { unfold K. rewrite (inject_pow10 (x - s)) by lia.
        rewrite <- (Qpower_plus ten (x - s) s ten_nonzero).
        replace (x - s + s)%Z with x by lia. reflexivity. }
      rewrite !toQ_mk, ten_succ, Hhalf, Hx.
      setoid_replace (inject_Z (round_last_digit (v * K)) * (ten * ten ^ s)
                      - inject_Z v * (inject_Z K * ten ^ s))
        with (inject_Z (10 * 1 * round_last_digit (Z.quot (v * K) 1) - v * K) * ten ^ s).
      2:{ rewrite Z.quot_1_r. unfold Z.sub.
          rewrite inject_Z_plus, inject_Z_opp, !inject_Z_mult. unfold ten.
          change (inject_Z 10) with (10 # 1). change (inject_Z 1) with 1. ring. }
      apply Qabs_scaled; [|apply ten_pos].
      apply (round_truncated_bound (v * K) 1). lia.
Qed.

(** *** Division *)

Lemma quot_round_bound : forall aa bb sa sb : Z,
  bb <> 0%Z -> Z.sgn aa = sa -> Z.sgn bb = sb ->
  let q := Z.quot aa bb in
  let r := Z.rem aa bb in
  let q' := if (2 * Z.abs r <? Z.abs bb)%Z then q
            else if (sa * sb <? 0)%Z then (q - 1)%Z else (q + 1)%Z in
  (2 * Z.abs (q' * bb - aa) <= Z.abs bb)%Z.
Proof.
  intros aa bb sa sb Hbb Hsa Hsb q r q'. subst q' q r.
  pose proof (Z.quot_rem' aa bb) as Hqr.
  pose proof (Z.rem_bound_abs aa bb Hbb) as Hra.
  pose proof (Z.rem_sign_mul aa bb Hbb) as Hrs.
  destruct (Z.ltb_spec (2 * Z.abs (Z.rem aa bb)) (Z.abs bb)) as [Hh|Hh].
  { replace (Z.quot aa bb * bb - aa)%Z with (- Z.rem aa bb)%Z by lia. lia. }
  assert (Hr0 : Z.rem aa bb <> 0%Z) by lia.
  assert (Haa0 : aa <> 0%Z).
  { intro E. apply Hr0. rewrite E. apply Z.rem_0_l. exact Hbb. }
  subst sa sb.
  set (q := Z.quot aa bb) in *. set (r := Z.rem aa bb) in *.
  assert (Hsign : (aa < 0 -> r < 0)%Z /\ (0 < aa -> 0 < r)%Z) by (split; nia).
  destruct Hsign as [Hneg Hpos].
  destruct (Z.lt_trichotomy aa 0) as [Ha|[Ha|Ha]]; [|contradiction|];
    destruct (Z.lt_trichotomy bb 0) as [Hb|[Hb|Hb]]; try contradiction;
    rewrite ?(Z.sgn_neg aa), ?(Z.sgn_pos aa), ?(Z.sgn_neg bb), ?(Z.sgn_pos bb) by lia;
    match goal with
    | |- context [(?a * ?b <? 0)%Z] => destruct (Z.ltb_spec (a * b) 0); try lia
    end.
Qed.

Lemma sgn_scale : forall v k : Z, (0 <= k)%Z -> Z.sgn (v * 10 ^ k) = Z.sgn v.
Proof.
  intros v k Hk. rewrite Z.sgn_mul, (Z.sgn_pos (10 ^ k)) by (apply pow10_pos; exact Hk).
  lia.
Qed.

Lemma QuoRem_operands_spec : forall d d2 precision,
  value d2 <> 0%Z ->
  let '(aa, bb) := QuoRem_operands d d2 precision in
  bb <> 0%Z /\ Z.sgn aa = Z.sgn (value d) /\ Z.sgn bb = Z.sgn (value d2)
  /\ toQ d / toQ d2 == inject_Z aa / inject_Z bb * ten ^ (- precision).
Proof.
  intros [va ea] [vb eb] p Hvb; unfold QuoRem_operands; cbn [value exp] in *.
  assert (Hvbq : ~ inject_Z vb == 0).
  { intro E. apply Hvb. apply eq_Qeq in E || idtac.
    unfold Qeq in E; cbn in E. lia. }
  set (e := (ea - eb - - p)%Z).
  destruct (Z.ltb_spec e 0) as [He|He].
  - assert (HK : (0 < 10 ^ (- e))%Z) by (apply pow10_pos; lia).
    repeat split.
    + nia.
    + apply sgn_scale. lia.
    + rewrite !toQ_mk, inject_Z_mult, (inject_pow10 (- e)) by lia.
      assert (E1 : ten ^ ea == ten ^ eb * ten ^ (- p) * ten ^ e).
      { rewrite <- !(Qpower_plus ten _ _ ten_nonzero).
        replace (eb + - p + e)%Z with ea by (unfold e; lia). reflexivity. }
      rewrite E1, (Qpower_opp ten e).
      field. repeat split; try exact Hvbq; apply Qpower_not_0, ten_nonzero.
  - assert (HK : (0 < 10 ^ e)%Z) by (apply pow10_pos; lia).
    repeat split.
    + exact Hvb.
    + apply sgn_scale. lia.
    + rewrite !toQ_mk, inject_Z_mult, (inject_pow10 e) by lia.
      assert (E1 : ten ^ ea == ten ^ eb * ten ^ (- p) * ten ^ e).
      { rewrite <- !(Qpower_plus ten _ _ ten_nonzero).
        replace (eb + - p + e)%Z with ea by (unfold e; lia). reflexivity. }
      rewrite E1.
      field. repeat split; try exact Hvbq; apply Qpower_not_0, ten_nonzero.
Qed.


Lemma Qabs_ratio_half : forall n b : Z, b <> 0%Z ->
  (2 * Z.abs n <= Z.abs b)%Z -> Qabs (inject_Z n / inject_Z b) <= 1 # 2.
Proof.
  intros n b Hb H.
  assert (Hbq : ~ inject_Z b == 0).
  { intro E. unfold Qeq in E; cbn in E. lia. }
  assert (Hpos : 0 < Qabs (inject_Z b)).
  { change (Qabs (inject_Z b)) with (inject_Z (Z.abs b)).
    change 0 with (inject_Z 0). rewrite <- Zlt_Qlt. lia. }
  apply (Qmult_le_r _ _ (Qabs (inject_Z b)) Hpos).
  rewrite <- Qabs_Qmult.
  setoid_replace (inject_Z n / inject_Z b * inject_Z b) with (inject_Z n)
    by (field; exact Hbq).
  change (Qabs (inject_Z n)) with (inject_Z (Z.abs n)).
  change (Qabs (inject_Z b)) with (inject_Z (Z.abs b)).
  unfold Qle, Qmult, inject_Z. cbn [Qnum Qden].
  change (Z.pos (2 * 1)) with 2%Z. lia.
Qed.

(** [DivRound] by a non-zero divisor: the quotient at [precision]
    decimals, at most half a unit of the last place away from the exact
    quotient. *)
Lemma DivRound_error : forall d d2 precision, value d2 <> 0%Z ->
  Qabs (toQ (DivRound_nz d d2 precision) - toQ d / toQ d2)
  <= (1 # 2) * ten ^ (- precision).
Proof.
  intros d d2 p Hd2.
  pose proof (QuoRem_operands_spec d d2 p Hd2) as Hop.
  unfold DivRound_nz.
  destruct (QuoRem_operands d d2 p) as [aa bb].
  destruct Hop as (Hbb & Hsa & Hsb & Hq).
  pose proof (quot_round_bound aa bb _ _ Hbb Hsa Hsb) as Hb. cbv zeta in Hb.
  set (q' := if (2 * Z.abs (Z.rem aa bb) <? Z.abs bb)%Z then Z.quot aa bb
             else if (Z.sgn (value d) * Z.sgn (value d2) <? 0)%Z
                  then (Z.quot aa bb - 1)%Z else (Z.quot aa bb + 1)%Z) in *.
  assert (Hres : (if (2 * Z.abs (Z.rem aa bb) <? Z.abs bb)%Z
                  then mk (Z.quot aa bb) (- p)
                  else if (Z.sgn (value d) * Z.sgn (value d2) <? 0)%Z
                       then mk (Z.quot aa bb - 1) (- p)
                       else mk (Z.quot aa bb + 1) (- p)) = mk q' (- p)).
  { unfold q'. destruct (_ <? _)%Z; [reflexivity|]. destruct (_ <? _)%Z; reflexivity. }
  rewrite Hres, Hq, toQ_mk.
  assert (Hbq : ~ inject_Z bb == 0).
  { intro E. unfold Qeq in E; cbn in E. lia. }
  setoid_replace (inject_Z q' * ten ^ (- p) - inject_Z aa / inject_Z bb * ten ^ (- p))
    with (inject_Z (q' * bb - aa) / inject_Z bb * ten ^ (- p)).
  2:{ unfold Z.sub. rewrite inject_Z_plus, inject_Z_opp, inject_Z_mult.
      field. exact Hbq. }
  rewrite Qabs_Qmult, (Qabs_pos (ten ^ (- p))) by (apply Qlt_le_weak, ten_pos).
  apply Qmult_le_compat_r; [|apply Qlt_le_weak, ten_pos].
  apply Qabs_ratio_half; assumption.
Qed.

End DecimalFacts.

(** ** Outcomes and the world monad *)

Section MonadFacts.

Lemma bind_ok : forall (A B : Type) (c : M A) (k : A -> M B) w a w',
  c w = (Ok a, w') -> bind c k w = k a w'.
Proof. intros A B c k w a w' H. unfold bind. rewrite H. reflexivity. Qed.

Lemma bind_error : forall (A B : Type) (c : M A) (k : A -> M B) w e w',
  c w = (Error e, w') -> bind c k w = (Error e, w').
Proof. intros A B c k w e w' H. unfold bind. rewrite H. reflexivity. Qed.

Lemma bind_cases : forall (A B : Type) (c : M A) (k : A -> M B) w,
  bind c k w = match c w with
               | (Ok a, w') => k a w'
               | (Error e, w') => (Error e, w')
               | (Panic m, w') => (Panic m, w')
               end.
Proof. reflexivity. Qed.

Lemma wrap_err_ok : forall (A : Type) prefix (c : M A) w a w',
  c w = (Ok a, w') -> wrap_err prefix c w = (Ok a, w').
Proof. intros A prefix c w a w' H. unfold wrap_err. rewrite H. reflexivity. Qed.




Lemma bind_ret : forall (A B : Type) (a : A) (k : A -> M B) w,
  bind (ret a) k w = k a w.
Proof. reflexivity. Qed.






End MonadFacts.

(** ** Billing cycle: the statement balance *)

Section NewBalance.
Import Decimal.
Local Open Scope Q_scope.

(** C4. [CalculateNewBalance] is previous balance - payments received
    + purchases + cash advances - refunds + fees + interest
    + adjustments - cashback redeemed, computed exactly; the result is
    not clamped: a cycle with previous balance 100.00 and payments
    150.00 has new balance -50.00. *)
Theorem CalculateNewBalance_formula :
  (forall bc : BillingCycle,
     toQ (BillingCycleM.CalculateNewBalance bc)
     == toQ (bc_PreviousBalance bc) - toQ (bc_PaymentsReceived bc)
        + toQ (bc_PurchasesAmount bc) + toQ (bc_CashAdvancesAmount bc)
        - toQ (bc_RefundsAmount bc) + toQ (bc_FeesAmount bc)
        + toQ (bc_InterestAmount bc) + toQ (bc_AdjustmentsAmount bc)
        - toQ (bc_CashbackRedeemed bc))
  /\ toQ (BillingCycleM.CalculateNewBalance Examples.cycle_with_credit_balance) == - (50 # 1).
Proof.
  split.
  - intro bc. unfold BillingCycleM.CalculateNewBalance.
    repeat (rewrite ?toQ_Sub, ?toQ_Add). reflexivity.
  - vm_compute. reflexivity.
Qed.

End NewBalance.

(** ** Interest *)

Section Interest.
Import Decimal.
Local Open Scope Q_scope.

Variable running_balance_query :
  list StatementLedgerEntry -> UUID -> Time -> Time -> list DailyBalanceRecord.

Lemma wrap64_small : forall z : Z, (- 2 ^ 63 <= z < 2 ^ 63)%Z -> wrap64 z = z.
Proof. intros z Hz. unfold wrap64. rewrite Z.mod_small; lia. Qed.

Lemma Div_nonzero : forall d d2, value d2 <> 0%Z ->
  Div d d2 = Ok (DivRound_nz d d2 DivisionPrecision).
Proof.
  intros d d2 H. unfold Div, DivRound.
  destruct (Z.eqb_spec (value d2) 0); [contradiction|reflexivity].
Qed.

Lemma GetDailyPeriodicRate_value : forall c apr,
  CreditCardM.GetDailyPeriodicRate c apr
  = Ok (DivRound_nz (DivRound_nz apr (NewFromInt 365) DivisionPrecision)
                    (NewFromInt 100) DivisionPrecision).
Proof. reflexivity. Qed.

Lemma CalculateAverageDailyBalance_empty :
  BillingCycleM.CalculateAverageDailyBalance [] = Ok Zero.
Proof. reflexivity. Qed.

Lemma CalculateAverageDailyBalance_nonempty : forall r rs,
  BillingCycleM.CalculateAverageDailyBalance (r :: rs)
  = Ok (Round (DivRound_nz
                 (fold_left (fun total record => Add total (dbr_Balance record))
                            (r :: rs) BillingCycleM.zero_value)
                 (NewFromInt (Z.of_nat (List.length (r :: rs))))
                 DivisionPrecision) 2).
Proof.
  intros r rs. unfold BillingCycleM.CalculateAverageDailyBalance.
  assert (H : Z.of_nat (List.length (r :: rs)) <> 0%Z) by (cbn [List.length]; lia).
  destruct (Z.eqb_spec (Z.of_nat (List.length (r :: rs))) 0) as [E|_]; [contradiction|].
  rewrite Div_nonzero by exact H. reflexivity.
Qed.

Lemma CalculateAverageDailyBalance_total : forall records,
  exists adb, BillingCycleM.CalculateAverageDailyBalance records = Ok adb.
Proof.
  intros [|r rs].
  - exists Zero. reflexivity.
  - eexists. apply CalculateAverageDailyBalance_nonempty.
Qed.

Lemma calculateAdjustedBalanceInterest_total : forall previous payments apr,
  exists i, InterestService.calculateAdjustedBalanceInterest previous payments apr = Ok i.
Proof.
  intros previous payments apr.
  unfold InterestService.calculateAdjustedBalanceInterest.
  destruct (LessThanOrEqual _ _); eexists; reflexivity.
Qed.

(** What [CalculateInterest] does on a live connection, in terms of the
    average daily balance and of the grace-period test. *)
Lemma CalculateInterest_run : forall card cycle config w adb,
  conn_ok w = true ->
  BillingCycleM.CalculateAverageDailyBalance
    (running_balance_query (statement_ledger_entries w) (cc_ID card)
       (bc_CycleStartDate cycle) (bc_CycleEndDate cycle)) = Ok adb ->
  InterestService.CalculateInterest running_balance_query card cycle config w
  = let w1 := after_clock_read w in
    let apr := CreditCardM.GetEffectiveAPR card (bc_CycleStartDate cycle) in
    let dpr := DivRound_nz (DivRound_nz apr (NewFromInt 365) DivisionPrecision)
                           (NewFromInt 100) DivisionPrecision in
    let daysInCycle :=
      wrap64 (days_between (bc_CycleEndDate cycle) (bc_CycleStartDate cycle) + 1) in
    let dailyBalances :=
      running_balance_query (statement_ledger_entries w) (cc_ID card)
        (bc_CycleStartDate cycle) (bc_CycleEndDate cycle) in
    let result waived charge minimum :=
      mkInterestCalculationResult (cc_ID card) (bc_ID cycle) (ic_Method config)
        adb apr dpr daysInCycle charge minimum waived (clock w (clock_reads w)) in
    match InterestService.qualifiesForGracePeriod card cycle w1 with
    | (Ok true, w2) => (Ok (result true Zero BillingCycleM.zero_value), w2)
    | (Ok false, w2) =>
        match (if String.eqb (ic_Method config)
                    InterestCalculationMethod.AverageDailyBalanceMethod
               then Ok (InterestService.calculateADBInterest adb dpr daysInCycle)
               else if String.eqb (ic_Method config)
                         InterestCalculationMethod.DailyBalanceMethod
               then Ok (InterestService.calculateDailyBalanceInterest dailyBalances dpr)
               else if String.eqb (ic_Method config)
                         InterestCalculationMethod.AdjustedBalanceMethod
               then InterestService.calculateAdjustedBalanceInterest
                      (bc_PreviousBalance cycle) (bc_PaymentsReceived cycle) apr
               else Ok (InterestService.calculateADBInterest adb dpr daysInCycle)) with
        | Ok interestCharge =>
            (Ok (result false
                   (Round (if GreaterThan interestCharge Zero
                              && LessThan interestCharge (ic_MinimumInterestCharge config)
                           then ic_MinimumInterestCharge config
                           else interestCharge)
                          (ic_RoundingPrecision config))
                   (ic_MinimumInterestCharge config)), w2)
        | Error e => (Error e, w2)
        | Panic m => (Panic m, w2)
        end
    | (Error e, w2) => (Error e, w2)
    | (Panic m, w2) => (Panic m, w2)
    end.
Proof.
  intros card cycle config w adb Hconn Hadb.
  unfold InterestService.CalculateInterest.
  unfold bind at 1. unfold time_Now at 1.
  rewrite GetDailyPeriodicRate_value.
  unfold bind at 1. unfold lift at 1.
  unfold bind at 1. unfold wrap_err, InterestService.getDailyBalances.
  change (conn_ok (after_clock_read w)) with (conn_ok w).
  change (statement_ledger_entries (after_clock_read w)) with (statement_ledger_entries w).
  rewrite Hconn. cbn [negb].
  unfold bind at 1. unfold lift at 1. rewrite Hadb.
  unfold bind at 1. cbv zeta.
  destruct (InterestService.qualifiesForGracePeriod card cycle (after_clock_read w))
    as [[[|]|e|m] w2]; reflexivity.
Qed.

Lemma qualifiesForGracePeriod_paid_full : forall card cycle w,
  conn_ok w = true ->
  (- 2 ^ 63 < bc_CycleNumber cycle < 2 ^ 63)%Z ->
  (forall prev, In prev (billing_cycles w) ->
     bc_CreditCardID prev = cc_ID card ->
     bc_CycleNumber prev = (bc_CycleNumber cycle - 1)%Z ->
     bc_Status prev = BillingCycleStatus.PaidFull
     /\ toQ (bc_NewBalance prev) <= toQ (bc_PaymentsMade prev)) ->
  InterestService.qualifiesForGracePeriod card cycle w = (Ok true, w).
Proof.
  intros card cycle w Hconn Hn Hprev.
  unfold InterestService.qualifiesForGracePeriod. rewrite Hconn. cbn [negb].
  rewrite wrap64_small by lia.
  destruct (InterestService.previous_paid_full_cycle w (cc_ID card)
              (bc_CycleNumber cycle - 1)) as [prev|] eqn:Hfind; [|reflexivity].
  unfold InterestService.previous_paid_full_cycle in Hfind.
  apply find_some in Hfind. destruct Hfind as [Hin Hmatch].
  apply andb_prop in Hmatch. destruct Hmatch as [Hmatch _].
  apply andb_prop in Hmatch. destruct Hmatch as [Hcard Hnum].
  apply Z.eqb_eq in Hcard, Hnum.
  destruct (Hprev prev Hin Hcard Hnum) as [_ Hpaid].
  apply GreaterThanOrEqual_spec in Hpaid. rewrite Hpaid. reflexivity.
Qed.

(** C1. On a live connection, when the daily-balance query answers and
    every row of billing_cycles for the card's previous cycle number
    (at most one by the table's UNIQUE constraint, none for a new
    account) has status paid_full and payments_made >= new_balance,
    [CalculateInterest] returns a result whose interest charge is
    [decimal.Zero] and whose [WaivedDueToGracePeriod] is true, whatever
    the configured method and whatever the daily balances. *)
Theorem CalculateInterest_grace_period_waiver :
  forall (card : CreditCard) (cycle : BillingCycle) (config : InterestConfig) (w : World),
    conn_ok w = true ->
    (- 2 ^ 63 < bc_CycleNumber cycle < 2 ^ 63)%Z ->
    (forall prev, In prev (billing_cycles w) ->
       bc_CreditCardID prev = cc_ID card ->
       bc_CycleNumber prev = (bc_CycleNumber cycle - 1)%Z ->
       bc_Status prev = BillingCycleStatus.PaidFull
       /\ toQ (bc_NewBalance prev) <= toQ (bc_PaymentsMade prev)) ->
    exists result w',
      InterestService.CalculateInterest running_balance_query card cycle config w
      = (Ok result, w')
      /\ icr_InterestCharge result = Zero
      /\ icr_WaivedDueToGracePeriod result = true
      /\ icr_CalculationMethod result = ic_Method config.
Proof.
  intros card cycle config w Hconn Hn Hprev.
  destruct (CalculateAverageDailyBalance_total
              (running_balance_query (statement_ledger_entries w) (cc_ID card)
                 (bc_CycleStartDate cycle) (bc_CycleEndDate cycle))) as [adb Hadb].
  rewrite (CalculateInterest_run card cycle config w adb Hconn Hadb). cbv zeta.
  rewrite (qualifiesForGracePeriod_paid_full card cycle (after_clock_read w));
    [|exact Hconn|exact Hn|exact Hprev].
  eexists. eexists. repeat split.
Qed.

(** C10. [CalculateAverageDailyBalance] of no records is [decimal.Zero]
    and no list of records makes it divide by zero; hence on a live
    connection [CalculateInterest] always returns a result, with average
    daily balance [decimal.Zero] when the cycle has no recorded daily
    balance. *)
Theorem CalculateAverageDailyBalance_empty_is_zero :
  BillingCycleM.CalculateAverageDailyBalance [] = Ok Zero
  /\ (forall records, exists adb,
        BillingCycleM.CalculateAverageDailyBalance records = Ok adb)
  /\ (forall card cycle config w,
        conn_ok w = true ->
        exists result w',
          InterestService.CalculateInterest running_balance_query card cycle config w
          = (Ok result, w')
          /\ (running_balance_query (statement_ledger_entries w) (cc_ID card)
                (bc_CycleStartDate cycle) (bc_CycleEndDate cycle) = [] ->
              icr_AverageDailyBalance result = Zero)).
Proof.
  split; [reflexivity|]. split; [exact CalculateAverageDailyBalance_total|].
  intros card cycle config w Hconn.
  destruct (CalculateAverageDailyBalance_total
              (running_balance_query (statement_ledger_entries w) (cc_ID card)
                 (bc_CycleStartDate cycle) (bc_CycleEndDate cycle))) as [adb Hadb].
  rewrite (CalculateInterest_run card cycle config w adb Hconn Hadb). cbv zeta.
  unfold InterestService.qualifiesForGracePeriod.
  change (conn_ok (after_clock_read w)) with (conn_ok w). rewrite Hconn. cbn [negb].
  assert (Hempty : running_balance_query (statement_ledger_entries w) (cc_ID card)
                     (bc_CycleStartDate cycle) (bc_CycleEndDate cycle) = [] ->
                   adb = Zero).
  { intro E. rewrite E in Hadb. cbn in Hadb. congruence. }
  destruct (InterestService.previous_paid_full_cycle _ _ _) as [prev|].
  - destruct (GreaterThanOrEqual _ _).
    + eexists. eexists. split; [reflexivity|exact Hempty].
    + destruct (String.eqb (ic_Method config) _).
      { eexists. eexists. split; [reflexivity|exact Hempty]. }
      destruct (String.eqb (ic_Method config) _).
      { eexists. eexists. split; [reflexivity|exact Hempty]. }
      destruct (String.eqb (ic_Method config) _).
      { destruct (calculateAdjustedBalanceInterest_total (bc_PreviousBalance cycle)
                    (bc_PaymentsReceived cycle)
                    (CreditCardM.GetEffectiveAPR card (bc_CycleStartDate cycle)))
          as [i Hi].
        rewrite Hi. eexists. eexists. split; [reflexivity|exact Hempty]. }
      eexists. eexists. split; [reflexivity|exact Hempty].
  - eexists. eexists. split; [reflexivity|exact Hempty].
Qed.

End Interest.

Lemma CalculateInterest_grace_period_waiver_witness :
  exists result w',
    InterestService.CalculateInterest Examples.thirty_days_query Examples.card_7
      Examples.cycle_2 InterestService.DefaultInterestConfig
      (Examples.world [] [] [Examples.cycle_1_paid_full])
    = (Ok result, w')
    /\ icr_InterestCharge result = Decimal.Zero
    /\ icr_WaivedDueToGracePeriod result = true
    /\ icr_CalculationMethod result = ic_Method InterestService.DefaultInterestConfig.
Proof.
  apply (CalculateInterest_grace_period_waiver Examples.thirty_days_query
           Examples.card_7 Examples.cycle_2 InterestService.DefaultInterestConfig
           (Examples.world [] [] [Examples.cycle_1_paid_full])).
  - reflexivity.
  - vm_compute. split; reflexivity.
  - intros prev [<-|[]] _ _. split; [reflexivity|].
    vm_compute. intro H. discriminate H.
Defined.

Lemma CalculateAverageDailyBalance_empty_is_zero_witness :
  exists result w',
    InterestService.CalculateInterest Examples.no_days_query Examples.card_7
      Examples.cycle_2 InterestService.DefaultInterestConfig
      (Examples.world [] [] [Examples.cycle_1_underpaid])
    = (Ok result, w')
    /\ (Examples.no_days_query [] 7 0 (29 * 24 * time_Hour) = [] ->
        icr_AverageDailyBalance result = Decimal.Zero).
Proof.
  apply (proj2 (proj2 (CalculateAverageDailyBalance_empty_is_zero Examples.no_days_query))
           Examples.card_7 Examples.cycle_2 InterestService.DefaultInterestConfig
           (Examples.world [] [] [Examples.cycle_1_underpaid])).
  reflexivity.
Defined.

(** ** Interest: the Average Daily Balance formula and its roundings *)

Section InterestNumerics.
Import Decimal.
Local Open Scope Q_scope.

Lemma half_unit_2 : (1 # 2) * (10 # 1) ^ (- (2)) == 1 # 200.
Proof. reflexivity. Qed.

Lemma half_unit_16 : (1 # 2) * (10 # 1) ^ (- DivisionPrecision) == 1 # 20000000000000000.
Proof. reflexivity. Qed.

Lemma Round_2_error : forall d, Qabs (toQ (Round d 2) - toQ d) <= 1 # 200.
Proof. intro d. rewrite <- half_unit_2. apply Round_error. Qed.

Lemma Div_error : forall d d2 q, Div d d2 = Ok q ->
  Qabs (toQ q - toQ d / toQ d2) <= 1 # 20000000000000000.
Proof.
  intros d d2 q H. unfold Div, DivRound in H.
  destruct (Z.eqb_spec (value d2) 0) as [E|E]; [discriminate|].
  injection H as <-. rewrite <- half_unit_16. apply DivRound_error. exact E.
Qed.


Lemma calculateADBInterest_positive : forall adb dpr days,
  0 < toQ adb ->
  InterestService.calculateADBInterest adb dpr days
  = Round (Mul (Mul adb dpr) (NewFromInt days)) 2.
Proof.
  intros adb dpr days H. unfold InterestService.calculateADBInterest.
  assert (E : LessThanOrEqual adb Zero = false)
    by (apply LessThanOrEqual_false; rewrite toQ_Zero; exact H).
  rewrite E. reflexivity.
Qed.

Lemma toQ_adb_product : forall adb dpr days,
  toQ (Mul (Mul adb dpr) (NewFromInt days)) == toQ adb * toQ dpr * inject_Z days.
Proof.
  intros adb dpr days. rewrite !toQ_Mul, toQ_NewFromInt. reflexivity.
Qed.



End InterestNumerics.



(** ** Minimum payment *)

Section MinimumPayment.
Import Decimal.
Local Open Scope Q_scope.

Lemma LessThanOrEqual_Zero : forall d, toQ d <= 0 -> LessThanOrEqual d Zero = true.
Proof. intros d H. apply LessThanOrEqual_spec. rewrite toQ_Zero. exact H. Qed.

Lemma LessThanOrEqual_Zero_false : forall d, 0 < toQ d -> LessThanOrEqual d Zero = false.
Proof. intros d H. apply LessThanOrEqual_false. rewrite toQ_Zero. exact H. Qed.



End MinimumPayment.



(** ** Interest: where the computation rounds *)

Section InterestRounding.
Import Decimal.
Local Open Scope Q_scope.

Variable running_balance_query :
  list StatementLedgerEntry -> UUID -> Time -> Time -> list DailyBalanceRecord.

Lemma exp_calculateDailyBalanceInterest : forall balances dpr,
  exp (InterestService.calculateDailyBalanceInterest balances dpr) = (-2)%Z.
Proof. intros balances dpr. apply exp_Round. Qed.

Lemma CalculateInterest_charge_rounded : forall card cycle config w result w',
  conn_ok w = true ->
  InterestService.CalculateInterest running_balance_query card cycle config w
  = (Ok result, w') ->
  icr_WaivedDueToGracePeriod result = false ->
  exp (icr_InterestCharge result) = (- ic_RoundingPrecision config)%Z.
Proof.
  intros card cycle config w result w' Hconn Hrun Hwaived.
  destruct (CalculateAverageDailyBalance_total
              (running_balance_query (statement_ledger_entries w) (cc_ID card)
                 (bc_CycleStartDate cycle) (bc_CycleEndDate cycle))) as [adb Hadb].
  rewrite (CalculateInterest_run running_balance_query card cycle config w adb Hconn Hadb)
    in Hrun.
  cbv zeta in Hrun.
  destruct (InterestService.qualifiesForGracePeriod card cycle (after_clock_read w))
    as [[[|]|e|m] w2]; try discriminate Hrun.
  - injection Hrun as <- _. discriminate Hwaived.
  - destruct (if String.eqb (ic_Method config) _ then _ else _) as [i|e|m];
      try discriminate Hrun.
    injection Hrun as <- _. apply exp_Round.
Qed.

(** C9 (as amended). The interest computation rounds half away from zero
    at three steps: the average daily balance is rounded to 2 decimal
    places when it is computed, the per-method interest amount is rounded
    to 2 decimal places, and the charge (after the minimum-interest floor)
    is rounded to [RoundingPrecision] places. *)
Theorem interest_rounding_steps :
  (forall r rs, exists mean,
      Div (fold_left (fun total record => Add total (dbr_Balance record))
                     (r :: rs) BillingCycleM.zero_value)
          (NewFromInt (Z.of_nat (List.length (r :: rs)))) = Ok mean
      /\ BillingCycleM.CalculateAverageDailyBalance (r :: rs) = Ok (Round mean 2)
      /\ exp (Round mean 2) = (-2)%Z
      /\ Qabs (toQ (Round mean 2) - toQ mean) <= 1 # 200)
  /\ (forall adb dpr days, 0 < toQ adb ->
        InterestService.calculateADBInterest adb dpr days
        = Round (Mul (Mul adb dpr) (NewFromInt days)) 2
        /\ toQ (Mul (Mul adb dpr) (NewFromInt days))
           == toQ adb * toQ dpr * inject_Z days)
  /\ (forall balances dpr,
        exp (InterestService.calculateDailyBalanceInterest balances dpr) = (-2)%Z)
  /\ (forall card cycle config w result w',
        conn_ok w = true ->
        InterestService.CalculateInterest running_balance_query card cycle config w
        = (Ok result, w') ->
        icr_WaivedDueToGracePeriod result = false ->
        exp (icr_InterestCharge result) = (- ic_RoundingPrecision config)%Z).
Proof.
  split; [|split; [|split]].
  - intros r rs. eexists. split.
    + apply Div_nonzero. cbn [NewFromInt value List.length]. lia.
    + split; [apply CalculateAverageDailyBalance_nonempty|].
      split; [apply exp_Round|apply Round_2_error].
  - intros adb dpr days Hpos. split.
    + apply calculateADBInterest_positive. exact Hpos.
    + apply toQ_adb_product.
  - exact exp_calculateDailyBalanceInterest.
  - exact CalculateInterest_charge_rounded.
Qed.

End InterestRounding.

Lemma interest_rounding_steps_witness :
  (InterestService.calculateADBInterest Examples.test_adb Examples.test_dpr 31
   = Decimal.Round (Decimal.Mul (Decimal.Mul Examples.test_adb Examples.test_dpr)
                                (Decimal.NewFromInt 31)) 2
   /\ (Decimal.toQ (Decimal.Mul (Decimal.Mul Examples.test_adb Examples.test_dpr)
                                (Decimal.NewFromInt 31))
       == Decimal.toQ Examples.test_adb * Decimal.toQ Examples.test_dpr * inject_Z 31)%Q)
  /\ (forall result w',
        InterestService.CalculateInterest Examples.thirty_days_query Examples.card_7_365
          Examples.cycle_2 InterestService.DefaultInterestConfig
          Examples.world_without_grace = (Ok result, w') ->
        icr_WaivedDueToGracePeriod result = false ->
        Decimal.exp (icr_InterestCharge result) = (- 2)%Z).
Proof.
  pose proof (interest_rounding_steps Examples.thirty_days_query) as (_ & Hb & _ & Hd).
  split.
  - apply (Hb Examples.test_adb Examples.test_dpr 31). vm_compute. reflexivity.
  - intros result w' Hrun Hwaived.
    apply (Hd Examples.card_7_365 Examples.cycle_2 InterestService.DefaultInterestConfig
              Examples.world_without_grace result w'); [reflexivity|exact Hrun|exact Hwaived].
Defined.

(** C9, as stated, fails.  For twenty-nine daily balances of 66.83 and one
    of 66.95 the average daily balance is returned as 66.83, not the mean
    66.834; at 36.5% APR over the thirty days the charge computed from it
    is 2.00, while ADB x DPR x days rounded at the final step only is
    2.01. *)
Lemma interest_rounded_before_final_step :
  BillingCycleM.CalculateAverageDailyBalance Examples.thirty_days
  = Ok (Decimal.mk 6683 (-2))
  /\ (Spec.mean Examples.thirty_days_Q == 66834 # 1000)%Q
  /\ fst (InterestService.CalculateInterest Examples.thirty_days_query Examples.card_7_365
            Examples.cycle_2 InterestService.DefaultInterestConfig
            Examples.world_without_grace)
     = Ok (mkInterestCalculationResult 7 12 "average_daily_balance"
             (Decimal.mk 6683 (-2)) (Decimal.mk 365 (-1))
             (Decimal.mk 10000000000000 (-16)) 30 (Decimal.mk 200 (-2))
             (Decimal.mk 5 (-1)) false (60 * 24 * time_Hour))
  /\ (Spec.adb_interest_rounded_once Examples.thirty_days_Q (365 # 10) 30 == 201 # 100)%Q
  /\ ~ (Decimal.toQ (Decimal.mk 200 (-2))
        == Spec.adb_interest_rounded_once Examples.thirty_days_Q (365 # 10) 30)%Q.
Proof.
  split; [vm_compute; reflexivity|].
  split; [vm_compute; reflexivity|].
  split; [vm_compute; reflexivity|].
  split; [vm_compute; reflexivity|].
  vm_compute. intro E. discriminate E.
Qed.

(** ** Payment state machine *)

Section PaymentStateMachine.
Import PaymentStatus.

Ltac split_eqb :=
  repeat match goal with
         | |- context [String.eqb ?a ?b] =>
             destruct (String.eqb_spec a b); try subst; cbn [orb andb negb]
         end.

Ltac close_in H :=
  repeat (destruct H as [H|H];
          [ try discriminate H; try (injection H as H; congruence) | ]);
  try contradiction; try discriminate H; try (injection H as H; congruence).

Ltac table_case :=
  let H := fresh "H" in
  cbn [existsb]; split_eqb; split; intro H;
  first [ discriminate H | reflexivity | solve [auto 12] | solve [close_in H] ].

(** [CanTransitionTo] is membership in the table of section 4.5. *)
Lemma CanTransitionTo_iff : forall p newStatus,
  PaymentM.CanTransitionTo p newStatus = true
  <-> In (p_Status p, newStatus) Spec.payment_transitions.
Proof.
  intros p newStatus. unfold PaymentM.CanTransitionTo.
  generalize (p_Status p) as st. intro st.
  unfold PaymentM.validTransitions, Spec.payment_transitions,
    Pending, Processing, Cleared, Failed, Returned, Cancelled, Reversed.
  cbn [PaymentM.lookup In].
  destruct (String.eqb_spec st "pending") as [->|H1]; [solve [table_case]|].
  destruct (String.eqb_spec st "processing") as [->|H2]; [solve [table_case]|].
  destruct (String.eqb_spec st "cleared") as [->|H3]; [solve [table_case]|].
  destruct (String.eqb_spec st "failed") as [->|H4]; [solve [table_case]|].
  destruct (String.eqb_spec st "returned") as [->|H5]; [solve [table_case]|].
  destruct (String.eqb_spec st "cancelled") as [->|H6]; [solve [table_case]|].
  destruct (String.eqb_spec st "reversed") as [->|H7]; [solve [table_case]|].
  split; intro H; [discriminate H|]. close_in H.
Qed.

Ltac run_monad :=
  cbv [bind time_Now uuid_New ret fail PaymentServiceM.ledger_entry].

(** A successful operation was allowed by [CanTransitionTo] (and by
    [CanRetry] for a retry) and leaves the payment in its target status. *)
Lemma run_ok : forall s op p w r w',
  PaymentServiceM.run s op p w = (Ok r, w') ->
  PaymentM.CanTransitionTo p (PaymentServiceM.target op) = true
  /\ p_Status (pr_Payment r) = PaymentServiceM.target op
  /\ (op = PaymentServiceM.OpRetry -> PaymentM.CanRetry p = true).
Proof.
  intros s op p w r w' H.
  destruct op; cbn [PaymentServiceM.run PaymentServiceM.target] in *.
  - unfold PaymentServiceM.ProcessPayment in H.
    destruct (PaymentM.CanTransitionTo p Processing); [|discriminate H].
    cbn [negb] in H. revert H. run_monad. intro H. injection H as <- _.
    repeat split. intro E; discriminate E.
  - unfold PaymentServiceM.ClearPayment in H.
    destruct (PaymentM.CanTransitionTo p Cleared); [|discriminate H].
    cbn [negb] in H. revert H. run_monad.
    destruct (ps_has_ledgerService s); intro H; injection H as <- _;
      (repeat split; intro E; discriminate E).
  - unfold PaymentServiceM.FailPayment in H.
    destruct (PaymentM.CanTransitionTo p Failed); [|discriminate H].
    cbn [negb] in H. revert H. run_monad. intro H. injection H as <- _.
    cbn [pr_Payment].
    split; [reflexivity|]. split; [|intro E; discriminate E].
    match goal with |- context [if ?c then _ else _] => destruct c end; reflexivity.
  - unfold PaymentServiceM.ReturnPayment in H.
    destruct (PaymentM.CanTransitionTo p Returned); [|discriminate H].
    cbn [negb] in H. revert H. run_monad.
    destruct (ps_has_ledgerService s); intro H; injection H as <- _;
      (repeat split; intro E; discriminate E).
  - unfold PaymentServiceM.CancelPayment in H.
    destruct (PaymentM.CanTransitionTo p Cancelled); [|discriminate H].
    cbn [negb] in H. revert H. run_monad. intro H. injection H as <- _.
    repeat split. intro E; discriminate E.
  - unfold PaymentServiceM.ReversePayment in H.
    destruct (PaymentM.CanTransitionTo p Reversed); [|discriminate H].
    cbn [negb] in H. revert H. run_monad.
    destruct (ps_has_ledgerService s); intro H; injection H as <- _;
      (repeat split; intro E; discriminate E).
  - unfold PaymentServiceM.RetryPayment in H.
    destruct (PaymentM.CanRetry p); [|discriminate H].
    destruct (PaymentM.CanTransitionTo p Pending); [|discriminate H].
    cbn [negb] in H. revert H. run_monad. intro H. injection H as <- _.
    repeat split.
Qed.

(** An operation [CanTransitionTo] refuses fails and changes nothing. *)
Lemma run_refused : forall s op p w,
  PaymentM.CanTransitionTo p (PaymentServiceM.target op) = false ->
  exists msg, PaymentServiceM.run s op p w = (Error msg, w).
Proof.
  intros s op p w H.
  destruct op; cbn [PaymentServiceM.run PaymentServiceM.target] in *;
    try (match goal with
         | |- exists _, ?f _ = _ => idtac
         end).
  - unfold PaymentServiceM.ProcessPayment. rewrite H. eexists. reflexivity.
  - unfold PaymentServiceM.ClearPayment. rewrite H. eexists. reflexivity.
  - unfold PaymentServiceM.FailPayment. rewrite H. eexists. reflexivity.
  - unfold PaymentServiceM.ReturnPayment. rewrite H. eexists. reflexivity.
  - unfold PaymentServiceM.CancelPayment. rewrite H. eexists. reflexivity.
  - unfold PaymentServiceM.ReversePayment. rewrite H. eexists. reflexivity.
  - unfold PaymentServiceM.RetryPayment. rewrite H.
    destruct (PaymentM.CanRetry p); eexists; reflexivity.
Qed.

(** A retry is refused once the attempts are used up. *)
Lemma retry_refused : forall s p w,
  PaymentM.CanRetry p = false ->
  exists msg, PaymentServiceM.RetryPayment s p w = (Error msg, w).
Proof.
  intros s p w H. unfold PaymentServiceM.RetryPayment. rewrite H.
  eexists. reflexivity.
Qed.

(** An allowed operation succeeds. *)
Lemma run_allowed : forall s op p w,
  PaymentM.CanTransitionTo p (PaymentServiceM.target op) = true ->
  (op = PaymentServiceM.OpRetry -> PaymentM.CanRetry p = true) ->
  exists r w', PaymentServiceM.run s op p w = (Ok r, w')
               /\ p_Status (pr_Payment r) = PaymentServiceM.target op.
Proof.
  intros s op p w H Hretry.
  destruct op; cbn [PaymentServiceM.run PaymentServiceM.target] in *.
  - unfold PaymentServiceM.ProcessPayment. rewrite H. run_monad.
    eexists. eexists. split; reflexivity.
  - unfold PaymentServiceM.ClearPayment. rewrite H. run_monad.
    destruct (ps_has_ledgerService s); eexists; eexists; split; reflexivity.
  - unfold PaymentServiceM.FailPayment. rewrite H. run_monad.
    eexists. eexists. split; [reflexivity|]. cbn [pr_Payment].
    match goal with |- context [if ?c then _ else _] => destruct c end; reflexivity.
  - unfold PaymentServiceM.ReturnPayment. rewrite H. run_monad.
    destruct (ps_has_ledgerService s); eexists; eexists; split; reflexivity.
  - unfold PaymentServiceM.CancelPayment. rewrite H. run_monad.
    eexists. eexists. split; reflexivity.
  - unfold PaymentServiceM.ReversePayment. rewrite H. run_monad.
    destruct (ps_has_ledgerService s); eexists; eexists; split; reflexivity.
  - unfold PaymentServiceM.RetryPayment. rewrite (Hretry eq_refl), H. run_monad.
    eexists. eexists. split; reflexivity.
Qed.

Lemma transitions_from_failed : forall target,
  In (Failed, target) Spec.payment_transitions -> target = Pending.
Proof.
  intros target H. cbv [Spec.payment_transitions In Failed] in H.
  repeat (destruct H as [H|H]; try discriminate H); try contradiction.
  injection H as <-. reflexivity.
Qed.

Lemma target_pending : forall op,
  PaymentServiceM.target op = Pending -> op = PaymentServiceM.OpRetry.
Proof. intros op H. destruct op; try discriminate H. reflexivity. Qed.

Lemma terminal_refuses : forall p newStatus,
  PaymentM.IsTerminal p = true -> PaymentM.CanTransitionTo p newStatus = false.
Proof.
  intros p newStatus Ht.
  destruct (PaymentM.CanTransitionTo p newStatus) eqn:Hc; [|reflexivity].
  apply CanTransitionTo_iff in Hc. unfold PaymentM.IsTerminal in Ht.
  apply orb_prop in Ht. destruct Ht as [Ht|Ht]; [apply orb_prop in Ht; destruct Ht as [Ht|Ht]|];
    apply String.eqb_eq in Ht; rewrite Ht in Hc;
    cbv [Spec.payment_transitions In Returned Cancelled Reversed] in Hc;
    repeat (destruct Hc as [Hc|Hc]; try discriminate Hc); contradiction.
Qed.

Lemma cleared_not_to_pending : forall p,
  p_Status p = Cleared -> PaymentM.CanTransitionTo p Pending = false.
Proof.
  intros p Hs.
  destruct (PaymentM.CanTransitionTo p Pending) eqn:Hc; [|reflexivity].
  apply CanTransitionTo_iff in Hc. rewrite Hs in Hc.
  cbv [Spec.payment_transitions In Cleared Pending] in Hc.
  repeat (destruct Hc as [Hc|Hc]; try discriminate Hc); contradiction.
Qed.

(** C5. [CanTransitionTo] admits exactly pending -> processing, cancelled;
    processing -> cleared, failed, cancelled; cleared -> returned,
    reversed; failed -> pending.  Every status change the payment service
    performs is one of these, and a change out of failed (the retry)
    happens only when attemptCount < maxRetries; conversely each of these
    changes is performed by an operation of the service (the retry when
    attemptCount < maxRetries).  Every operation on a returned, cancelled
    or reversed payment fails and leaves the world as it was; a cleared
    payment never becomes pending; a retry with the attempts used up
    fails. *)
Theorem payment_state_machine :
  (forall p newStatus,
     PaymentM.CanTransitionTo p newStatus = true
     <-> In (p_Status p, newStatus) Spec.payment_transitions)
  /\ (forall s op p w r w',
        PaymentServiceM.run s op p w = (Ok r, w') ->
        In (p_Status p, p_Status (pr_Payment r)) Spec.payment_transitions
        /\ (p_Status p = Failed -> (p_AttemptCount p < p_MaxRetries p)%Z))
  /\ (forall s p w newStatus,
        In (p_Status p, newStatus) Spec.payment_transitions ->
        (p_Status p = Failed -> (p_AttemptCount p < p_MaxRetries p)%Z) ->
        exists op r w',
          PaymentServiceM.run s op p w = (Ok r, w')
          /\ p_Status (pr_Payment r) = newStatus)
  /\ (forall s op p w,
        PaymentM.IsTerminal p = true ->
        exists msg, PaymentServiceM.run s op p w = (Error msg, w))
  /\ (forall s op p w,
        p_Status p = Cleared ->
        PaymentM.CanTransitionTo p Pending = false
        /\ forall r w', PaymentServiceM.run s op p w = (Ok r, w') ->
                        p_Status (pr_Payment r) <> Pending)
  /\ (forall s p w,
        p_Status p = Failed ->
        (p_MaxRetries p <= p_AttemptCount p)%Z ->
        exists msg, PaymentServiceM.run s PaymentServiceM.OpRetry p w = (Error msg, w)).
Proof.
  split; [exact CanTransitionTo_iff|].
  split.
  { intros s op p w r w' Hrun.
    destruct (run_ok s op p w r w' Hrun) as (Hcan & Hst & Hretry).
    apply CanTransitionTo_iff in Hcan. rewrite Hst. split; [exact Hcan|].
    intro Hfailed. rewrite Hfailed in Hcan.
    apply transitions_from_failed, target_pending in Hcan.
    specialize (Hretry Hcan). unfold PaymentM.CanRetry in Hretry.
    apply andb_prop in Hretry. destruct Hretry as [_ Hlt].
    apply Z.ltb_lt in Hlt. exact Hlt. }
  split.
  { intros s p w newStatus Hin Hattempts.
    assert (Hop : exists op, PaymentServiceM.target op = newStatus
                             /\ (op = PaymentServiceM.OpRetry -> p_Status p = Failed)).
    { cbv [Spec.payment_transitions In] in Hin.
      repeat (destruct Hin as [Hin|Hin]); try contradiction;
        injection Hin as Hfrom <-.
      - exists (PaymentServiceM.OpProcess EmptyString). split; [reflexivity|discriminate].
      - exists (PaymentServiceM.OpCancel EmptyString EmptyString).
        split; [reflexivity|discriminate].
      - exists (PaymentServiceM.OpClear Examples.card_7 EmptyString).
        split; [reflexivity|discriminate].
      - exists (PaymentServiceM.OpFail EmptyString EmptyString).
        split; [reflexivity|discriminate].
      - exists (PaymentServiceM.OpCancel EmptyString EmptyString).
        split; [reflexivity|discriminate].
      - exists (PaymentServiceM.OpReturn Examples.card_7 EmptyString).
        split; [reflexivity|discriminate].
      - exists (PaymentServiceM.OpReverse EmptyString EmptyString).
        split; [reflexivity|discriminate].
      - exists PaymentServiceM.OpRetry. split; [reflexivity|]. intros _. symmetry. exact Hfrom. }
    destruct Hop as (op & Htarget & Hretry).
    destruct (run_allowed s op p w) as (r & w' & Hrun & Hst).
    - rewrite Htarget. apply CanTransitionTo_iff. exact Hin.
    - intro Hop. specialize (Hretry Hop). unfold PaymentM.CanRetry.
      rewrite Hretry. cbn [String.eqb]. apply andb_true_intro. split.
      + apply String.eqb_refl.
      + apply Z.ltb_lt. apply Hattempts. exact Hretry.
    - exists op, r, w'. split; [exact Hrun|]. rewrite Hst. exact Htarget. }
  split.
  { intros s op p w Ht. apply run_refused. apply terminal_refuses. exact Ht. }
  split.
  { intros s op p w Hs. split; [apply cleared_not_to_pending; exact Hs|].
    intros r w' Hrun Hpending.
    destruct (run_ok s op p w r w' Hrun) as (Hcan & Hst & _).
    rewrite Hst in Hpending. rewrite Hpending in Hcan.
    rewrite (cleared_not_to_pending p Hs) in Hcan. discriminate Hcan. }
  intros s p w Hs Hle. cbn [PaymentServiceM.run]. apply retry_refused.
  unfold PaymentM.CanRetry. apply andb_false_intro2. apply Z.ltb_ge. exact Hle.
Qed.

End PaymentStateMachine.

Lemma payment_state_machine_witness :
  match PaymentServiceM.run Examples.payment_service (PaymentServiceM.OpProcess "ref")
          (Examples.payment PaymentStatus.Pending 0 3) (Examples.world [] [] []) with
  | (Ok r, _) =>
      In (PaymentStatus.Pending, p_Status (pr_Payment r)) Spec.payment_transitions
  | _ => False
  end
  /\ (exists op r w',
        PaymentServiceM.run Examples.payment_service op
          (Examples.payment PaymentStatus.Failed 1 3) (Examples.world [] [] [])
        = (Ok r, w')
        /\ p_Status (pr_Payment r) = PaymentStatus.Pending)
  /\ (exists msg,
        PaymentServiceM.run Examples.payment_service
          (PaymentServiceM.OpCancel "reason" "user")
          (Examples.payment PaymentStatus.Returned 1 3) (Examples.world [] [] [])
        = (Error msg, Examples.world [] [] []))
  /\ PaymentM.CanTransitionTo (Examples.payment PaymentStatus.Cleared 1 3)
       PaymentStatus.Pending = false
  /\ (exists msg,
        PaymentServiceM.run Examples.payment_service PaymentServiceM.OpRetry
          (Examples.payment PaymentStatus.Failed 3 3) (Examples.world [] [] [])
        = (Error msg, Examples.world [] [] [])).
Proof.
  destruct payment_state_machine as (_ & H2 & H3 & H4 & H5 & H6).
  split.
  { destruct (PaymentServiceM.run Examples.payment_service (PaymentServiceM.OpProcess "ref")
                (Examples.payment PaymentStatus.Pending 0 3) (Examples.world [] [] []))
      as [[r|e|m] w'] eqn:Hrun.
    - exact (proj1 (H2 _ _ _ _ _ _ Hrun)).
    - vm_compute in Hrun. discriminate Hrun.
    - vm_compute in Hrun. discriminate Hrun. }
  split.
  { apply (H3 Examples.payment_service (Examples.payment PaymentStatus.Failed 1 3)
              (Examples.world [] [] []) PaymentStatus.Pending).
    - cbv [Spec.payment_transitions In Examples.payment p_Status
             PaymentStatus.Failed PaymentStatus.Pending]. auto 10.
    - intros _. cbv [Examples.payment p_AttemptCount p_MaxRetries]. lia. }
  split.
  { apply (H4 Examples.payment_service (PaymentServiceM.OpCancel "reason" "user")
              (Examples.payment PaymentStatus.Returned 1 3) (Examples.world [] [] [])).
    reflexivity. }
  split.
  { apply (H5 Examples.payment_service PaymentServiceM.OpRetry
              (Examples.payment PaymentStatus.Cleared 1 3) (Examples.world [] [] [])).
    reflexivity. }
  apply (H6 Examples.payment_service (Examples.payment PaymentStatus.Failed 3 3)
            (Examples.world [] [] [])).
  - reflexivity.
  - cbv [Examples.payment p_AttemptCount p_MaxRetries]. lia.
Defined.

(** ** Late fee assessment *)

Section LateFee.







End LateFee.


(* --------------------------------------------------------------------- *)
(** ** Reward redemption *)

Section RewardRedemption.

Lemma GetBalance_effect : forall t w,
  conn_ok w = true ->
  exists b, PointsLedgerService.GetBalance t w = (Ok b, w).
Proof.
  intros t w Hc. unfold PointsLedgerService.GetBalance. rewrite Hc. cbn [negb].
  destruct (PointsLedgerService.points_balances_row w t); eexists; reflexivity.
Qed.


Lemma ValidateRedemption_sufficient : forall t points w b,
  PointsLedgerService.GetBalance t w = (Ok b, w) ->
  (points <= pb_AvailablePoints b)%Z ->
  PointsLedgerService.ValidateRedemption t points w = (Ok tt, w).
Proof.
  intros t points w b Hb Hle. unfold PointsLedgerService.ValidateRedemption.
  rewrite (bind_ok _ _ _ _ _ _ _ Hb).
  destruct (Z.ltb_spec (pb_AvailablePoints b) points); [lia|reflexivity].
Qed.



End RewardRedemption.


(* --------------------------------------------------------------------- *)
(** ** Appending to the ledgers *)

Section LedgerAppend.
Import Decimal.
Local Open Scope Q_scope.







End LedgerAppend.



(* --------------------------------------------------------------------- *)
(** ** Card configuration and amounts due *)

Section CardRules.
Import Decimal.
Local Open Scope Q_scope.

Lemma GreaterThan_false : forall a b, GreaterThan a b = false <-> toQ a <= toQ b.
Proof.
  intros a b. rewrite <- LessThanOrEqual_spec.
  unfold GreaterThan, LessThanOrEqual. destruct (Cmp a b); split; congruence.
Qed.

(** [Validate] accepts a card exactly when its credit limit is positive,
    its purchase APR and its minimum payment percent are between 0 and
    100, and its billing cycle day is between 1 and 28. *)
Theorem Validate_accepts_iff : forall c : CreditCard,
  CreditCardM.Validate c = None
  <-> (0 < toQ (cc_CreditLimit c)
       /\ 0 <= toQ (cc_PurchaseAPR c) <= 100
       /\ (1 <= cc_BillingCycleDay c <= 28)%Z
       /\ 0 <= toQ (cc_MinimumPaymentPercent c) <= 100).
Proof.
  intro c. unfold CreditCardM.Validate.
  assert (H100 : toQ (NewFromInt 100) == 100) by (rewrite toQ_NewFromInt; reflexivity).
  destruct (LessThanOrEqual (cc_CreditLimit c) Zero) eqn:Hlimit.
  { apply LessThanOrEqual_spec in Hlimit. rewrite toQ_Zero in Hlimit.
    split; [discriminate|]. intros (Hpos & _).
    exfalso. apply (Qlt_not_le _ _ Hpos). exact Hlimit. }
  apply LessThanOrEqual_false in Hlimit. rewrite toQ_Zero in Hlimit.
  destruct (LessThan (cc_PurchaseAPR c) Zero) eqn:Hapr0; cbn [orb].
  { apply LessThan_spec in Hapr0. rewrite toQ_Zero in Hapr0.
    split; [discriminate|]. intros (_ & [Hge _] & _).
    exfalso. apply (Qlt_not_le _ _ Hapr0). exact Hge. }
  apply LessThan_false in Hapr0. rewrite toQ_Zero in Hapr0.
  destruct (GreaterThan (cc_PurchaseAPR c) (NewFromInt 100)) eqn:Hapr1.
  { apply GreaterThan_spec in Hapr1. rewrite H100 in Hapr1.
    split; [discriminate|]. intros (_ & [_ Hle] & _).
    exfalso. apply (Qlt_not_le _ _ Hapr1). exact Hle. }
  apply GreaterThan_false in Hapr1. rewrite H100 in Hapr1.
  destruct (Z.ltb_spec (cc_BillingCycleDay c) 1) as [Hd1|Hd1]; cbn [orb].
  { split; [discriminate|]. intros (_ & _ & Hday & _). lia. }
  destruct (Z.ltb_spec 28 (cc_BillingCycleDay c)) as [Hd2|Hd2].
  { split; [discriminate|]. intros (_ & _ & Hday & _). lia. }
  destruct (LessThan (cc_MinimumPaymentPercent c) Zero) eqn:Hp0; cbn [orb].
  { apply LessThan_spec in Hp0. rewrite toQ_Zero in Hp0.
    split; [discriminate|]. intros (_ & _ & _ & [Hge _]).
    exfalso. apply (Qlt_not_le _ _ Hp0). exact Hge. }
  apply LessThan_false in Hp0. rewrite toQ_Zero in Hp0.
  destruct (GreaterThan (cc_MinimumPaymentPercent c) (NewFromInt 100)) eqn:Hp1.
  { apply GreaterThan_spec in Hp1. rewrite H100 in Hp1.
    split; [discriminate|]. intros (_ & _ & _ & [_ Hle]).
    exfalso. apply (Qlt_not_le _ _ Hp1). exact Hle. }
  apply GreaterThan_false in Hp1. rewrite H100 in Hp1.
  split; [intros _|reflexivity].
  split; [exact Hlimit|]. split; [split; assumption|].
  split; [lia|split; assumption].
Qed.

(** The checks of [Validate] are made in order: the first one that fails
    names the error. *)
Lemma Validate_first_error : forall c : CreditCard,
  (toQ (cc_CreditLimit c) <= 0 ->
   CreditCardM.Validate c = Some CreditCardM.ErrInvalidCreditLimit)
  /\ (0 < toQ (cc_CreditLimit c) ->
      (toQ (cc_PurchaseAPR c) < 0 \/ 100 < toQ (cc_PurchaseAPR c)) ->
      CreditCardM.Validate c = Some CreditCardM.ErrInvalidAPR).
Proof.
  intro c. unfold CreditCardM.Validate. split.
  - intro H. rewrite (LessThanOrEqual_Zero _ H). reflexivity.
  - intros Hpos Hapr. rewrite (LessThanOrEqual_Zero_false _ Hpos).
    destruct Hapr as [Hneg|Hbig].
    + assert (E : LessThan (cc_PurchaseAPR c) Zero = true).
      { apply LessThan_spec. rewrite toQ_Zero. exact Hneg. }
      rewrite E. reflexivity.
    + assert (E : GreaterThan (cc_PurchaseAPR c) (NewFromInt 100) = true).
      { apply GreaterThan_spec. rewrite toQ_NewFromInt. exact Hbig. }
      rewrite E, orb_true_r. reflexivity.
Qed.

(** [CalculateCashAdvanceFee] is the greater of the flat fee and the
    percentage fee amount x rate / 100 (the division rounded to 16
    decimal places): it is never below either of them, and it never
    panics. *)
Theorem CalculateCashAdvanceFee_is_max : forall (c : CreditCard) (amount : decimal),
  exists percentFee fee,
    Div (Mul amount (cc_CashAdvanceFeeRate c)) (NewFromInt 100) = Ok percentFee
    /\ Qabs (toQ percentFee - toQ amount * toQ (cc_CashAdvanceFeeRate c) / 100)
       <= 1 # 20000000000000000
    /\ CreditCardM.CalculateCashAdvanceFee c amount = Ok fee
    /\ toQ fee == Qmax (toQ percentFee) (toQ (cc_CashAdvanceFee c))
    /\ toQ (cc_CashAdvanceFee c) <= toQ fee
    /\ toQ percentFee <= toQ fee.
Proof.
  intros c amount.
  pose proof (Div_nonzero (Mul amount (cc_CashAdvanceFeeRate c)) (NewFromInt 100)
                ltac:(discriminate)) as Hdiv.
  set (p := DivRound_nz (Mul amount (cc_CashAdvanceFeeRate c)) (NewFromInt 100)
                        DivisionPrecision) in *.
  assert (Herr : Qabs (toQ p - toQ amount * toQ (cc_CashAdvanceFeeRate c) / 100)
                 <= 1 # 20000000000000000).
  { pose proof (Div_error _ _ _ Hdiv) as H.
    rewrite toQ_Mul, toQ_NewFromInt in H. exact H. }
  unfold CreditCardM.CalculateCashAdvanceFee. rewrite Hdiv. cbn [obind].
  destruct (LessThan p (cc_CashAdvanceFee c)) eqn:Hlt.
  - apply LessThan_spec in Hlt.
    exists p, (cc_CashAdvanceFee c).
    split; [reflexivity|]. split; [exact Herr|]. split; [reflexivity|].
    split; [|split].
    + symmetry. apply Q.max_r. apply Qlt_le_weak. exact Hlt.
    + apply Qle_refl.
    + apply Qlt_le_weak. exact Hlt.
  - apply LessThan_false in Hlt.
    exists p, p.
    split; [reflexivity|]. split; [exact Herr|]. split; [reflexivity|].
    split; [|split].
    + symmetry. apply Q.max_l. exact Hlt.
    + exact Hlt.
    + apply Qle_refl.
Qed.

Lemma remaining_minimum_value : forall bc : BillingCycle,
  toQ (BillingCycleM.GetRemainingMinimum bc)
  == Qmax 0 (toQ (bc_MinimumPayment bc) - toQ (bc_PaymentsMade bc))
  /\ 0 <= toQ (BillingCycleM.GetRemainingMinimum bc).
Proof.
  intro bc.
  assert (Hmin : toQ (BillingCycleM.GetRemainingMinimum bc)
                 == Qmax 0 (toQ (bc_MinimumPayment bc) - toQ (bc_PaymentsMade bc))).
  { unfold BillingCycleM.GetRemainingMinimum. cbv zeta.
    destruct (LessThan (Sub (bc_MinimumPayment bc) (bc_PaymentsMade bc)) Zero) eqn:E.
    - apply LessThan_spec in E. rewrite toQ_Zero, toQ_Sub in E.
      rewrite toQ_Zero. symmetry. apply Q.max_l. apply Qlt_le_weak. exact E.
    - apply LessThan_false in E. rewrite toQ_Zero, toQ_Sub in E.
      rewrite toQ_Sub. symmetry. apply Q.max_r. exact E. }
  split; [exact Hmin|]. rewrite Hmin. apply Q.le_max_l.
Qed.

(** What remains due on a cycle: [GetRemainingMinimum] is the minimum
    payment less the payments made, but never negative;
    [IsPaidInFull] holds exactly when [GetRemainingBalance] is zero or
    negative. *)
Theorem remaining_amounts : forall bc : BillingCycle,
  toQ (BillingCycleM.GetRemainingMinimum bc)
  == Qmax 0 (toQ (bc_MinimumPayment bc) - toQ (bc_PaymentsMade bc))
  /\ 0 <= toQ (BillingCycleM.GetRemainingMinimum bc)
  /\ toQ (BillingCycleM.GetRemainingBalance bc)
     == toQ (bc_NewBalance bc) - toQ (bc_PaymentsMade bc)
  /\ (BillingCycleM.IsPaidInFull bc = true
      <-> toQ (BillingCycleM.GetRemainingBalance bc) <= 0).
Proof.
  intro bc.
  destruct (remaining_minimum_value bc) as [Hmin Hpos].
  split; [exact Hmin|]. split; [exact Hpos|].
  unfold BillingCycleM.GetRemainingBalance, BillingCycleM.IsPaidInFull.
  split; [apply toQ_Sub|].
  rewrite GreaterThanOrEqual_spec, toQ_Sub. split; intro H.
  - apply (Qplus_le_l _ _ (toQ (bc_PaymentsMade bc))). ring_simplify. exact H.
  - apply (Qplus_le_l _ _ (toQ (bc_PaymentsMade bc))) in H. ring_simplify in H. exact H.
Qed.

End CardRules.

Lemma Validate_accepts_iff_witness :
  CreditCardM.Validate Examples.card_3_percent = None
  /\ CreditCardM.Validate Examples.card_150_percent
     = Some CreditCardM.ErrInvalidMinimumPayment.
Proof.
  split.
  - apply (proj2 (Validate_accepts_iff Examples.card_3_percent)).
    vm_compute. repeat split; intro E; discriminate E.
  - destruct (CreditCardM.Validate Examples.card_150_percent) eqn:E.
    + vm_compute in E. injection E as <-. reflexivity.
    + apply (proj1 (Validate_accepts_iff Examples.card_150_percent)) in E.
      destruct E as (_ & _ & _ & _ & E). vm_compute in E. contradiction E. reflexivity.
Defined.

Lemma remaining_amounts_witness :
  BillingCycleM.IsPaidInFull Examples.cycle_1_paid_full = true.
Proof.
  apply (proj2 (proj2 (proj2 (proj2 (remaining_amounts Examples.cycle_1_paid_full))))).
  vm_compute. intro E. discriminate E.
Defined.

(* --------------------------------------------------------------------- *)
(** ** Payment operations: attempts, retries and ledger entries *)

Section PaymentOperations.
Import PaymentStatus.

Ltac run_op H :=
  cbv [bind time_Now uuid_New ret fail PaymentServiceM.ledger_entry] in H.

Ltac unfold_op H :=
  cbn [PaymentServiceM.run] in H;
  unfold PaymentServiceM.ProcessPayment, PaymentServiceM.ClearPayment,
    PaymentServiceM.FailPayment, PaymentServiceM.ReturnPayment,
    PaymentServiceM.CancelPayment, PaymentServiceM.ReversePayment,
    PaymentServiceM.RetryPayment in H.

(** What an operation that succeeds leaves of the payment's counters and
    amounts. *)
Lemma run_fields : forall s op p w r w',
  PaymentServiceM.run s op p w = (Ok r, w') ->
  p_MaxRetries (pr_Payment r) = p_MaxRetries p
  /\ p_AppliedAmount (pr_Payment r) = p_AppliedAmount p
  /\ p_TenantID (pr_Payment r) = p_TenantID p
  /\ p_PaymentNumber (pr_Payment r) = p_PaymentNumber p
  /\ p_AttemptCount (pr_Payment r)
     = match op with
       | PaymentServiceM.OpProcess _ => wrap64 (p_AttemptCount p + 1)
       | _ => p_AttemptCount p
       end.
Proof.
  intros s op p w r w' H.
  destruct op; unfold_op H;
    repeat match type of H with
           | context [negb ?c] => destruct c; cbn [negb] in H; try discriminate H
           end;
    run_op H;
    try (destruct (ps_has_ledgerService s));
    injection H as <- _; cbn [pr_Payment];
    try (match goal with |- context [if ?c then _ else _] => destruct c end);
    repeat split.
Qed.

(** No operation of the payment service reads or writes the tables: it
    draws identifiers and reads the clock only. *)
Lemma run_tables : forall s op p w,
  let w' := snd (PaymentServiceM.run s op p w) in
  statement_ledger_entries w' = statement_ledger_entries w
  /\ points_ledger_entries w' = points_ledger_entries w
  /\ billing_cycles w' = billing_cycles w
  /\ conn_ok w' = conn_ok w.
Proof.
  intros s op p w. cbv zeta.
  destruct op; cbn [PaymentServiceM.run];
    unfold PaymentServiceM.ProcessPayment, PaymentServiceM.ClearPayment,
      PaymentServiceM.FailPayment, PaymentServiceM.ReturnPayment,
      PaymentServiceM.CancelPayment, PaymentServiceM.ReversePayment,
      PaymentServiceM.RetryPayment;
    repeat match goal with
           | |- context [negb ?c] => destruct c; cbn [negb]
           end;
    cbv [bind time_Now uuid_New ret fail PaymentServiceM.ledger_entry];
    try (destruct (ps_has_ledgerService s));
    cbn; repeat split.
Qed.

Lemma run_all_cons : forall s op rest p w,
  PaymentServiceM.run_all s (op :: rest) p w
  = match PaymentServiceM.run s op p w with
    | (Ok r, w') => PaymentServiceM.run_all s rest (pr_Payment r) w'
    | (_, w') => PaymentServiceM.run_all s rest p w'
    end.
Proof. reflexivity. Qed.

(** The invariant behind the bound on attempts: the count never exceeds
    [bound], and is strictly below it while the payment is pending. *)
Lemma run_all_attempts : forall s ops p w (bound : Z),
  (bound < 2 ^ 63)%Z ->
  (p_MaxRetries p <= bound)%Z ->
  (0 <= p_AttemptCount p <= bound)%Z ->
  (p_Status p = Pending -> p_AttemptCount p < bound)%Z ->
  let p' := fst (PaymentServiceM.run_all s ops p w) in
  (p_AttemptCount p <= p_AttemptCount p' <= bound)%Z
  /\ p_MaxRetries p' = p_MaxRetries p.
Proof.
  intros s ops. induction ops as [|op rest IH]; intros p w bound Hb Hmax Hcount Hpending.
  - cbn. split; [lia|reflexivity].
  - cbv zeta. rewrite run_all_cons.
    destruct (PaymentServiceM.run s op p w) as [[r|e|m] w1] eqn:Hrun;
      try (apply IH; assumption).
    destruct (run_fields s op p w r w1 Hrun) as (Hm & _ & _ & _ & Ha).
    destruct (run_ok s op p w r w1 Hrun) as (Hcan & Hst & Hretry).
    assert (Hstep : (p_AttemptCount p <= p_AttemptCount (pr_Payment r) <= bound)%Z
                    /\ (p_Status (pr_Payment r) = Pending ->
                        p_AttemptCount (pr_Payment r) < bound)%Z).
    { destruct op; rewrite Ha; cbn [PaymentServiceM.target] in *.
      - (* process: the payment was pending *)
        apply CanTransitionTo_iff in Hcan.
        assert (Hp : p_Status p = Pending).
        { cbv [Spec.payment_transitions In] in Hcan.
          unfold Pending.
          repeat (destruct Hcan as [Hcan|Hcan]; try contradiction);
            inversion Hcan; congruence. }
        specialize (Hpending Hp).
        rewrite wrap64_small by lia. split; [lia|].
        intro E. rewrite Hst in E. discriminate E.
      - split; [lia|]. intro E. rewrite Hst in E. discriminate E.
      - split; [lia|]. intro E. rewrite Hst in E. discriminate E.
      - split; [lia|]. intro E. rewrite Hst in E. discriminate E.
      - split; [lia|]. intro E. rewrite Hst in E. discriminate E.
      - split; [lia|]. intro E. rewrite Hst in E. discriminate E.
      - (* retry: attempts remained *)
        specialize (Hretry eq_refl). unfold PaymentM.CanRetry in Hretry.
        apply andb_prop in Hretry. destruct Hretry as [_ Hlt].
        apply Z.ltb_lt in Hlt. split; [lia|]. intros _. lia. }
    destruct Hstep as [Hrange Hpend'].
    specialize (IH (pr_Payment r) w1 bound Hb ltac:(rewrite Hm; exact Hmax)
                   ltac:(lia) Hpend').
    cbv zeta in IH. destruct IH as [IHa IHm].
    split; [lia|]. rewrite IHm. exact Hm.
Qed.

(** Whatever operations are applied to a payment, in whatever order, its
    attempt count never decreases and never exceeds the greater of its
    [MaxRetries] and one more than the count it started with; its
    [MaxRetries] is never changed. *)
Theorem attempts_are_bounded : forall s ops p w,
  (0 <= p_AttemptCount p)%Z ->
  (p_AttemptCount p + 1 < 2 ^ 63)%Z ->
  (p_MaxRetries p < 2 ^ 63)%Z ->
  let p' := fst (PaymentServiceM.run_all s ops p w) in
  (p_AttemptCount p <= p_AttemptCount p'
   <= Z.max (p_MaxRetries p) (p_AttemptCount p + 1))%Z
  /\ p_MaxRetries p' = p_MaxRetries p.
Proof.
  intros s ops p w H0 H1 H2.
  apply run_all_attempts; lia.
Qed.

End PaymentOperations.

Lemma attempts_are_bounded_witness :
  (0 <= p_AttemptCount
          (fst (PaymentServiceM.run_all Examples.payment_service
                  [PaymentServiceM.OpProcess "ref-1";
                   PaymentServiceM.OpFail "NSF" "declined";
                   PaymentServiceM.OpRetry;
                   PaymentServiceM.OpProcess "ref-2";
                   PaymentServiceM.OpFail "NSF" "declined";
                   PaymentServiceM.OpRetry]
                  (Examples.payment PaymentStatus.Pending 0 2)
                  (Examples.world [] [] [])))
   <= 2)%Z.
Proof.
  apply (attempts_are_bounded Examples.payment_service
           [PaymentServiceM.OpProcess "ref-1";
            PaymentServiceM.OpFail "NSF" "declined";
            PaymentServiceM.OpRetry;
            PaymentServiceM.OpProcess "ref-2";
            PaymentServiceM.OpFail "NSF" "declined";
            PaymentServiceM.OpRetry]
           (Examples.payment PaymentStatus.Pending 0 2)
           (Examples.world [] [] [])).
  - cbn. lia.
  - cbn. lia.
  - cbn. lia.
Defined.
Section PaymentRetries.
Import PaymentStatus.

(** [GetPendingPaymentsForRetry] selects exactly the failed payments with
    attempts left whose retry time has come. *)
Lemma GetPendingPaymentsForRetry_In : forall s payments now p,
  In p (PaymentServiceM.GetPendingPaymentsForRetry s payments now)
  <-> In p payments
      /\ p_Status p = Failed
      /\ (p_AttemptCount p < p_MaxRetries p)%Z
      /\ exists t, p_NextRetryAt p = Some t /\ (t <= now)%Z.
Proof.
  intros s payments now p. unfold PaymentServiceM.GetPendingPaymentsForRetry.
  rewrite filter_In. unfold PaymentM.CanRetry, Time_After.
  split.
  - intros [Hin Hsel]. split; [exact Hin|].
    apply andb_prop in Hsel. destruct Hsel as [Hretry Hnext].
    apply andb_prop in Hretry. destruct Hretry as [Hst Hlt].
    apply String.eqb_eq in Hst. apply Z.ltb_lt in Hlt.
    split; [exact Hst|]. split; [exact Hlt|].
    destruct (p_NextRetryAt p) as [t|]; [|discriminate Hnext].
    exists t. split; [reflexivity|].
    apply negb_true_iff, Z.ltb_ge in Hnext. exact Hnext.
  - intros (Hin & Hst & Hlt & t & Ht & Hle). split; [exact Hin|].
    rewrite Hst, Ht. cbn [String.eqb].
    apply andb_true_intro. split.
    + apply andb_true_intro. split; [reflexivity|apply Z.ltb_lt; exact Hlt].
    + apply negb_true_iff, Z.ltb_ge. exact Hle.
Qed.

Lemma FailPayment_result : forall s p reason response w r w',
  PaymentServiceM.FailPayment s p reason response w = (Ok r, w') ->
  p_Status p = Processing
  /\ p_Status (pr_Payment r) = Failed
  /\ p_AttemptCount (pr_Payment r) = p_AttemptCount p
  /\ p_MaxRetries (pr_Payment r) = p_MaxRetries p
  /\ p_NextRetryAt (pr_Payment r)
     = if (p_AttemptCount p <? p_MaxRetries p)%Z
       then Some (clock w (clock_reads w) + time_Hour * 24)%Z
       else p_NextRetryAt p.
Proof.
  intros s p reason response w r w' H.
  assert (Hproc : p_Status p = Processing).
  { pose proof (run_ok s (PaymentServiceM.OpFail reason response) p w r w' H)
      as (Hcan & _ & _).
    cbn [PaymentServiceM.target] in Hcan. apply CanTransitionTo_iff in Hcan.
    cbv [Spec.payment_transitions In] in Hcan. unfold Processing.
    repeat (destruct Hcan as [Hcan|Hcan]; try contradiction);
      inversion Hcan; congruence. }
  split; [exact Hproc|].
  unfold PaymentServiceM.FailPayment in H.
  destruct (PaymentM.CanTransitionTo p Failed); [|discriminate H].
  cbn [negb] in H.
  cbv [bind time_Now uuid_New ret] in H. injection H as <- _. cbn [pr_Payment].
  unfold PaymentM.CanRetry. cbn [p_Status PaymentServiceM.on_failed
    PaymentServiceM.set_status p_AttemptCount p_MaxRetries].
  change (String.eqb Failed Failed) with true. cbn [andb].
  destruct (p_AttemptCount p <? p_MaxRetries p)%Z; repeat split.
Qed.

(** Retry scheduling.  A payment that fails with attempts left is
    scheduled for retry 24 hours after the failure, and one without is
    not rescheduled; [GetPendingPaymentsForRetry] selects it from that
    time on; every payment it selects is accepted by [RetryPayment],
    which returns it to pending with the retry time cleared, so that it
    is not selected again. *)
Theorem retry_scheduling :
  (forall s p reason response w r w',
     PaymentServiceM.FailPayment s p reason response w = (Ok r, w') ->
     forall now,
       In (pr_Payment r)
          (PaymentServiceM.GetPendingPaymentsForRetry s [pr_Payment r] now)
       <-> (p_AttemptCount p < p_MaxRetries p
            /\ clock w (clock_reads w) + 24 * time_Hour <= now)%Z)
  /\ (forall s payments now p w,
        In p (PaymentServiceM.GetPendingPaymentsForRetry s payments now) ->
        exists r w',
          PaymentServiceM.RetryPayment s p w = (Ok r, w')
          /\ p_Status (pr_Payment r) = Pending
          /\ p_NextRetryAt (pr_Payment r) = None
          /\ forall later,
               PaymentServiceM.GetPendingPaymentsForRetry s [pr_Payment r] later = []).
Proof.
  split.
  - intros s p reason response w r w' H now.
    destruct (FailPayment_result s p reason response w r w' H)
      as (_ & Hst & Hcount & Hmax & Hnext).
    rewrite GetPendingPaymentsForRetry_In, Hcount, Hmax, Hnext.
    destruct (Z.ltb_spec (p_AttemptCount p) (p_MaxRetries p)) as [Hlt|Hge].
    + split.
      * intros (_ & _ & _ & t & Ht & Hle). injection Ht as Ht.
        unfold time_Hour. split; lia.
      * intros [_ Hle]. split; [left; reflexivity|]. split; [exact Hst|].
        split; [exact Hlt|]. eexists. split; [reflexivity|].
        unfold time_Hour in *. lia.
    + split.
      * intros (_ & _ & Hlt & _). lia.
      * intros [Hlt _]. lia.
  - intros s payments now p w Hin.
    apply GetPendingPaymentsForRetry_In in Hin.
    destruct Hin as (_ & Hst & Hlt & _).
    assert (Hretry : PaymentM.CanRetry p = true).
    { unfold PaymentM.CanRetry. rewrite Hst. cbn [String.eqb].
      apply andb_true_intro. split; [reflexivity|apply Z.ltb_lt; exact Hlt]. }
    assert (Hcan : PaymentM.CanTransitionTo p Pending = true).
    { apply CanTransitionTo_iff. rewrite Hst. cbv. auto 10. }
    unfold PaymentServiceM.RetryPayment. rewrite Hretry, Hcan. cbn [negb].
    cbv [bind time_Now uuid_New ret]. eexists. eexists.
    split; [reflexivity|]. cbn [pr_Payment]. split; [reflexivity|].
    split; [reflexivity|]. intro later. reflexivity.
Qed.

(** The ledger entries of the payment operations.  No operation writes
    to the ledgers or to the billing cycles: the entry is returned to the
    caller only.  With a ledger service configured, clearing a payment
    returns a payment entry for the applied amount, and returning or
    reversing it an adjustment entry for the negated applied amount, for
    the same tenant and payment number, so that the two amounts cancel. *)
Theorem payment_ledger_entries :
  (forall s ops p w,
     let w' := snd (PaymentServiceM.run_all s ops p w) in
     statement_ledger_entries w' = statement_ledger_entries w
     /\ points_ledger_entries w' = points_ledger_entries w
     /\ billing_cycles w' = billing_cycles w)
  /\ (forall s op p w r w',
        PaymentServiceM.run s op p w = (Ok r, w') ->
        match op, pr_LedgerEntry r with
        | PaymentServiceM.OpClear _ _, Some e =>
            ps_has_ledgerService s = true
            /\ sle_EntryType e = EntryType.Payment
            /\ sle_Amount e = p_AppliedAmount p
            /\ sle_TenantID e = p_TenantID p
            /\ sle_ReferenceID e = Some (p_PaymentNumber p)
        | PaymentServiceM.OpReturn _ _, Some e
        | PaymentServiceM.OpReverse _ _, Some e =>
            ps_has_ledgerService s = true
            /\ sle_EntryType e = EntryType.Adjustment
            /\ sle_Amount e = Decimal.Neg (p_AppliedAmount p)
            /\ sle_TenantID e = p_TenantID p
            /\ sle_ReferenceID e = Some (p_PaymentNumber p)
        | PaymentServiceM.OpClear _ _, None
        | PaymentServiceM.OpReturn _ _, None
        | PaymentServiceM.OpReverse _ _, None => ps_has_ledgerService s = false
        | _, Some _ => False
        | _, None => True
        end)
  /\ (forall s p card number code w r1 w1 r2 w2 e1 e2,
        PaymentServiceM.ClearPayment s p card number w = (Ok r1, w1) ->
        PaymentServiceM.ReturnPayment s (pr_Payment r1) card code w1 = (Ok r2, w2) ->
        pr_LedgerEntry r1 = Some e1 ->
        pr_LedgerEntry r2 = Some e2 ->
        (Decimal.toQ (sle_Amount e1) + Decimal.toQ (sle_Amount e2) == 0)%Q).
Proof.
  assert (Hentries : forall s op p w r w',
             PaymentServiceM.run s op p w = (Ok r, w') ->
             match op, pr_LedgerEntry r with
             | PaymentServiceM.OpClear _ _, Some e =>
                 ps_has_ledgerService s = true
                 /\ sle_EntryType e = EntryType.Payment
                 /\ sle_Amount e = p_AppliedAmount p
                 /\ sle_TenantID e = p_TenantID p
                 /\ sle_ReferenceID e = Some (p_PaymentNumber p)
             | PaymentServiceM.OpReturn _ _, Some e
             | PaymentServiceM.OpReverse _ _, Some e =>
                 ps_has_ledgerService s = true
                 /\ sle_EntryType e = EntryType.Adjustment
                 /\ sle_Amount e = Decimal.Neg (p_AppliedAmount p)
                 /\ sle_TenantID e = p_TenantID p
                 /\ sle_ReferenceID e = Some (p_PaymentNumber p)
             | PaymentServiceM.OpClear _ _, None
             | PaymentServiceM.OpReturn _ _, None
             | PaymentServiceM.OpReverse _ _, None => ps_has_ledgerService s = false
             | _, Some _ => False
             | _, None => True
             end).
  { intros s op p w r w' H.
    destruct op; cbn [PaymentServiceM.run] in H;
      unfold PaymentServiceM.ProcessPayment, PaymentServiceM.ClearPayment,
        PaymentServiceM.FailPayment, PaymentServiceM.ReturnPayment,
        PaymentServiceM.CancelPayment, PaymentServiceM.ReversePayment,
        PaymentServiceM.RetryPayment in H;
      repeat match type of H with
             | context [negb ?c] => destruct c; cbn [negb] in H; try discriminate H
             end;
      cbv [bind time_Now uuid_New ret fail PaymentServiceM.ledger_entry] in H;
      try (destruct (ps_has_ledgerService s) eqn:Hs);
      injection H as <- _; cbn; repeat split. }
  split; [|split; [exact Hentries|]].
  - intros s ops. induction ops as [|op rest IH]; intros p w; cbv zeta.
    + cbn. repeat split.
    + rewrite run_all_cons.
      pose proof (run_tables s op p w) as Hstep. cbv zeta in Hstep.
      destruct (PaymentServiceM.run s op p w) as [[r|e|m] w1]; cbn [snd] in Hstep;
        destruct Hstep as (H1 & H2 & H3 & _);
        [specialize (IH (pr_Payment r) w1)|specialize (IH p w1)|specialize (IH p w1)];
        cbv zeta in IH; destruct IH as (I1 & I2 & I3);
        (split; [congruence|split; congruence]).
  - intros s p card number code w r1 w1 r2 w2 e1 e2 Hclear Hreturn He1 He2.
    pose proof (Hentries s (PaymentServiceM.OpClear card number) p w r1 w1 Hclear) as H1.
    pose proof (Hentries s (PaymentServiceM.OpReturn card code) (pr_Payment r1) w1 r2 w2
                  Hreturn) as H2.
    rewrite He1 in H1. rewrite He2 in H2.
    destruct H1 as (_ & _ & Ha1 & _). destruct H2 as (_ & _ & Ha2 & _).
    destruct (run_fields s (PaymentServiceM.OpClear card number) p w r1 w1 Hclear)
      as (_ & Happlied & _).
    rewrite Ha1, Ha2, Happlied, toQ_Neg. ring.
Qed.

End PaymentRetries.

Lemma retry_scheduling_witness :
  match PaymentServiceM.FailPayment Examples.payment_service
          (Examples.payment PaymentStatus.Processing 1 3) "NSF" "declined"
          (Examples.world [] [] []) with
  | (Ok r, _) =>
      In (pr_Payment r)
         (PaymentServiceM.GetPendingPaymentsForRetry Examples.payment_service
            [pr_Payment r] (61 * 24 * time_Hour))
      /\ exists r' w',
           PaymentServiceM.RetryPayment Examples.payment_service (pr_Payment r)
             (Examples.world [] [] []) = (Ok r', w')
           /\ p_Status (pr_Payment r') = PaymentStatus.Pending
  | _ => False
  end.
Proof.
  destruct retry_scheduling as [Hfail Hretry].
  destruct (PaymentServiceM.FailPayment Examples.payment_service
              (Examples.payment PaymentStatus.Processing 1 3) "NSF" "declined"
              (Examples.world [] [] [])) as [[r|e|m] w1] eqn:Hrun.
  - assert (Hsel : In (pr_Payment r)
                      (PaymentServiceM.GetPendingPaymentsForRetry Examples.payment_service
                         [pr_Payment r] (61 * 24 * time_Hour))).
    { apply (Hfail _ _ _ _ _ _ _ Hrun). cbn. split; [lia|]. vm_compute. discriminate. }
    split; [exact Hsel|].
    destruct (Hretry _ _ _ _ (Examples.world [] [] []) Hsel) as (r' & w' & H1 & H2 & _).
    exists r', w'. split; assumption.
  - vm_compute in Hrun. discriminate Hrun.
  - vm_compute in Hrun. discriminate Hrun.
Defined.

Lemma payment_ledger_entries_witness :
  match PaymentServiceM.run Examples.payment_service
          (PaymentServiceM.OpClear Examples.card_7 "CONF-1")
          (Examples.payment PaymentStatus.Processing 1 3)
          (Examples.world [] [] []) with
  | (Ok r, _) =>
      match pr_LedgerEntry r with
      | Some e => sle_Amount e = Decimal.mk 10000 (-2)
      | None => False
      end
  | _ => False
  end.
Proof.
  destruct payment_ledger_entries as (_ & Hentries & _).
  destruct (PaymentServiceM.run Examples.payment_service
              (PaymentServiceM.OpClear Examples.card_7 "CONF-1")
              (Examples.payment PaymentStatus.Processing 1 3)
              (Examples.world [] [] [])) as [[r|e|m] w1] eqn:Hrun.
  - pose proof (Hentries _ _ _ _ _ _ Hrun) as H.
    destruct (pr_LedgerEntry r) as [e|].
    + destruct H as (_ & _ & Ha & _). exact Ha.
    + vm_compute in H. discriminate H.
  - vm_compute in Hrun. discriminate Hrun.
  - vm_compute in Hrun. discriminate Hrun.
Defined.

(* --------------------------------------------------------------------- *)
(** ** Payment type and payment summary *)

Section PaymentSummaries.
Import Decimal PaymentStatus.
Local Open Scope Q_scope.

Lemma Equal_spec : forall a b, Equal a b = true <-> toQ a == toQ b.
Proof.
  intros a b. unfold Equal. rewrite Cmp_spec, Qeq_alt.
  destruct (toQ a ?= toQ b); split; congruence.
Qed.

(** [DeterminePaymentType]: an amount that covers the remaining balance
    is a full payment.  The statement type is returned only when the
    amount equals the new balance without covering the remaining
    balance, that is, only for a cycle whose payments made are negative;
    the minimum type only for an amount below the remaining balance that
    equals the minimum payment or what remains of it. *)
Theorem DeterminePaymentType_cases : forall s amount cycle,
  (toQ (bc_NewBalance cycle) - toQ (bc_PaymentsMade cycle) <= toQ amount ->
   PaymentServiceM.DeterminePaymentType s amount (Some cycle) = PaymentType.Full)
  /\ (PaymentServiceM.DeterminePaymentType s amount (Some cycle) = PaymentType.Statement ->
      toQ amount == toQ (bc_NewBalance cycle) /\ toQ (bc_PaymentsMade cycle) < 0)
  /\ (0 <= toQ (bc_PaymentsMade cycle) ->
      PaymentServiceM.DeterminePaymentType s amount (Some cycle) <> PaymentType.Statement)
  /\ (PaymentServiceM.DeterminePaymentType s amount (Some cycle) = PaymentType.Minimum ->
      toQ amount < toQ (bc_NewBalance cycle) - toQ (bc_PaymentsMade cycle)
      /\ (toQ amount == toQ (bc_MinimumPayment cycle)
          \/ toQ amount
             == Qmax 0 (toQ (bc_MinimumPayment cycle) - toQ (bc_PaymentsMade cycle)))).
Proof.
  intros s amount cycle.
  unfold PaymentServiceM.DeterminePaymentType. cbv zeta.
  destruct (remaining_minimum_value cycle) as [Hmin _].
  assert (Hstatement :
            GreaterThanOrEqual amount (BillingCycleM.GetRemainingBalance cycle) = false ->
            Equal amount (bc_NewBalance cycle) = true ->
            toQ amount == toQ (bc_NewBalance cycle) /\ toQ (bc_PaymentsMade cycle) < 0).
  { intros Hfull Heq. apply Equal_spec in Heq. split; [exact Heq|].
    destruct (Qlt_le_dec (toQ (bc_PaymentsMade cycle)) 0) as [Hneg|Hpos]; [exact Hneg|].
    exfalso.
    assert (Hge : GreaterThanOrEqual amount (BillingCycleM.GetRemainingBalance cycle) = true).
    { apply GreaterThanOrEqual_spec. unfold BillingCycleM.GetRemainingBalance.
      rewrite toQ_Sub, Heq.
      apply (Qplus_le_l _ _ (toQ (bc_PaymentsMade cycle))). ring_simplify.
      rewrite <- (Qplus_0_r (toQ (bc_NewBalance cycle))) at 1.
      apply Qplus_le_r. exact Hpos. }
    congruence. }
  destruct (GreaterThanOrEqual amount (BillingCycleM.GetRemainingBalance cycle)) eqn:Hfull.
  { split; [reflexivity|]. split; [intro E; discriminate E|].
    split; [intros _ E; discriminate E|intro E; discriminate E]. }
  assert (Hbelow : toQ amount < toQ (bc_NewBalance cycle) - toQ (bc_PaymentsMade cycle)).
  { apply Qnot_le_lt. intro Hle.
    assert (Hge : GreaterThanOrEqual amount (BillingCycleM.GetRemainingBalance cycle) = true).
    { apply GreaterThanOrEqual_spec. unfold BillingCycleM.GetRemainingBalance.
      rewrite toQ_Sub. exact Hle. }
    congruence. }
  split.
  { intro Hle. exfalso. apply (Qlt_not_le _ _ Hbelow). exact Hle. }
  destruct (Equal amount (bc_NewBalance cycle)) eqn:Hst.
  { specialize (Hstatement eq_refl eq_refl).
    split; [intros _; exact Hstatement|].
    split; [|intro E; discriminate E].
    intros Hpos _. destruct Hstatement as [_ Hneg].
    apply (Qlt_not_le _ _ Hneg). exact Hpos. }
  split.
  { destruct (_ || _); intro E; discriminate E. }
  split.
  { intros _. destruct (_ || _); intro E; discriminate E. }
  destruct (Equal amount (bc_MinimumPayment cycle)) eqn:Hm1; cbn [orb].
  { intros _. split; [exact Hbelow|]. left. apply Equal_spec. exact Hm1. }
  destruct (Equal amount (BillingCycleM.GetRemainingMinimum cycle)) eqn:Hm2.
  { intros _. split; [exact Hbelow|]. right.
    apply Equal_spec in Hm2. rewrite Hm2. exact Hmin. }
  intro E. discriminate E.
Qed.

Let is_cleared (p : Payment) : bool := String.eqb (p_Status p) Cleared.
Let is_pending (p : Payment) : bool :=
  String.eqb (p_Status p) Pending || String.eqb (p_Status p) Processing.
Let is_failed (p : Payment) : bool := String.eqb (p_Status p) Failed.
Let is_returned (p : Payment) : bool := String.eqb (p_Status p) Returned.
Let is_other (p : Payment) : bool :=
  negb (is_cleared p || is_pending p || is_failed p || is_returned p).

Let count (f : Payment -> bool) (payments : list Payment) : Z :=
  Z.of_nat (List.length (filter f payments)).

Let total (f : Payment -> bool) (payments : list Payment) : Q :=
  fold_right (fun p acc => toQ (p_Amount p) + acc) 0 (filter f payments).

Let everything (p : Payment) : bool := true.

Lemma summary_step_classes : forall summary p,
  let summary' := PaymentServiceM.summary_step summary p in
  psum_TotalPayments summary' = wrap64 (psum_TotalPayments summary + 1)
  /\ psum_ClearedPayments summary'
     = (if is_cleared p then wrap64 (psum_ClearedPayments summary + 1)
        else psum_ClearedPayments summary)
  /\ psum_PendingPayments summary'
     = (if is_pending p then wrap64 (psum_PendingPayments summary + 1)
        else psum_PendingPayments summary)
  /\ psum_FailedPayments summary'
     = (if is_failed p then wrap64 (psum_FailedPayments summary + 1)
        else psum_FailedPayments summary)
  /\ psum_ReturnedPayments summary'
     = (if is_returned p then wrap64 (psum_ReturnedPayments summary + 1)
        else psum_ReturnedPayments summary)
  /\ psum_TotalAmount summary' = Add (psum_TotalAmount summary) (p_Amount p)
  /\ psum_ClearedAmount summary'
     = (if is_cleared p then Add (psum_ClearedAmount summary) (p_Amount p)
        else psum_ClearedAmount summary)
  /\ psum_PendingAmount summary'
     = (if is_pending p then Add (psum_PendingAmount summary) (p_Amount p)
        else psum_PendingAmount summary)
  /\ psum_FailedAmount summary'
     = (if is_failed p then Add (psum_FailedAmount summary) (p_Amount p)
        else psum_FailedAmount summary)
  /\ psum_ReturnedAmount summary'
     = (if is_returned p then Add (psum_ReturnedAmount summary) (p_Amount p)
        else psum_ReturnedAmount summary)
  /\ psum_LargestPayment summary'
     = (if GreaterThan (p_Amount p) (psum_LargestPayment summary)
        then p_Amount p else psum_LargestPayment summary).
Proof.
  intros summary p. cbv zeta.
  unfold PaymentServiceM.summary_step, is_cleared, is_pending, is_failed, is_returned.
  cbn [psum_TotalPayments psum_ClearedPayments psum_PendingPayments
       psum_FailedPayments psum_ReturnedPayments psum_TotalAmount
       psum_ClearedAmount psum_PendingAmount psum_FailedAmount
       psum_ReturnedAmount psum_LargestPayment].
  unfold Cleared, Pending, Processing, Failed, Returned.
  destruct (String.eqb_spec (p_Status p) "cleared") as [E|_];
    [rewrite E; cbn; repeat split|].
  destruct (String.eqb_spec (p_Status p) "pending") as [E|_];
    [rewrite E; cbn; repeat split|].
  destruct (String.eqb_spec (p_Status p) "processing") as [E|_];
    [rewrite E; cbn; repeat split|].
  destruct (String.eqb_spec (p_Status p) "failed") as [E|_];
    [rewrite E; cbn; repeat split|].
  cbn [negb andb orb]. repeat split.
Qed.

Lemma count_cons : forall f p rest,
  count f (p :: rest) = ((if f p then 1 else 0) + count f rest)%Z.
Proof.
  intros f p rest. unfold count. cbn [filter].
  destruct (f p); cbn [List.length]; lia.
Qed.

Lemma total_cons : forall f p rest,
  total f (p :: rest) == (if f p then toQ (p_Amount p) else 0) + total f rest.
Proof.
  intros f p rest. unfold total. cbn [filter].
  destruct (f p); cbn [fold_right]; ring.
Qed.

Lemma count_bounds : forall f payments,
  (0 <= count f payments <= Z.of_nat (List.length payments))%Z.
Proof.
  intros f payments. unfold count.
  pose proof (filter_length_le f payments). lia.
Qed.

(** The loop of [CalculatePaymentSummary], from any summary whose
    counters are consistent. *)
Lemma summary_fold : forall payments summary,
  (0 <= psum_TotalPayments summary)%Z ->
  (psum_TotalPayments summary + Z.of_nat (List.length payments) < 2 ^ 63)%Z ->
  (0 <= psum_ClearedPayments summary <= psum_TotalPayments summary)%Z ->
  (0 <= psum_PendingPayments summary <= psum_TotalPayments summary)%Z ->
  (0 <= psum_FailedPayments summary <= psum_TotalPayments summary)%Z ->
  (0 <= psum_ReturnedPayments summary <= psum_TotalPayments summary)%Z ->
  let final := fold_left PaymentServiceM.summary_step payments summary in
  (psum_TotalPayments final
   = psum_TotalPayments summary + Z.of_nat (List.length payments)
   /\ psum_ClearedPayments final = psum_ClearedPayments summary + count is_cleared payments
   /\ psum_PendingPayments final = psum_PendingPayments summary + count is_pending payments
   /\ psum_FailedPayments final = psum_FailedPayments summary + count is_failed payments
   /\ psum_ReturnedPayments final
      = psum_ReturnedPayments summary + count is_returned payments)%Z
  /\ toQ (psum_TotalAmount final)
     == toQ (psum_TotalAmount summary) + total everything payments
  /\ toQ (psum_ClearedAmount final)
     == toQ (psum_ClearedAmount summary) + total is_cleared payments
  /\ toQ (psum_PendingAmount final)
     == toQ (psum_PendingAmount summary) + total is_pending payments
  /\ toQ (psum_FailedAmount final)
     == toQ (psum_FailedAmount summary) + total is_failed payments
  /\ toQ (psum_ReturnedAmount final)
     == toQ (psum_ReturnedAmount summary) + total is_returned payments
  /\ toQ (psum_LargestPayment summary) <= toQ (psum_LargestPayment final)
  /\ (forall p, In p payments -> toQ (p_Amount p) <= toQ (psum_LargestPayment final)).
Proof.
  induction payments as [|p rest IH]; intros summary H0 Hlen Hc Hp Hf Hr; cbv zeta.
  - cbn [fold_left List.length]. unfold count, total. cbn.
    repeat split; try lia; try (ring_simplify; reflexivity); try apply Qle_refl.
  - cbn [fold_left].
    pose proof (summary_step_classes summary p) as Hstep. cbv zeta in Hstep.
    set (s1 := PaymentServiceM.summary_step summary p) in *.
    destruct Hstep as (T & C & P & F & R & TA & CA & PA & FA & RA & L).
    cbn [List.length] in Hlen. rewrite Nat2Z.inj_succ in Hlen.
    assert (T1 : psum_TotalPayments s1 = (psum_TotalPayments summary + 1)%Z).
    { rewrite T. apply wrap64_small. lia. }
    assert (C1 : psum_ClearedPayments s1
                 = (psum_ClearedPayments summary + if is_cleared p then 1 else 0)%Z).
    { rewrite C. destruct (is_cleared p); [apply wrap64_small|]; lia. }
    assert (P1 : psum_PendingPayments s1
                 = (psum_PendingPayments summary + if is_pending p then 1 else 0)%Z).
    { rewrite P. destruct (is_pending p); [apply wrap64_small|]; lia. }
    assert (F1 : psum_FailedPayments s1
                 = (psum_FailedPayments summary + if is_failed p then 1 else 0)%Z).
    { rewrite F. destruct (is_failed p); [apply wrap64_small|]; lia. }
    assert (R1 : psum_ReturnedPayments s1
                 = (psum_ReturnedPayments summary + if is_returned p then 1 else 0)%Z).
    { rewrite R. destruct (is_returned p); [apply wrap64_small|]; lia. }
    assert (Hb : forall b : bool, (0 <= (if b then 1 else 0) <= 1)%Z)
      by (intros []; lia).
    pose proof (Hb (is_cleared p)). pose proof (Hb (is_pending p)).
    pose proof (Hb (is_failed p)). pose proof (Hb (is_returned p)).
    specialize (IH s1 ltac:(lia) ltac:(lia) ltac:(lia) ltac:(lia) ltac:(lia) ltac:(lia)).
    cbv zeta in IH.
    destruct IH as ((IT & IC & IP & IF & IR) & ITA & ICA & IPA & IFA & IRA & IL & IIn).
    assert (L1 : toQ (psum_LargestPayment summary) <= toQ (psum_LargestPayment s1)
                 /\ toQ (p_Amount p) <= toQ (psum_LargestPayment s1)).
    { rewrite L.
      destruct (GreaterThan (p_Amount p) (psum_LargestPayment summary)) eqn:G.
      - apply GreaterThan_spec in G. split; [apply Qlt_le_weak; exact G|apply Qle_refl].
      - apply GreaterThan_false in G. split; [apply Qle_refl|exact G]. }
    split.
    { rewrite IT, IC, IP, IF, IR, T1, C1, P1, F1, R1, !count_cons.
      cbn [List.length]. rewrite Nat2Z.inj_succ. repeat split; lia. }
    split.
    { rewrite ITA, TA, toQ_Add, total_cons. unfold everything. ring. }
    split.
    { rewrite ICA, CA, total_cons. destruct (is_cleared p); [rewrite toQ_Add|]; ring. }
    split.
    { rewrite IPA, PA, total_cons. destruct (is_pending p); [rewrite toQ_Add|]; ring. }
    split.
    { rewrite IFA, FA, total_cons. destruct (is_failed p); [rewrite toQ_Add|]; ring. }
    split.
    { rewrite IRA, RA, total_cons. destruct (is_returned p); [rewrite toQ_Add|]; ring. }
    split.
    { eapply Qle_trans; [exact (proj1 L1)|exact IL]. }
    intros q [<-|Hin].
    + eapply Qle_trans; [exact (proj2 L1)|exact IL].
    + apply IIn. exact Hin.
Qed.

Lemma exactly_one_class : forall p,
  exists c pe f r o : bool,
    is_cleared p = c /\ is_pending p = pe /\ is_failed p = f
    /\ is_returned p = r /\ is_other p = o
    /\ ((if c then 1 else 0) + (if pe then 1 else 0) + (if f then 1 else 0)
        + (if r then 1 else 0) + (if o then 1 else 0) = 1)%Z.
Proof.
  intro p.
  unfold is_other, is_cleared, is_pending, is_failed, is_returned,
    Cleared, Pending, Processing, Failed, Returned.
  destruct (String.eqb_spec (p_Status p) "cleared") as [E|_];
    [rewrite E; repeat eexists|].
  destruct (String.eqb_spec (p_Status p) "pending") as [E|_];
    [rewrite E; repeat eexists|].
  destruct (String.eqb_spec (p_Status p) "processing") as [E|_];
    [rewrite E; repeat eexists|].
  destruct (String.eqb_spec (p_Status p) "failed") as [E|_];
    [rewrite E; repeat eexists|].
  destruct (String.eqb_spec (p_Status p) "returned") as [E|_]; repeat eexists.
Qed.

Lemma classes_partition : forall payments,
  (count is_cleared payments + count is_pending payments + count is_failed payments
   + count is_returned payments + count is_other payments
   = Z.of_nat (List.length payments))%Z
  /\ total is_cleared payments + total is_pending payments + total is_failed payments
     + total is_returned payments + total is_other payments
     == total everything payments.
Proof.
  induction payments as [|p rest [IHc IHt]].
  - split; reflexivity.
  - destruct (exactly_one_class p) as (c & pe & f & r & o & Hc & Hp & Hf & Hr & Ho & Hone).
    split.
    + rewrite !count_cons. cbn [List.length]. rewrite Nat2Z.inj_succ, <- IHc.
      rewrite Hc, Hp, Hf, Hr, Ho. lia.
    + rewrite !total_cons, <- IHt. rewrite Hc, Hp, Hf, Hr, Ho. unfold everything.
      destruct c, pe, f, r, o; cbn in Hone; try discriminate Hone; ring.
Qed.

(** [CalculatePaymentSummary] always returns a summary.  Its total count
    is the number of payments and its total amount their sum; the
    cleared, pending (pending or processing), failed and returned counts
    and amounts are those of the payments in these statuses, so that
    together with the payments in any other status (cancelled, reversed)
    they make up the totals; the largest payment is at least zero and at
    least every amount; the average is the total divided by the count,
    rounded to 2 decimal places. *)
Theorem CalculatePaymentSummary_totals : forall s tenantID creditCardID payments period,
  (Z.of_nat (List.length payments) < 2 ^ 63)%Z ->
  exists summary,
    PaymentServiceM.CalculatePaymentSummary s tenantID creditCardID payments period
    = Ok summary
    /\ (psum_TotalPayments summary = Z.of_nat (List.length payments)
        /\ psum_ClearedPayments summary = count is_cleared payments
        /\ psum_PendingPayments summary = count is_pending payments
        /\ psum_FailedPayments summary = count is_failed payments
        /\ psum_ReturnedPayments summary = count is_returned payments
        /\ psum_ClearedPayments summary + psum_PendingPayments summary
           + psum_FailedPayments summary + psum_ReturnedPayments summary
           + count is_other payments = psum_TotalPayments summary)%Z
    /\ toQ (psum_TotalAmount summary) == total everything payments
    /\ toQ (psum_ClearedAmount summary) == total is_cleared payments
    /\ toQ (psum_PendingAmount summary) == total is_pending payments
    /\ toQ (psum_FailedAmount summary) == total is_failed payments
    /\ toQ (psum_ReturnedAmount summary) == total is_returned payments
    /\ toQ (psum_ClearedAmount summary) + toQ (psum_PendingAmount summary)
       + toQ (psum_FailedAmount summary) + toQ (psum_ReturnedAmount summary)
       + total is_other payments == toQ (psum_TotalAmount summary)
    /\ 0 <= toQ (psum_LargestPayment summary)
    /\ (forall p, In p payments -> toQ (p_Amount p) <= toQ (psum_LargestPayment summary))
    /\ (payments <> [] ->
        Qabs (toQ (psum_AveragePayment summary)
              - total everything payments / inject_Z (Z.of_nat (List.length payments)))
        <= (1 # 200) + (1 # 20000000000000000)).
Proof.
  intros s tenantID creditCardID payments period Hlen.
  unfold PaymentServiceM.CalculatePaymentSummary. cbv zeta.
  set (s0 := mkPaymentSummary tenantID creditCardID period 0 BillingCycleM.zero_value
               0 BillingCycleM.zero_value 0 BillingCycleM.zero_value
               0 BillingCycleM.zero_value 0 BillingCycleM.zero_value
               BillingCycleM.zero_value BillingCycleM.zero_value None
               BillingCycleM.zero_value).
  destruct (classes_partition payments) as [Hpc Hpt].
  destruct (Z.eqb_spec (Z.of_nat (List.length payments)) 0) as [Hempty|Hne].
  { assert (E : payments = []) by (destruct payments; [reflexivity|discriminate Hempty]).
    subst payments. exists s0. split; [reflexivity|].
    split; [cbn; repeat split|].
    repeat split; try reflexivity; try discriminate;
      try (intros p []); try (intro H; contradiction H; reflexivity). }
  pose proof (summary_fold payments s0 ltac:(cbn; lia) ltac:(cbn; lia)
                ltac:(cbn; lia) ltac:(cbn; lia) ltac:(cbn; lia) ltac:(cbn; lia)) as Hfold.
  cbv zeta in Hfold.
  set (final := fold_left PaymentServiceM.summary_step payments s0) in *.
  destruct Hfold as ((T & C & P & F & R) & TA & CA & PA & FA & RA & L & LIn).
  cbn [s0 psum_TotalPayments psum_ClearedPayments psum_PendingPayments
       psum_FailedPayments psum_ReturnedPayments psum_TotalAmount
       psum_ClearedAmount psum_PendingAmount psum_FailedAmount
       psum_ReturnedAmount psum_LargestPayment] in T, C, P, F, R, TA, CA, PA, FA, RA, L.
  assert (Z0 : toQ BillingCycleM.zero_value == 0) by reflexivity.
  rewrite Z0 in TA, CA, PA, FA, RA, L. rewrite Z.add_0_l in T, C, P, F, R.
  rewrite Qplus_0_l in TA, CA, PA, FA, RA.
  destruct (Z.ltb_spec 0 (psum_TotalPayments final)) as [Hpos|Hnonpos]; [|lia].
  assert (Hdiv : value (NewFromInt (psum_TotalPayments final)) <> 0%Z)
    by (cbn; lia).
  rewrite (Div_nonzero _ _ Hdiv). cbn [obind].
  eexists. split; [reflexivity|].
  cbn [PaymentServiceM.with_AveragePayment psum_TotalPayments psum_ClearedPayments
       psum_PendingPayments psum_FailedPayments psum_ReturnedPayments psum_TotalAmount
       psum_ClearedAmount psum_PendingAmount psum_FailedAmount
       psum_ReturnedAmount psum_LargestPayment psum_AveragePayment].
  split.
  { rewrite T, C, P, F, R. repeat split. exact Hpc. }
  split; [exact TA|]. split; [exact CA|]. split; [exact PA|].
  split; [exact FA|]. split; [exact RA|].
  split; [rewrite TA, CA, PA, FA, RA; exact Hpt|].
  split; [exact L|]. split; [exact LIn|].
  intros _.
  set (mean := DivRound_nz (psum_TotalAmount final)
                 (NewFromInt (psum_TotalPayments final)) DivisionPrecision).
  pose proof (Round_2_error mean) as Hr.
  pose proof (DivRound_error (psum_TotalAmount final)
                (NewFromInt (psum_TotalPayments final)) DivisionPrecision Hdiv) as Hd.
  fold mean in Hd. rewrite half_unit_16 in Hd.
  rewrite toQ_NewFromInt, TA, T in Hd.
  setoid_replace (toQ (Round mean 2)
                  - total everything payments / inject_Z (Z.of_nat (List.length payments)))
    with ((toQ (Round mean 2) - toQ mean)
          + (toQ mean
             - total everything payments / inject_Z (Z.of_nat (List.length payments))))
    by ring.
  eapply Qle_trans; [apply Qabs_triangle|].
  apply Qplus_le_compat; assumption.
Qed.

End PaymentSummaries.

Lemma DeterminePaymentType_cases_witness :
  PaymentServiceM.DeterminePaymentType Examples.payment_service
    (Decimal.NewFromInt 1000) (Some Examples.cycle_1_underpaid) = PaymentType.Full.
Proof.
  apply (proj1 (DeterminePaymentType_cases Examples.payment_service
                  (Decimal.NewFromInt 1000) Examples.cycle_1_underpaid)).
  vm_compute. intro E. discriminate E.
Defined.

Lemma CalculatePaymentSummary_totals_witness :
  exists summary,
    PaymentServiceM.CalculatePaymentSummary Examples.payment_service 1 7
      [Examples.payment PaymentStatus.Cleared 1 3;
       Examples.payment PaymentStatus.Failed 3 3;
       Examples.payment PaymentStatus.Cancelled 0 3] "2024-01"
    = Ok summary
    /\ psum_TotalPayments summary = 3%Z
    /\ psum_ClearedPayments summary = 1%Z.
Proof.
  destruct (CalculatePaymentSummary_totals Examples.payment_service 1 7
              [Examples.payment PaymentStatus.Cleared 1 3;
               Examples.payment PaymentStatus.Failed 3 3;
               Examples.payment PaymentStatus.Cancelled 0 3] "2024-01")
    as (summary & Hrun & (Htotal & Hcleared & _) & _).
  - cbn. lia.
  - exists summary. split; [exact Hrun|]. split; [exact Htotal|exact Hcleared].
Defined.

(* --------------------------------------------------------------------- *)
(** ** The points ledger: balance, validation and redemption *)

Section PointsLedger.


(** What [GetBalance] reports on a live connection: the sum of the
    tenant's points and the number of its entries. *)
Lemma GetBalance_available : forall t w,
  conn_ok w = true ->
  exists b,
    PointsLedgerService.GetBalance t w = (Ok b, w)
    /\ pb_TenantID b = t
    /\ pb_AvailablePoints b
       = PointsLedgerService.sum_points (PointsLedgerService.tenant_rows w t)
    /\ pb_TotalEntries b
       = Z.of_nat (List.length (PointsLedgerService.tenant_rows w t)).
Proof.
  intros t w Hc. unfold PointsLedgerService.GetBalance. rewrite Hc. cbn [negb].
  unfold PointsLedgerService.points_balances_row.
  destruct (PointsLedgerService.tenant_rows w t) as [|r rows];
    eexists; (split; [reflexivity|]); repeat split.
Qed.




Lemma ValidateRedemption_run : forall t n w,
  PointsLedgerService.ValidateRedemption t n w
  = (if negb (conn_ok w) then Error ErrConnDone
     else
       let available :=
         PointsLedgerService.sum_points (PointsLedgerService.tenant_rows w t) in
       if (available <? n)%Z
       then Error ("insufficient points: available=" ++ fmt_d available
                   ++ ", requested=" ++ fmt_d n)%string
       else Ok tt, w).
Proof.
  intros t n w. unfold PointsLedgerService.ValidateRedemption.
  rewrite bind_cases.
  destruct (conn_ok w) eqn:Hc; cbn [negb].
  - destruct (GetBalance_available t w Hc) as (b & Hb & _ & Hba & _).
    rewrite Hb, Hba. cbv zeta.
    destruct (_ <? _)%Z; reflexivity.
  - unfold PointsLedgerService.GetBalance. rewrite Hc. reflexivity.
Qed.

(** [ValidateRedemption] reads only.  On a live connection it accepts a
    redemption exactly when the points asked for do not exceed the sum
    of the tenant's points (zero for a tenant without entries); a
    negative or zero request is therefore accepted whenever the balance
    is not negative. *)
Theorem ValidateRedemption_accepts_iff : forall t n w,
  snd (PointsLedgerService.ValidateRedemption t n w) = w
  /\ (conn_ok w = true ->
      (fst (PointsLedgerService.ValidateRedemption t n w) = Ok tt
       <-> (n <= PointsLedgerService.sum_points (PointsLedgerService.tenant_rows w t))%Z))
  /\ (conn_ok w = false ->
      fst (PointsLedgerService.ValidateRedemption t n w) = Error ErrConnDone).
Proof.
  intros t n w. rewrite ValidateRedemption_run. cbn [fst snd].
  split; [reflexivity|]. split; intro Hc; rewrite Hc; cbn [negb]; [|reflexivity].
  cbv zeta.
  destruct (Z.ltb_spec
              (PointsLedgerService.sum_points (PointsLedgerService.tenant_rows w t)) n);
    split; intro Hx; try reflexivity; try discriminate Hx; lia.
Qed.



End PointsLedger.


Lemma ValidateRedemption_accepts_iff_witness :
  fst (PointsLedgerService.ValidateRedemption 1 100
         (Examples.world [] [Examples.earned_100] [])) = Ok tt.
Proof.
  apply (proj1 (proj2 (ValidateRedemption_accepts_iff 1 100
                         (Examples.world [] [Examples.earned_100] [])))).
  - reflexivity.
  - vm_compute. discriminate.
Defined.

Section RewardRedemptionEffect.





End RewardRedemptionEffect.


(* --------------------------------------------------------------------- *)
(** ** Fee assessment *)

Section FeeAssessment.
Import Decimal.
Local Open Scope Q_scope.

Variable fmt_2f : decimal -> string.
Variable uuid_String : UUID -> string.










End FeeAssessment.






(* --------------------------------------------------------------------- *)
(** ** The statement balance *)

Section StatementBalance.
Import Decimal.
Local Open Scope Q_scope.

Variable uuid_String : UUID -> string.

(** The sum of the balance terms of rows, as a number. *)
Let terms (rows : list StatementLedgerEntry) : Q :=
  fold_right (fun e acc => toQ (StatementLedgerService.balance_term e) + acc) 0 rows.

Lemma toQ_sum_terms : forall rows,
  toQ (StatementLedgerService.sum_terms rows) == terms rows.
Proof.
  intro rows. unfold StatementLedgerService.sum_terms.
  assert (H : forall acc,
             toQ (fold_left (fun total e =>
                               Add total (StatementLedgerService.balance_term e))
                            rows acc)
             == toQ acc + terms rows).
  { unfold terms. induction rows as [|e rest IH]; intro acc; cbn [fold_left fold_right].
    - ring.
    - rewrite IH, toQ_Add. ring. }
  rewrite H. change (toQ (mk 0 0)) with (0 * (10 # 1) ^ 0). ring.
Qed.


(** What [GetBalance] reports on a live connection. *)
Lemma StatementLedgerService_GetBalance_value : forall t w,
  conn_ok w = true ->
  exists b,
    StatementLedgerService.GetBalance t w = (Ok b, w)
    /\ sb_TenantID b = t
    /\ toQ (sb_CurrentBalance b) == terms (StatementLedgerService.cleared_rows w t)
    /\ sb_TotalEntries b
       = Z.of_nat (List.length (StatementLedgerService.cleared_rows w t)).
Proof.
  intros t w Hc. unfold StatementLedgerService.GetBalance. rewrite Hc. cbn [negb].
  destruct (StatementLedgerService.cleared_rows w t) as [|r rows] eqn:Hrows.
  - eexists. split; [reflexivity|]. repeat split.
  - eexists. split; [reflexivity|]. cbn [sb_TenantID sb_CurrentBalance sb_TotalEntries].
    split; [reflexivity|]. split; [apply toQ_sum_terms|reflexivity].
Qed.



Lemma filter_all : forall (A : Type) (f : A -> bool) (l : list A),
  (forall a, In a l -> f a = true) -> filter f l = l.
Proof.
  intros A f l. induction l as [|a l IH]; intro H; cbn [filter]; [reflexivity|].
  rewrite (H a (or_introl eq_refl)), IH; [reflexivity|].
  intros b Hb. apply H. right. exact Hb.
Qed.

Lemma filter_none : forall (A : Type) (f : A -> bool) (l : list A),
  (forall a, In a l -> f a = false) -> filter f l = [].
Proof.
  intros A f l. induction l as [|a l IH]; intro H; cbn [filter]; [reflexivity|].
  rewrite (H a (or_introl eq_refl)). apply IH.
  intros b Hb. apply H. right. exact Hb.
Qed.

(** [CalculateStatementBalance] adds to the opening balance the terms of
    the tenant's cleared entries posted in the period, bounds included:
    for a period that contains all of them the result is the opening
    balance plus the balance [GetBalance] reports, and for an empty
    period it is the opening balance. *)
Theorem CalculateStatementBalance_value : forall t startDate endDate opening w,
  conn_ok w = true ->
  exists total,
    StatementLedgerService.CalculateStatementBalance t startDate endDate opening w
    = (Ok total, w)
    /\ toQ total
       == toQ opening
          + terms (filter (fun e => (startDate <=? sle_PostingDate e)%Z
                                    && (sle_PostingDate e <=? endDate)%Z)
                          (StatementLedgerService.cleared_rows w t))
    /\ ((forall e, In e (StatementLedgerService.cleared_rows w t) ->
                   (startDate <= sle_PostingDate e <= endDate)%Z) ->
        exists b,
          StatementLedgerService.GetBalance t w = (Ok b, w)
          /\ toQ total == toQ opening + toQ (sb_CurrentBalance b))
    /\ ((endDate < startDate)%Z -> toQ total == toQ opening).
Proof.
  intros t startDate endDate opening w Hc.
  unfold StatementLedgerService.CalculateStatementBalance. rewrite Hc. cbn [negb].
  cbv zeta. eexists. split; [reflexivity|].
  assert (Hv : toQ (Add opening
                      (StatementLedgerService.sum_terms
                         (filter (fun e => (startDate <=? sle_PostingDate e)%Z
                                           && (sle_PostingDate e <=? endDate)%Z)
                                 (StatementLedgerService.cleared_rows w t))))
               == toQ opening
                  + terms (filter (fun e => (startDate <=? sle_PostingDate e)%Z
                                            && (sle_PostingDate e <=? endDate)%Z)
                                  (StatementLedgerService.cleared_rows w t))).
  { rewrite toQ_Add, toQ_sum_terms. reflexivity. }
  split; [exact Hv|]. split.
  - intro Hall.
    destruct (StatementLedgerService_GetBalance_value t w Hc) as (b & Hb & _ & Hbv & _).
    exists b. split; [exact Hb|]. rewrite Hv, Hbv.
    assert (E : filter (fun e => (startDate <=? sle_PostingDate e)%Z
                                 && (sle_PostingDate e <=? endDate)%Z)
                       (StatementLedgerService.cleared_rows w t)
                = StatementLedgerService.cleared_rows w t).
    { apply filter_all. intros e Hin. destruct (Hall e Hin) as [H1 H2].
      apply Z.leb_le in H1, H2. rewrite H1, H2. reflexivity. }
    rewrite E. reflexivity.
  - intro Hempty. rewrite Hv.
    assert (E : filter (fun e => (startDate <=? sle_PostingDate e)%Z
                                 && (sle_PostingDate e <=? endDate)%Z)
                       (StatementLedgerService.cleared_rows w t) = []).
    { apply filter_none. intros e _.
      destruct (Z.leb_spec startDate (sle_PostingDate e));
        destruct (Z.leb_spec (sle_PostingDate e) endDate); cbn [andb];
        try reflexivity; lia. }
    rewrite E. unfold terms. cbn [fold_right]. ring.
Qed.

End StatementBalance.


Lemma CalculateStatementBalance_value_witness :
  exists total,
    StatementLedgerService.CalculateStatementBalance 1 10 5 (Decimal.NewFromInt 250)
      (Examples.world [Examples.cleared_purchase] [] [])
    = (Ok total, Examples.world [Examples.cleared_purchase] [] [])
    /\ (Decimal.toQ total == 250)%Q.
Proof.
  destruct (CalculateStatementBalance_value 1 10 5 (Decimal.NewFromInt 250)
              (Examples.world [Examples.cleared_purchase] [] []) eq_refl)
    as (total & Hrun & _ & _ & Hempty).
  exists total. split; [exact Hrun|].
  rewrite Hempty by lia. reflexivity.
Defined.

(* --------------------------------------------------------------------- *)
(** ** Interest: the other methods, projection and accrual *)

Section InterestMethods.
Import Decimal.
Local Open Scope Q_scope.

Variable running_balance_query :
  list StatementLedgerEntry -> UUID -> Time -> Time -> list DailyBalanceRecord.
Variable fmt_2f : decimal -> string.

(** The sum over the days of the balance where it is positive. *)
Let positive_balances (balances : list DailyBalanceRecord) : Q :=
  fold_right (fun r acc => Qmax 0 (toQ (dbr_Balance r)) + acc) 0 balances.

Lemma daily_interest_sum : forall balances dpr acc,
  toQ (fold_left
         (fun total record =>
            if GreaterThan (dbr_Balance record) Zero
            then Add total (Mul (dbr_Balance record) dpr)
            else total)
         balances acc)
  == toQ acc + toQ dpr * positive_balances balances.
Proof.
  intros balances dpr. unfold positive_balances.
  induction balances as [|r rest IH]; intro acc; cbn [fold_left fold_right].
  - ring.
  - rewrite IH.
    destruct (GreaterThan (dbr_Balance r) Zero) eqn:G.
    + apply GreaterThan_spec in G. rewrite toQ_Zero in G.
      rewrite toQ_Add, toQ_Mul, (Q.max_r 0 (toQ (dbr_Balance r)))
        by (apply Qlt_le_weak; exact G).
      ring.
    + apply GreaterThan_false in G. rewrite toQ_Zero in G.
      rewrite (Q.max_l 0 (toQ (dbr_Balance r))) by exact G. ring.
Qed.

(** The daily balance method charges the daily periodic rate on every
    day's balance that is positive, days with a zero or credit balance
    counting for nothing, and rounds the sum to cents. *)
Theorem calculateDailyBalanceInterest_value : forall balances dpr,
  exp (InterestService.calculateDailyBalanceInterest balances dpr) = (-2)%Z
  /\ Qabs (toQ (InterestService.calculateDailyBalanceInterest balances dpr)
           - toQ dpr * positive_balances balances) <= 1 # 200
  /\ ((forall r, In r balances -> toQ (dbr_Balance r) <= 0) ->
      toQ (InterestService.calculateDailyBalanceInterest balances dpr) == 0).
Proof.
  intros balances dpr. unfold InterestService.calculateDailyBalanceInterest. cbv zeta.
  set (total := fold_left _ balances BillingCycleM.zero_value).
  assert (Ht : toQ total == toQ dpr * positive_balances balances).
  { unfold total. rewrite daily_interest_sum.
    change (toQ BillingCycleM.zero_value) with (0 * (10 # 1) ^ 0). ring. }
  split; [apply exp_Round|]. split.
  - rewrite <- Ht. apply Round_2_error.
  - intro Hall.
    assert (Hsame : total = BillingCycleM.zero_value).
    { unfold total. clear Ht total.
      generalize BillingCycleM.zero_value as acc.
      induction balances as [|r rest IH]; intro acc; cbn [fold_left]; [reflexivity|].
      assert (G : GreaterThan (dbr_Balance r) Zero = false).
      { apply GreaterThan_false. rewrite toQ_Zero. apply Hall. left. reflexivity. }
      rewrite G. apply IH. intros r' Hin. apply Hall. right. exact Hin. }
    rewrite Hsame. reflexivity.
Qed.

(** The adjusted balance method: nothing when the payments cover the
    previous balance; otherwise the previous balance less the payments,
    times the monthly rate APR / 12 / 100 (each division rounded to 16
    decimal places), rounded to cents.  It never panics. *)
Theorem calculateAdjustedBalanceInterest_value : forall previous payments apr,
  (toQ previous <= toQ payments ->
   InterestService.calculateAdjustedBalanceInterest previous payments apr = Ok Zero)
  /\ (toQ payments < toQ previous ->
      exists rate interest,
        InterestService.calculateAdjustedBalanceInterest previous payments apr
        = Ok interest
        /\ Qabs (toQ rate - toQ apr / 12 / 100) <= 1 # 10000000000000000
        /\ interest = Round (Mul (Sub previous payments) rate) 2
        /\ exp interest = (-2)%Z
        /\ Qabs (toQ interest - (toQ previous - toQ payments) * toQ rate) <= 1 # 200).
Proof.
  intros previous payments apr.
  unfold InterestService.calculateAdjustedBalanceInterest. cbv zeta.
  split.
  - intro Hle.
    assert (E : LessThanOrEqual (Sub previous payments) Zero = true).
    { apply LessThanOrEqual_Zero. rewrite toQ_Sub.
      apply (Qplus_le_l _ _ (toQ payments)). ring_simplify. exact Hle. }
    rewrite E. reflexivity.
  - intro Hlt.
    assert (E : LessThanOrEqual (Sub previous payments) Zero = false).
    { apply LessThanOrEqual_Zero_false. rewrite toQ_Sub.
      apply (Qplus_lt_l _ _ (toQ payments)). ring_simplify. exact Hlt. }
    rewrite E.
    rewrite (Div_nonzero apr (NewFromInt 12)) by discriminate. cbn [obind].
    set (perMonth := DivRound_nz apr (NewFromInt 12) DivisionPrecision).
    rewrite (Div_nonzero perMonth (NewFromInt 100)) by discriminate. cbn [obind].
    set (rate := DivRound_nz perMonth (NewFromInt 100) DivisionPrecision).
    exists rate. eexists. split; [reflexivity|].
    assert (H1 : Qabs (toQ perMonth - toQ apr / 12) <= 1 # 20000000000000000).
    { pose proof (DivRound_error apr (NewFromInt 12) DivisionPrecision
                    ltac:(discriminate)) as H.
      rewrite half_unit_16 in H. exact H. }
    assert (H2 : Qabs (toQ rate - toQ perMonth / 100) <= 1 # 20000000000000000).
    { pose proof (DivRound_error perMonth (NewFromInt 100) DivisionPrecision
                    ltac:(discriminate)) as H.
      rewrite half_unit_16 in H. exact H. }
    split.
    { setoid_replace (toQ rate - toQ apr / 12 / 100)
        with ((toQ rate - toQ perMonth / 100) + (toQ perMonth - toQ apr / 12) * (1 # 100))
        by field.
      eapply Qle_trans; [apply Qabs_triangle|].
      rewrite Qabs_Qmult. change (Qabs (1 # 100)) with (1 # 100).
      setoid_replace (1 # 10000000000000000)
        with ((1 # 20000000000000000) + (1 # 20000000000000000) * (1 # 1)) by reflexivity.
      apply Qplus_le_compat; [exact H2|].
      eapply Qle_trans.
      - apply Qmult_le_compat_r; [exact H1|discriminate].
      - apply Qmult_le_l; [reflexivity|discriminate]. }
    split; [reflexivity|]. split; [apply exp_Round|].
    rewrite <- toQ_Sub, <- toQ_Mul. apply Round_2_error.
Qed.

(** The projection shown to customers agrees with the average daily
    balance method: [CalculateProjectedInterest] never panics, its
    projected interest is what [calculateADBInterest] charges on the
    current balance at the card's daily periodic rate for that number of
    days (nothing for a balance that is not positive), and the total if
    unpaid is the balance plus that interest. *)
Theorem CalculateProjectedInterest_agrees : forall (c : CreditCard) balance apr days,
  exists projection dpr,
    InterestService.CalculateProjectedInterest balance apr days = Ok projection
    /\ CreditCardM.GetDailyPeriodicRate c apr = Ok dpr
    /\ pi_ProjectedInterest projection
       = InterestService.calculateADBInterest balance dpr days
    /\ toQ (pi_TotalIfUnpaid projection)
       == toQ balance + toQ (pi_ProjectedInterest projection)
    /\ pi_CurrentBalance projection = balance
    /\ (toQ balance <= 0 -> pi_ProjectedInterest projection = Zero).
Proof.
  intros c balance apr days.
  rewrite GetDailyPeriodicRate_value.
  unfold InterestService.CalculateProjectedInterest, InterestService.calculateADBInterest.
  destruct (LessThanOrEqual balance Zero) eqn:E.
  - eexists. eexists. split; [reflexivity|]. split; [reflexivity|].
    cbn [pi_ProjectedInterest pi_TotalIfUnpaid pi_CurrentBalance].
    split; [reflexivity|]. split; [rewrite toQ_Zero; ring|]. split; reflexivity.
  - rewrite (Div_nonzero apr (NewFromInt 365)) by discriminate. cbn [obind].
    rewrite (Div_nonzero _ (NewFromInt 100)) by discriminate. cbn [obind].
    eexists. eexists. split; [reflexivity|]. split; [reflexivity|].
    cbn [pi_ProjectedInterest pi_TotalIfUnpaid pi_CurrentBalance].
    split; [reflexivity|]. split; [apply toQ_Add|]. split; [reflexivity|].
    intro Hle. apply LessThanOrEqual_false in E. rewrite toQ_Zero in E.
    exfalso. apply (Qlt_not_le _ _ E). exact Hle.
Qed.


End InterestMethods.

Lemma calculateDailyBalanceInterest_value_witness :
  (Decimal.toQ (InterestService.calculateDailyBalanceInterest
                  [Examples.day (-500); Examples.day 0] Examples.test_dpr) == 0)%Q.
Proof.
  apply (proj2 (proj2 (calculateDailyBalanceInterest_value
                         [Examples.day (-500); Examples.day 0] Examples.test_dpr))).
  intros r [<-|[<-|[]]]; vm_compute; discriminate.
Defined.

Lemma calculateAdjustedBalanceInterest_value_witness :
  InterestService.calculateAdjustedBalanceInterest
    (Decimal.NewFromInt 100) (Decimal.NewFromInt 100) (Decimal.mk 1825 (-2))
  = Ok Decimal.Zero.
Proof.
  apply (proj1 (calculateAdjustedBalanceInterest_value
                  (Decimal.NewFromInt 100) (Decimal.NewFromInt 100)
                  (Decimal.mk 1825 (-2)))).
  vm_compute. discriminate.
Defined.

Lemma CalculateProjectedInterest_agrees_witness :
  exists projection,
    InterestService.CalculateProjectedInterest (Decimal.NewFromInt (-50))
      (Decimal.mk 1825 (-2)) 30 = Ok projection
    /\ pi_ProjectedInterest projection = Decimal.Zero.
Proof.
  destruct (CalculateProjectedInterest_agrees Examples.card_7 (Decimal.NewFromInt (-50))
              (Decimal.mk 1825 (-2)) 30)
    as (projection & dpr & Hrun & _ & _ & _ & _ & Hzero).
  exists projection. split; [exact Hrun|].
  apply Hzero. vm_compute. discriminate.
Defined.


Section MinimumInterestCharge.
Import Decimal.
Local Open Scope Q_scope.

Variable running_balance_query :
  list StatementLedgerEntry -> UUID -> Time -> Time -> list DailyBalanceRecord.

Lemma round_last_digit_tens : forall m : Z, round_last_digit (10 * m) = m.
Proof.
  intro m. destruct (round_last_digit_bounds (10 * m)) as [Hpos Hneg].
  destruct (Z.le_gt_cases 0 (10 * m)) as [H|H].
  - specialize (Hpos H). lia.
  - specialize (Hneg ltac:(lia)). lia.
Qed.

(** Rounding to at least as many places as the number has changes
    nothing. *)
Lemma Round_exact : forall d places,
  (- places <= exp d)%Z -> toQ (Round d places) == toQ d.
Proof.
  intros [v x] places H. unfold Round. cbn [value exp] in *.
  destruct (Z.eqb_spec x (- places)) as [E|E]; [reflexivity|].
  unfold rescale. cbn [value exp].
  destruct (Z.eqb_spec x (- places - 1)) as [E1|_]; [lia|].
  destruct (Z.ltb_spec x (- places - 1)) as [E2|_]; [lia|].
  cbn [value exp].
  replace (Z.abs (- places - 1 - x)) with ((x + places) + 1)%Z by lia.
  rewrite Z.pow_add_r, Z.pow_1_r by lia.
  replace (v * (10 ^ (x + places) * 10))%Z with (10 * (v * 10 ^ (x + places)))%Z by ring.
  rewrite round_last_digit_tens.
  replace (- places - 1 + 1)%Z with (x - (x + places))%Z by lia.
  apply toQ_scale. lia.
Qed.

Lemma exp_calculateADBInterest : forall adb dpr days,
  (- 2 <= exp (InterestService.calculateADBInterest adb dpr days))%Z.
Proof.
  intros adb dpr days. unfold InterestService.calculateADBInterest.
  destruct (LessThanOrEqual adb Zero); [cbn; lia|rewrite exp_Round; lia].
Qed.

Lemma exp_calculateAdjustedBalanceInterest : forall previous payments apr i,
  InterestService.calculateAdjustedBalanceInterest previous payments apr = Ok i ->
  (- 2 <= exp i)%Z.
Proof.
  intros previous payments apr i H.
  unfold InterestService.calculateAdjustedBalanceInterest in H. cbv zeta in H.
  destruct (LessThanOrEqual _ Zero).
  - injection H as <-. cbn. lia.
  - rewrite (Div_nonzero apr (NewFromInt 12)) in H by discriminate. cbn [obind] in H.
    rewrite (Div_nonzero _ (NewFromInt 100)) in H by discriminate. cbn [obind] in H.
    injection H as <-. rewrite exp_Round. lia.
Qed.

(** The minimum interest charge.  With a rounding precision of two
    places or more and a minimum charge that has no more decimals than
    that, a charge that is not waived is never strictly between zero and
    the minimum: whatever the method, it is zero or less, or at least
    the minimum. *)
Theorem minimum_interest_charge_floor : forall card cycle config w result w',
  conn_ok w = true ->
  (2 <= ic_RoundingPrecision config)%Z ->
  (- ic_RoundingPrecision config <= exp (ic_MinimumInterestCharge config))%Z ->
  InterestService.CalculateInterest running_balance_query card cycle config w
  = (Ok result, w') ->
  icr_WaivedDueToGracePeriod result = false ->
  toQ (icr_InterestCharge result) <= 0
  \/ toQ (ic_MinimumInterestCharge config) <= toQ (icr_InterestCharge result).
Proof.
  intros card cycle config w result w' Hconn Hp Hmin Hrun Hwaived.
  destruct (CalculateAverageDailyBalance_total
              (running_balance_query (statement_ledger_entries w) (cc_ID card)
                 (bc_CycleStartDate cycle) (bc_CycleEndDate cycle))) as [adb Hadb].
  rewrite (CalculateInterest_run running_balance_query card cycle config w adb Hconn Hadb)
    in Hrun.
  cbv zeta in Hrun.
  destruct (InterestService.qualifiesForGracePeriod card cycle (after_clock_read w))
    as [[[|]|e|m] w2]; try discriminate Hrun.
  { injection Hrun as <- _. discriminate Hwaived. }
  destruct (if String.eqb (ic_Method config) _ then _ else _) as [i|e|m] eqn:Hi;
    try discriminate Hrun.
  assert (Hexp : (- 2 <= exp i)%Z).
  { destruct (String.eqb (ic_Method config)
                InterestCalculationMethod.AverageDailyBalanceMethod).
    { injection Hi as <-. apply exp_calculateADBInterest. }
    destruct (String.eqb (ic_Method config) InterestCalculationMethod.DailyBalanceMethod).
    { injection Hi as <-. rewrite exp_calculateDailyBalanceInterest. lia. }
    destruct (String.eqb (ic_Method config)
                InterestCalculationMethod.AdjustedBalanceMethod).
    { apply (exp_calculateAdjustedBalanceInterest _ _ _ _ Hi). }
    injection Hi as <-. apply exp_calculateADBInterest. }
  injection Hrun as <- _. cbn [icr_InterestCharge].
  destruct (GreaterThan i Zero) eqn:G; cbn [andb].
  - destruct (LessThan i (ic_MinimumInterestCharge config)) eqn:L.
    + right. rewrite (Round_exact _ _ Hmin). apply Qle_refl.
    + right. rewrite (Round_exact i) by lia. apply LessThan_false in L. exact L.
  - left. rewrite (Round_exact i) by lia.
    apply GreaterThan_false in G. rewrite toQ_Zero in G. exact G.
Qed.

End MinimumInterestCharge.

Lemma minimum_interest_charge_floor_witness :
  match InterestService.CalculateInterest Examples.thirty_days_query Examples.card_7_365
          Examples.cycle_2 InterestService.DefaultInterestConfig
          Examples.world_without_grace with
  | (Ok result, _) =>
      (Decimal.toQ (icr_InterestCharge result) <= 0
       \/ Decimal.toQ (Decimal.mk 5 (-1)) <= Decimal.toQ (icr_InterestCharge result))%Q
  | _ => False
  end.
Proof.
  destruct (InterestService.CalculateInterest Examples.thirty_days_query
              Examples.card_7_365 Examples.cycle_2 InterestService.DefaultInterestConfig
              Examples.world_without_grace) as [[result|e|m] w'] eqn:Hrun.
  - apply (minimum_interest_charge_floor Examples.thirty_days_query Examples.card_7_365
             Examples.cycle_2 InterestService.DefaultInterestConfig
             Examples.world_without_grace result w').
    + reflexivity.
    + cbn. lia.
    + cbn. lia.
    + exact Hrun.
    + vm_compute in Hrun. injection Hrun as <- _. reflexivity.
  - vm_compute in Hrun. discriminate Hrun.
  - vm_compute in Hrun. discriminate Hrun.
Defined.


(** ** Signed amounts of ledger entries *)

Section SignedAmounts.
Import Decimal.
Import EntryType.
Local Open Scope Q_scope.

Lemma toQ_Abs : forall d, toQ (Abs d) == Qabs (toQ d).
Proof.
  intros [v x]. unfold Abs. cbn [value exp]. rewrite !toQ_mk.
  rewrite Qabs_Qmult, (Qabs_pos ((10 # 1) ^ x)).
  - apply Qmult_comp; [|reflexivity].
    unfold Qabs, inject_Z. cbn. reflexivity.
  - apply Qlt_le_weak, ten_pos.
Qed.

Lemma IsPositive_spec : forall d, IsPositive d = true <-> 0 < toQ d.
Proof.
  intros [v x]. unfold IsPositive, Sign. cbn [value]. rewrite toQ_mk.
  assert (Hten : 0 < (10 # 1) ^ x) by apply ten_pos.
  rewrite Z.eqb_eq, Z.sgn_pos_iff. split; intro H.
  - apply Qmult_lt_0_compat; [|exact Hten].
    change 0 with (inject_Z 0). rewrite <- Zlt_Qlt. exact H.
  - destruct (Z.lt_ge_cases 0 v) as [Hv|Hv]; [exact Hv|exfalso].
    apply (Qlt_not_le _ _ H).
    rewrite <- (Qmult_0_l ((10 # 1) ^ x)). apply Qmult_le_compat_r.
    + change 0 with (inject_Z 0). rewrite <- Zle_Qle. exact Hv.
    + apply Qlt_le_weak, Hten.
Qed.

Let debit_types : list string :=
  [Transaction; CashAdvance; FeeLate; FeeFailed; FeeInternational;
   FeeInterest; FeeOverLimit; FeeAnnual; FeeCashAdvance; ReturnedReward].

Let by_sign_types : list string := [Adjustment; CashbackEarned].

Lemma existsb_eqb_In : forall (t : string) types,
  existsb (String.eqb t) types = true <-> In t types.
Proof.
  intros t types. rewrite existsb_exists. split.
  - intros [x [Hin Heq]]. apply String.eqb_eq in Heq. subst x. exact Hin.
  - intro Hin. exists t. split; [exact Hin|apply String.eqb_refl].
Qed.

Lemma existsb_eqb_not_In : forall (t : string) types,
  existsb (String.eqb t) types = false <-> ~ In t types.
Proof.
  intros t types. rewrite <- existsb_eqb_In. symmetry. apply Bool.not_true_iff_false.
Qed.

(** [GetSignedAmount] by entry type.  The result always has the magnitude
    of the amount; it is the magnitude itself for a purchase, a cash
    advance, a fee and a returned reward, the amount with its own sign for
    an adjustment and for cashback earned, and the negated magnitude for
    every other entry type, known or not. *)
Theorem GetSignedAmount_sign : forall e,
  let signed := toQ (StatementLedgerEntryM.GetSignedAmount e) in
  let amount := toQ (sle_Amount e) in
  Qabs signed == Qabs amount
  /\ (In (sle_EntryType e) debit_types -> signed == Qabs amount)
  /\ (In (sle_EntryType e) by_sign_types -> signed == amount)
  /\ (~ In (sle_EntryType e) (debit_types ++ by_sign_types) -> signed == - Qabs amount).
Proof.
  intros e signed amount. subst signed amount.
  unfold StatementLedgerEntryM.GetSignedAmount, StatementLedgerEntryM.IsDebit.
  cbv zeta.
  assert (Hdisj : forall t, In t debit_types -> In t by_sign_types -> False).
  { intros t Hd Hs. unfold debit_types, by_sign_types in *. cbn in Hd, Hs.
    repeat (destruct Hs as [<-|Hs]; [repeat (destruct Hd as [Hd|Hd]; [discriminate Hd|]); exact Hd|]).
    exact Hs. }
  assert (Hdisj2 : forall t, In t [Payment; Refund; Reward; Credit; CashbackRedeemed] ->
                             In t by_sign_types -> False).
  { intros t Hd Hs. unfold by_sign_types in *. cbn in Hd, Hs.
    repeat (destruct Hs as [<-|Hs]; [repeat (destruct Hd as [Hd|Hd]; [discriminate Hd|]); exact Hd|]).
    exact Hs. }
  match goal with
  | |- context [if existsb ?f ?l then true else _] => destruct (existsb f l) eqn:Hd
  end.
  { apply existsb_eqb_In in Hd. cbv iota. rewrite toQ_Abs. split; [|split; [|split]].
    - apply Qabs_pos, Qabs_nonneg.
    - intros _. reflexivity.
    - intro Hs. exfalso. exact (Hdisj _ Hd Hs).
    - intro Hn. exfalso. apply Hn, in_or_app. left. exact Hd. }
  apply existsb_eqb_not_In in Hd.
  match goal with
  | |- context [if existsb ?f ?l then false else _] => destruct (existsb f l) eqn:Hc
  end.
  { apply existsb_eqb_In in Hc. cbv iota. rewrite toQ_Neg, toQ_Abs. split; [|split; [|split]].
    - rewrite Qabs_opp. rewrite Qabs_pos; [reflexivity|apply Qabs_nonneg].
    - intro H. contradiction.
    - intro Hs. exfalso. exact (Hdisj2 _ Hc Hs).
    - intros _. reflexivity. }
  match goal with
  | |- context [if existsb ?f ?l then IsPositive _ else _] => destruct (existsb f l) eqn:Hs
  end.
  { apply existsb_eqb_In in Hs. cbv iota.
    destruct (IsPositive (sle_Amount e)) eqn:Hp.
    - apply IsPositive_spec in Hp.
      assert (Ha : Qabs (toQ (sle_Amount e)) == toQ (sle_Amount e))
        by apply Qabs_pos, Qlt_le_weak, Hp.
      split; [|split; [|split]].
      + rewrite toQ_Abs. apply Qabs_pos, Qabs_nonneg.
      + intro H. contradiction.
      + intros _. rewrite toQ_Abs. exact Ha.
      + intro Hn. exfalso. apply Hn, in_or_app. right. exact Hs.
    - assert (Hle : toQ (sle_Amount e) <= 0).
      { apply Qnot_lt_le. intro H. apply IsPositive_spec in H. congruence. }
      assert (Ha : Qabs (toQ (sle_Amount e)) == - toQ (sle_Amount e))
        by apply Qabs_neg, Hle.
      split; [|split; [|split]].
      + rewrite toQ_Neg, toQ_Abs, Qabs_opp. apply Qabs_pos, Qabs_nonneg.
      + intro H. contradiction.
      + intros _. rewrite toQ_Neg, toQ_Abs, Ha. apply Qopp_involutive.
      + intro Hn. exfalso. apply Hn, in_or_app. right. exact Hs. }
  apply existsb_eqb_not_In in Hs. cbv iota.
  rewrite toQ_Neg, toQ_Abs. split; [|split; [|split]].
  - rewrite Qabs_opp. rewrite Qabs_pos; [reflexivity|apply Qabs_nonneg].
  - intro H. contradiction.
  - intro H. contradiction.
  - intros _. reflexivity.
Qed.

(** The term an entry contributes to the balance views against its
    signed amount.  They agree for a purchase, a late, failed-payment or
    international fee and a returned reward, for a payment, a refund, a
    reward and a credit, when the amount is not negative, and for every
    adjustment; an interest, over-limit, annual or cash-advance fee, a cash
    advance and the cashback entries contribute nothing to the views
    although their signed amount is the amount. *)
Theorem balance_term_and_GetSignedAmount : forall e,
  let term := toQ (StatementLedgerService.balance_term e) in
  let signed := toQ (StatementLedgerEntryM.GetSignedAmount e) in
  let amount := toQ (sle_Amount e) in
  (In (sle_EntryType e)
      [Transaction; FeeLate; FeeFailed; FeeInternational; ReturnedReward;
       Payment; Refund; Reward; Credit] ->
   0 <= amount -> term == signed)
  /\ (sle_EntryType e = Adjustment -> term == signed)
  /\ (In (sle_EntryType e)
         [FeeInterest; FeeOverLimit; FeeAnnual; FeeCashAdvance; CashAdvance] ->
      term == 0 /\ signed == Qabs amount)
  /\ (sle_EntryType e = CashbackEarned -> term == 0 /\ signed == amount)
  /\ (sle_EntryType e = CashbackRedeemed -> term == 0 /\ signed == - Qabs amount).
Proof.
  intros e term signed amount. subst term signed amount.
  unfold StatementLedgerService.balance_term, StatementLedgerEntryM.GetSignedAmount,
    StatementLedgerEntryM.IsDebit.
  cbv zeta.
  assert (Hsign : toQ (if IsPositive (sle_Amount e) then Abs (sle_Amount e)
                       else Neg (Abs (sle_Amount e))) == toQ (sle_Amount e)).
  { destruct (IsPositive (sle_Amount e)) eqn:Hp.
    - apply IsPositive_spec in Hp. rewrite toQ_Abs. apply Qabs_pos, Qlt_le_weak, Hp.
    - assert (Hle : toQ (sle_Amount e) <= 0).
      { apply Qnot_lt_le. intro H. apply IsPositive_spec in H. congruence. }
      rewrite toQ_Neg, toQ_Abs, (Qabs_neg _ Hle). apply Qopp_involutive. }
  split; [|split; [|split; [|split]]].
  - intros Hin Hpos. cbn [In] in Hin.
    repeat (destruct Hin as [<-|Hin];
            [cbn; rewrite ?toQ_Neg, toQ_Abs, (Qabs_pos _ Hpos); reflexivity|]).
    contradiction.
  - intros ->. cbn. symmetry. exact Hsign.
  - intro Hin. cbn [In] in Hin.
    repeat (destruct Hin as [<-|Hin]; [cbn; split; [reflexivity|apply toQ_Abs]|]).
    contradiction.
  - intros ->. cbn. split; [reflexivity|exact Hsign].
  - intros ->. cbn. split; [reflexivity|]. rewrite toQ_Neg, toQ_Abs. reflexivity.
Qed.

End SignedAmounts.

Lemma GetSignedAmount_sign_witness :
  (Decimal.toQ (StatementLedgerEntryM.GetSignedAmount Examples.late_fee_row)
   == Qabs (Decimal.toQ (sle_Amount Examples.late_fee_row)))%Q.
Proof.
  pose proof (GetSignedAmount_sign Examples.late_fee_row) as H. cbv zeta in H.
  destruct H as (_ & H & _ & _). apply H.
  cbn. tauto.
Defined.

Lemma balance_term_and_GetSignedAmount_witness :
  (Decimal.toQ (StatementLedgerService.balance_term Examples.interest_fee_row) == 0
   /\ Decimal.toQ (StatementLedgerEntryM.GetSignedAmount Examples.interest_fee_row)
      == Qabs (Decimal.toQ (sle_Amount Examples.interest_fee_row)))%Q.
Proof.
  pose proof (balance_term_and_GetSignedAmount Examples.interest_fee_row) as H.
  cbv zeta in H. destruct H as (_ & _ & H & _ & _). apply H.
  cbn. tauto.
Defined.

(** ** Earning rules: points and cashback *)

Section EarningRules.
Import Decimal.
Local Open Scope Q_scope.

Lemma value_nonneg : forall v x, 0 <= toQ (mk v x) -> (0 <= v)%Z.
Proof.
  intros v x H. destruct (Z.lt_ge_cases v 0) as [Hv|Hv]; [exfalso|exact Hv].
  apply (Qle_not_lt _ _ H). rewrite toQ_mk.
  rewrite <- (Qmult_0_l ((10 # 1) ^ x)). apply Qmult_lt_compat_r; [apply ten_pos|].
  change 0 with (inject_Z 0). rewrite <- Zlt_Qlt. exact Hv.
Qed.

Lemma Qfloor_unique : forall (x : Q) (z : Z),
  inject_Z z <= x -> x < inject_Z (z + 1) -> Qfloor x = z.
Proof.
  intros x z Hlo Hhi.
  assert (H1 : (z <= Qfloor x)%Z).
  { rewrite <- (Qfloor_Z z). apply Qfloor_resp_le. exact Hlo. }
  assert (H2 : (Qfloor x < z + 1)%Z).
  { rewrite Zlt_Qlt. apply Qle_lt_trans with x; [apply Qfloor_le|exact Hhi]. }
  lia.
Qed.

(** The integer part of a number that is not negative is its floor. *)
Lemma IntPart_floor : forall d, 0 <= toQ d -> IntPart d = Qfloor (toQ d).
Proof.
  intros [v x] Hpos. symmetry. unfold IntPart.
  destruct (Z.le_gt_cases 0 x) as [Hx|Hx].
  - assert (E : toQ (mk v x) == inject_Z (value (rescale (mk v x) 0))).
    { rewrite <- (toQ_rescale_down (mk v x) 0) by exact Hx.
      unfold toQ. rewrite exp_rescale. cbn. ring. }
    rewrite E. apply Qfloor_Z.
  - pose proof (value_nonneg v x Hpos) as Hv.
    unfold rescale. cbn [value exp].
    destruct (Z.eqb_spec x 0) as [E|_]; [lia|].
    destruct (Z.ltb_spec x 0) as [_|E]; [|lia].
    cbn [value]. replace (Z.abs (0 - x)) with (- x)%Z by lia.
    pose proof (pow10_pos (- x) ltac:(lia)) as HK.
    set (K := (10 ^ (- x))%Z) in *.
    rewrite Z.quot_div_nonneg by lia.
    assert (Hscale : forall q : Z, toQ (mk (q * K) x) == inject_Z q).
    { intro q. replace x with (0 - - x)%Z at 1 by lia. unfold K.
      rewrite toQ_scale by lia. rewrite toQ_mk. cbn. ring. }
    assert (Hmono : forall a b : Z, (a <= b)%Z -> toQ (mk a x) <= toQ (mk b x)).
    { intros a b Hab. rewrite !toQ_mk. apply Qmult_le_compat_r.
      - rewrite <- Zle_Qle. exact Hab.
      - apply Qlt_le_weak, ten_pos. }
    assert (Hstrict : forall a b : Z, (a < b)%Z -> toQ (mk a x) < toQ (mk b x)).
    { intros a b Hab. rewrite !toQ_mk. apply Qmult_lt_compat_r; [apply ten_pos|].
      rewrite <- Zlt_Qlt. exact Hab. }
    apply Qfloor_unique.
    + rewrite <- (Hscale (v / K)%Z). apply Hmono.
      rewrite Z.mul_comm. apply Z.mul_div_le. exact HK.
    + rewrite <- (Hscale (v / K + 1)%Z). apply Hstrict.
      pose proof (Z.mul_succ_div_gt v K HK). lia.
Qed.

Lemma Int64_small : forall z : Z, (0 <= z < 2 ^ 63)%Z -> PointsEarningRuleM.Int64 z = z.
Proof.
  intros z Hz. unfold PointsEarningRuleM.Int64.
  destruct (Z.ltb_spec z 0) as [E|_]; [lia|].
  rewrite Z.abs_eq by lia. rewrite Z.mod_small by lia. apply wrap64_small. lia.
Qed.

(** [CalculatePointsEarned].  An amount below the rule's minimum earns
    nothing; otherwise the result never exceeds the rule's maximum, when
    there is one, and for a product of amount and rate from zero up to the
    64-bit range it is the product rounded down to a whole number, cut at
    the maximum. *)
Theorem CalculatePointsEarned_value : forall r amount,
  let earned := PointsEarningRuleM.CalculatePointsEarned r amount in
  let product := toQ amount * toQ (per_PointsPerDollar r) in
  (toQ amount < toQ (per_MinAmount r) -> earned = 0%Z)
  /\ (toQ (per_MinAmount r) <= toQ amount ->
      (forall maxPoints, per_MaxPoints r = Some maxPoints -> (earned <= maxPoints)%Z)
      /\ (0 <= product -> product < inject_Z (2 ^ 63) ->
          earned = match per_MaxPoints r with
                   | Some maxPoints => Z.min maxPoints (Qfloor product)
                   | None => Qfloor product
                   end)).
Proof.
  intros r amount earned product. subst earned product.
  unfold PointsEarningRuleM.CalculatePointsEarned. cbv zeta.
  split.
  - intro H. apply LessThan_spec in H. rewrite H. reflexivity.
  - intro H. apply LessThan_false in H. rewrite H. split.
    + intros maxPoints ->.
      destruct (Z.ltb_spec maxPoints
                  (PointsEarningRuleM.Int64 (IntPart (Mul amount (per_PointsPerDollar r)))));
        lia.
    + intros Hlo Hhi.
      rewrite <- toQ_Mul in Hlo, Hhi.
      rewrite (IntPart_floor _ Hlo).
      assert (Hq : Qfloor (toQ (Mul amount (per_PointsPerDollar r)))
                   = Qfloor (toQ amount * toQ (per_PointsPerDollar r))).
      { apply Qfloor_comp, toQ_Mul. }
      assert (Hrange : (0 <= Qfloor (toQ (Mul amount (per_PointsPerDollar r))) < 2 ^ 63)%Z).
      { split.
        - change 0%Z with (Qfloor 0). apply Qfloor_resp_le. exact Hlo.
        - rewrite Zlt_Qlt. apply Qle_lt_trans with (toQ (Mul amount (per_PointsPerDollar r)));
            [apply Qfloor_le|exact Hhi]. }
      rewrite (Int64_small _ Hrange). rewrite Hq.
      destruct (per_MaxPoints r) as [maxPoints|]; [|reflexivity].
      destruct (Z.ltb_spec maxPoints (Qfloor (toQ amount * toQ (per_PointsPerDollar r))));
        lia.
Qed.

(** [IsActiveOn]: a category bonus applies exactly when the category is
    switched on and the date is neither before its start nor after its
    end, where these are set; both bounds are included. *)
Lemma IsActiveOn_spec : forall c date,
  CashbackM.IsActiveOn c date = true
  <-> cat_IsActive c = true
      /\ (forall s, cat_StartDate c = Some s -> (s <= date)%Z)
      /\ (forall e, cat_EndDate c = Some e -> (date <= e)%Z).
Proof.
  intros c date. unfold CashbackM.IsActiveOn, Time_Before, Time_After.
  destruct (cat_IsActive c); cbn [negb].
  2:{ split; [discriminate|intros [H _]; discriminate H]. }
  destruct (cat_StartDate c) as [s|].
  - destruct (Z.ltb_spec date s) as [Hs|Hs].
    + split; [discriminate|]. intros (_ & H & _). specialize (H s eq_refl). lia.
    + destruct (cat_EndDate c) as [e|].
      * destruct (Z.ltb_spec e date) as [He|He].
        -- split; [discriminate|]. intros (_ & _ & H). specialize (H e eq_refl). lia.
        -- split; [|reflexivity]. intros _. repeat split.
           ++ intros s' E. injection E as <-. exact Hs.
           ++ intros e' E. injection E as <-. exact He.
      * split; [|reflexivity]. intros _. repeat split.
        -- intros s' E. injection E as <-. exact Hs.
        -- intros e' E. discriminate E.
  - destruct (cat_EndDate c) as [e|].
    + destruct (Z.ltb_spec e date) as [He|He].
      * split; [discriminate|]. intros (_ & _ & H). specialize (H e eq_refl). lia.
      * split; [|reflexivity]. intros _. repeat split.
        -- intros s' E. discriminate E.
        -- intros e' E. injection E as <-. exact He.
    + split; [|reflexivity]. intros _. repeat split; intros x E; discriminate E.
Qed.

(** [CalculateCashback] always returns.  Below the minimum transaction
    amount both results are zero.  Otherwise the rate is the category's
    bonus rate when the category is known, active on the date and its
    bonus exceeds the base rate, and the base rate in every other case, so
    it is never below the base rate; the cashback is within half a cent
    (and the error of the division) of amount times rate over 100 when
    that is not over the per-transaction cap, and never exceeds the cap. *)
Theorem CalculateCashback_value : forall r amount categoryCode txDate,
  exists cashback rate,
    CashbackM.CalculateCashback r amount categoryCode txDate = Ok (cashback, rate)
    /\ (toQ amount < toQ (cer_MinTransaction r) -> cashback = Zero /\ rate = Zero)
    /\ (toQ (cer_MinTransaction r) <= toQ amount ->
        toQ (cer_BaseRate r) <= toQ rate
        /\ (rate = cer_BaseRate r
            \/ exists cat,
                 CashbackM.lookup categoryCode (cer_CategoryRules r) = Some cat
                 /\ CashbackM.IsActiveOn cat txDate = true
                 /\ toQ (cer_BaseRate r) < toQ (cat_BonusRate cat)
                 /\ rate = cat_BonusRate cat)
        /\ (forall cat,
              CashbackM.lookup categoryCode (cer_CategoryRules r) = Some cat ->
              CashbackM.IsActiveOn cat txDate = true ->
              toQ (cer_BaseRate r) < toQ (cat_BonusRate cat) ->
              rate = cat_BonusRate cat)
        /\ (forall cap, cer_MaxCashbackPerTx r = Some cap -> toQ cashback <= toQ cap)
        /\ (Qabs (toQ cashback - toQ amount * toQ rate / 100)
            <= (1 # 200) + (1 # 20000000000000000)
            \/ exists cap, cer_MaxCashbackPerTx r = Some cap /\ cashback = cap)).
Proof.
  intros r amount categoryCode txDate.
  unfold CashbackM.CalculateCashback.
  destruct (LessThan amount (cer_MinTransaction r)) eqn:Hmin.
  { exists Zero, Zero. split; [reflexivity|]. split; [intros _; split; reflexivity|].
    intro H. apply LessThan_spec in Hmin. exfalso. exact (Qlt_not_le _ _ Hmin H). }
  apply LessThan_false in Hmin. cbv zeta.
  set (rate := match CashbackM.lookup categoryCode (cer_CategoryRules r) with
               | Some cat =>
                   if CashbackM.IsActiveOn cat txDate
                      && GreaterThan (cat_BonusRate cat) (cer_BaseRate r)
                   then cat_BonusRate cat
                   else cer_BaseRate r
               | None => cer_BaseRate r
               end).
  rewrite (Div_nonzero (Mul amount rate) (NewFromInt 100)) by discriminate.
  cbn [obind].
  set (quotient := DivRound_nz (Mul amount rate) (NewFromInt 100) DivisionPrecision).
  assert (Hquot : Qabs (toQ quotient - toQ amount * toQ rate / 100)
                  <= 1 # 20000000000000000).
  { assert (Hne : value (NewFromInt 100) <> 0%Z) by discriminate.
    pose proof (Div_error (Mul amount rate) (NewFromInt 100) quotient
                  (Div_nonzero _ _ Hne)) as H.
    rewrite toQ_Mul, toQ_NewFromInt in H. exact H. }
  assert (Hround : Qabs (toQ (Round quotient 2) - toQ amount * toQ rate / 100)
                   <= (1 # 200) + (1 # 20000000000000000)).
  { setoid_replace (toQ (Round quotient 2) - toQ amount * toQ rate / 100)
      with ((toQ (Round quotient 2) - toQ quotient)
            + (toQ quotient - toQ amount * toQ rate / 100)) by ring.
    eapply Qle_trans; [apply Qabs_triangle|].
    apply Qplus_le_compat; [apply Round_2_error|exact Hquot]. }
  assert (Hrate : toQ (cer_BaseRate r) <= toQ rate
                  /\ (rate = cer_BaseRate r
                      \/ exists cat,
                           CashbackM.lookup categoryCode (cer_CategoryRules r) = Some cat
                           /\ CashbackM.IsActiveOn cat txDate = true
                           /\ toQ (cer_BaseRate r) < toQ (cat_BonusRate cat)
                           /\ rate = cat_BonusRate cat)
                  /\ (forall cat,
                        CashbackM.lookup categoryCode (cer_CategoryRules r) = Some cat ->
                        CashbackM.IsActiveOn cat txDate = true ->
                        toQ (cer_BaseRate r) < toQ (cat_BonusRate cat) ->
                        rate = cat_BonusRate cat)).
  { subst rate.
    destruct (CashbackM.lookup categoryCode (cer_CategoryRules r)) as [cat|].
    2:{ split; [apply Qle_refl|]. split; [left; reflexivity|]. intros cat E. discriminate E. }
    destruct (CashbackM.IsActiveOn cat txDate) eqn:Hact; cbn [andb].
    2:{ split; [apply Qle_refl|]. split; [left; reflexivity|].
        intros cat' E Hact'. injection E as <-. congruence. }
    destruct (GreaterThan (cat_BonusRate cat) (cer_BaseRate r)) eqn:Hgt.
    - apply GreaterThan_spec in Hgt. split; [apply Qlt_le_weak, Hgt|]. split.
      + right. exists cat. repeat split; try reflexivity; assumption.
      + intros cat' E _ _. injection E as <-. reflexivity.
    - apply GreaterThan_false in Hgt. split; [apply Qle_refl|]. split; [left; reflexivity|].
      intros cat' E _ Hlt. injection E as <-. exfalso. exact (Qlt_not_le _ _ Hlt Hgt). }
  destruct Hrate as (Hbase & Hwhich & Hbonus).
  destruct (cer_MaxCashbackPerTx r) as [cap|] eqn:Hcap.
  - destruct (GreaterThan (Round quotient 2) cap) eqn:Hover.
    + exists cap, rate. split; [reflexivity|]. split.
      { intro H. exfalso. exact (Qlt_not_le _ _ H Hmin). }
      intros _. split; [exact Hbase|]. split; [exact Hwhich|]. split; [exact Hbonus|]. split.
      * intros cap' E. injection E as <-. apply Qle_refl.
      * right. exists cap. split; reflexivity.
    + exists (Round quotient 2), rate. split; [reflexivity|]. split.
      { intro H. exfalso. exact (Qlt_not_le _ _ H Hmin). }
      intros _. split; [exact Hbase|]. split; [exact Hwhich|]. split; [exact Hbonus|]. split.
      * intros cap' E. injection E as <-. apply GreaterThan_false in Hover. exact Hover.
      * left. exact Hround.
  - exists (Round quotient 2), rate. split; [reflexivity|]. split.
    { intro H. exfalso. exact (Qlt_not_le _ _ H Hmin). }
    intros _. split; [exact Hbase|]. split; [exact Hwhich|]. split; [exact Hbonus|]. split.
    + intros cap' E. discriminate E.
    + left. exact Hround.
Qed.

End EarningRules.

Lemma CalculatePointsEarned_value_witness :
  PointsEarningRuleM.CalculatePointsEarned Examples.points_rule (Decimal.mk 1299 (-2))
  = 12.
Proof.
  pose proof (CalculatePointsEarned_value Examples.points_rule (Decimal.mk 1299 (-2))) as H.
  cbv zeta in H. destruct H as [_ H].
  assert (Hmin : (Decimal.toQ (per_MinAmount Examples.points_rule)
                  <= Decimal.toQ (Decimal.mk 1299 (-2)))%Q).
  { vm_compute. discriminate. }
  destruct (H Hmin) as [_ Hvalue].
  rewrite Hvalue.
  - reflexivity.
  - vm_compute. discriminate.
  - vm_compute. reflexivity.
Defined.

Lemma CalculateCashback_value_witness :
  exists cashback rate,
    CashbackM.CalculateCashback Examples.cashback_rule (Decimal.mk 10000 (-2)) "dining"
      (10 * 24 * time_Hour) = Ok (cashback, rate)
    /\ rate = Decimal.mk 3 0
    /\ (Decimal.toQ cashback <= Decimal.toQ (Decimal.mk 200 (-2)))%Q.
Proof.
  destruct (CalculateCashback_value Examples.cashback_rule (Decimal.mk 10000 (-2)) "dining"
              (10 * 24 * time_Hour)) as (cashback & rate & Hrun & _ & H).
  assert (Hmin : (Decimal.toQ (cer_MinTransaction Examples.cashback_rule)
                  <= Decimal.toQ (Decimal.mk 10000 (-2)))%Q).
  { vm_compute. discriminate. }
  destruct (H Hmin) as (_ & _ & Hbonus & Hcap & _).
  exists cashback, rate. split; [exact Hrun|]. split.
  - apply (Hbonus Examples.dining).
    + reflexivity.
    + reflexivity.
    + vm_compute. reflexivity.
  - apply (Hcap (Decimal.mk 200 (-2))). reflexivity.
Defined.
